(** * cmsdetector: detection of CMS / PKCS container types

    A shallow embedding of the Go package [cmsdetector] and of the part of
    Go's [encoding/asn1] that it drives, followed by the properties of the
    detection entry point, of the heuristic fallback and of the derived
    predicates.

    The repository holds two versions of the detector, which cannot be
    compiled together (both define [Detect]); each has its module.

    Definitions:
    - [GoRt]     : what the code uses of the Go runtime and of package
                   [bytes] (run-time panics, indexing, slicing, Equal,
                   Contains);
    - [asn1]     : [encoding/asn1] (Go 1.18 and later) restricted to the
                   [ContentInfo] shape: [Unmarshal], the OID type, and the
                   encoder [Marshal] that the tests use;
    - [Strict]   : [detector.go] with strict detection only, and the
                   key-container predicates that scan the bytes themselves
                   ([IsUserKeyPKCS12], [IsNCAKeyPKCS12]);
    - [Fallback] : the detector with the encrypted PKCS#12 fallback
                   ([Detect], [isEncryptedPKCS12], the predicates that
                   delegate to [Detect]);
    - the test data of the repository and the vocabulary of the
      specification.

    Results:
    - the byte searches and the two heuristics as boolean expressions, with
      the absence of run-time panics;
    - the strict reader: what it accepts, the round trip with the encoder,
      and that its errors are those of [encoding/asn1];
    - the properties of the detector, C1 to C10.

    Go's [int] is modelled by [Z]: lengths are below 2^31 wherever the
    reader accepts them, so no operation of the code wraps around. *)

From Stdlib Require Import ZArith List Bool Lia.
From Stdlib.Strings Require Import String Ascii Byte.
From Stdlib Require Import DecimalString DecimalPos DecimalZ.
Import ListNotations.

Local Open Scope string_scope.
Local Open Scope list_scope.
Local Open Scope Z_scope.

(* ================================================================= *)
(** * Go runtime and package [bytes] *)

Module GoRt.

(** A Go computation either finishes with a value or panics at run time. *)
Inductive go (A : Type) : Type :=
| Done (a : A)
| Panic (msg : string).
Arguments Done {A} a.
Arguments Panic {A} msg.

Definition bind {A B : Type} (m : go A) (k : A -> go B) : go B :=
  match m with
  | Done a => k a
  | Panic msg => Panic msg
  end.

Notation "x <- m ;; k" := (bind m (fun x => k))
  (at level 61, m at next level, right associativity).

(** [len(s)], a Go [int]. *)
Definition len {A : Type} (s : list A) : Z := Z.of_nat (List.length s).

Definition byteval (b : byte) : Z := Z.of_N (Byte.to_N b).

(** [s[i]]: panics when [i] is out of range. *)
Definition index (s : list byte) (i : Z) : go byte :=
  if (i <? 0) || (len s <=? i)
  then Panic "index out of range"
  else Done (nth (Z.to_nat i) s x00).

(** [s[lo:hi]]: Go panics unless [0 <= lo <= hi <= cap(s)].  The capacity is
    not modelled; the length is taken for it, so a slice expression that is
    safe here is safe in Go. *)
Definition slice (s : list byte) (lo hi : Z) : go (list byte) :=
  if (lo <? 0) || (hi <? lo) || (len s <? hi)
  then Panic "slice bounds out of range"
  else Done (firstn (Z.to_nat (hi - lo)) (skipn (Z.to_nat lo) s)).

(** [bytes.Equal]. *)
Fixpoint Equal (a b : list byte) : bool :=
  match a, b with
  | [], [] => true
  | x :: a', y :: b' => Byte.eqb x y && Equal a' b'
  | _, _ => false
  end.

(** [bytes.HasPrefix]. *)
Fixpoint HasPrefix (s prefix : list byte) : bool :=
  match prefix, s with
  | [], _ => true
  | p :: prefix', x :: s' => Byte.eqb x p && HasPrefix s' prefix'
  | _ :: _, [] => false
  end.

(** [bytes.Contains(b, subslice)], that is [bytes.Index(b, subslice) != -1]:
    [subslice] occurs at some offset of [b]. *)
Fixpoint Contains (b subslice : list byte) : bool :=
  HasPrefix b subslice ||
  match b with
  | [] => false
  | _ :: b' => Contains b' subslice
  end.

(** [[]byte(s)] for an ASCII string constant. *)
Definition bytes_of (s : string) : list byte := list_byte_of_string s.

End GoRt.

(* ================================================================= *)
(** * Package [encoding/asn1], as driven by [Unmarshal(data, &contentInfo)] *)

Module asn1.
Import GoRt.

Inductive error : Type :=
| SyntaxError (msg : string)
| StructuralError (msg : string)
| InternalError (msg : string).

Inductive result (A : Type) : Type :=
| Ok (a : A)
| Err (e : error).
Arguments Ok {A} a.
Arguments Err {A} e.

(** [asn1.ObjectIdentifier] is [[]int]. *)
Definition ObjectIdentifier : Type := list Z.

(** [ObjectIdentifier.Equal]: same length and same arcs. *)
Fixpoint Equal (oi other : ObjectIdentifier) : bool :=
  match oi, other with
  | [], [] => true
  | x :: oi', y :: other' => (x =? y) && Equal oi' other'
  | _, _ => false
  end.

(** [strconv.AppendInt(buf, int64(v), 10)]. *)
Definition itoa (v : Z) : string := NilZero.string_of_int (Z.to_int v).

(** [ObjectIdentifier.String]: the arcs in decimal, joined by dots. *)
Fixpoint String_from (first : bool) (oi : ObjectIdentifier) : string :=
  match oi with
  | [] => ""
  | v :: oi' =>
    ((if first then "" else ".") ++ itoa v ++ String_from false oi')%string
  end.

Definition String (oi : ObjectIdentifier) : string := String_from true oi.

Record RawValue : Type := {
  Class : Z;
  Tag : Z;
  IsCompound : bool;
  Bytes : list byte;
  FullBytes : list byte
}.

Definition zeroRawValue : RawValue :=
  {| Class := 0; Tag := 0; IsCompound := false; Bytes := []; FullBytes := [] |}.

Record tagAndLength : Type := {
  class : Z;
  tag : Z;
  length : Z;
  isCompound : bool
}.

Definition ClassUniversal : Z := 0.
Definition ClassContextSpecific : Z := 2.
Definition TagOID : Z := 6.
Definition TagSequence : Z := 16.
Definition MaxInt32 : Z := 2147483647.

(** [bytes[offset]] guarded by [offset >= len(bytes)]. *)
Definition at_offset (bytes : list byte) (offset : Z) : option byte :=
  if offset <? 0 then None else nth_error bytes (Z.to_nat offset).

(** The loop of [parseBase128Int]; [5 - rem] is the loop counter [shifted]. *)
Fixpoint base128Loop (bytes : list byte) (offset ret64 : Z) (rem : nat)
  : result (Z * Z) :=
  match at_offset bytes offset with
  | None => Err (SyntaxError "truncated base 128 integer")
  | Some b =>
    match rem with
    | O => Err (StructuralError "base 128 integer too large")
    | S rem' =>
      let ret64 := Z.shiftl ret64 7 in
      if Nat.eqb rem 5 && (byteval b =? 128)
      then Err (SyntaxError "integer is not minimally encoded")
      else
        let ret64 := Z.lor ret64 (Z.land (byteval b) 127) in
        let offset := offset + 1 in
        if Z.land (byteval b) 128 =? 0
        then if MaxInt32 <? ret64
             then Err (StructuralError "base 128 integer too large")
             else Ok (ret64, offset)
        else base128Loop bytes offset ret64 rem'
    end
  end.

Definition parseBase128Int (bytes : list byte) (initOffset : Z)
  : result (Z * Z) :=
  base128Loop bytes initOffset 0 5.

(** The long-form length loop of [parseTagAndLength], [numBytes] rounds. *)
Fixpoint lengthLoop (bytes : list byte) (offset length : Z) (numBytes : nat)
  : result (Z * Z) :=
  match numBytes with
  | O => Ok (length, offset)
  | S n =>
    match at_offset bytes offset with
    | None => Err (SyntaxError "truncated tag or length")
    | Some b =>
      let offset := offset + 1 in
      if 8388608 <=? length
      then Err (StructuralError "length too large")
      else
        let length := Z.lor (Z.shiftl length 8) (byteval b) in
        if length =? 0
        then Err (StructuralError "superfluous leading zeros in length")
        else lengthLoop bytes offset length n
    end
  end.

Definition parseTagAndLength (bytes : list byte) (initOffset : Z)
  : result (tagAndLength * Z) :=
  match at_offset bytes initOffset with
  | None => Err (InternalError "internal error in parseTagAndLength")
  | Some b =>
    let offset := initOffset + 1 in
    let cls := Z.shiftr (byteval b) 6 in
    let compound := Z.land (byteval b) 32 =? 32 in
    let tg := Z.land (byteval b) 31 in
    let tagged :=
      if tg =? 31
      then match parseBase128Int bytes offset with
           | Err e => Err e
           | Ok (t, offset') =>
             if t <? 31 then Err (SyntaxError "non-minimal tag")
             else Ok (t, offset')
           end
      else Ok (tg, offset) in
    match tagged with
    | Err e => Err e
    | Ok (tg, offset) =>
      match at_offset bytes offset with
      | None => Err (SyntaxError "truncated tag or length")
      | Some b =>
        let offset := offset + 1 in
        if Z.land (byteval b) 128 =? 0
        then Ok ({| class := cls; tag := tg;
                    length := Z.land (byteval b) 127;
                    isCompound := compound |}, offset)
        else
          let numBytes := Z.land (byteval b) 127 in
          if numBytes =? 0
          then Err (SyntaxError "indefinite length found (not DER)")
          else
            match lengthLoop bytes offset 0 (Z.to_nat numBytes) with
            | Err e => Err e
            | Ok (l, offset) =>
              if l <? 128 then Err (StructuralError "non-minimal length")
              else Ok ({| class := cls; tag := tg; length := l;
                          isCompound := compound |}, offset)
            end
      end
    end
  end.

(** The arc loop of [parseObjectIdentifier].  Every round consumes at least
    one byte, so [len(bytes)] rounds are enough ([oidLoop_fuel] below); the
    [InternalError] of the last branch is never produced. *)
Fixpoint oidLoop (bytes : list byte) (offset : Z) (s : list Z) (fuel : nat)
  : result ObjectIdentifier :=
  if offset <? len bytes
  then match fuel with
       | O => Err (InternalError "arc loop out of fuel")
       | S fuel' =>
         match parseBase128Int bytes offset with
         | Err e => Err e
         | Ok (v, offset') => oidLoop bytes offset' (s ++ [v]) fuel'
         end
       end
  else Ok s.

Definition parseObjectIdentifier (bytes : list byte) : result ObjectIdentifier :=
  if len bytes =? 0
  then Err (SyntaxError "zero length OBJECT IDENTIFIER")
  else
    match parseBase128Int bytes 0 with
    | Err e => Err e
    | Ok (v, offset) =>
      let s := if v <? 80 then [v / 40; v mod 40] else [2; v - 80] in
      oidLoop bytes offset s (List.length bytes)
    end.

Definition invalidLength (offset length sliceLength : Z) : bool :=
  (offset + length <? offset) || (sliceLength <? offset + length).

(** [bytes[lo:hi]] where the bounds were checked by [invalidLength]. *)
Definition sub (bytes : list byte) (lo hi : Z) : list byte :=
  firstn (Z.to_nat (hi - lo)) (skipn (Z.to_nat lo) bytes).

(** [ContentInfo], the structure [Detect] unmarshals into. *)
Record ContentInfo : Type := {
  ContentType : ObjectIdentifier;
  Content : RawValue       (* `asn1:"explicit,optional,tag:0"` *)
}.

(** [parseField] for the field [ContentType asn1.ObjectIdentifier] (no field
    parameters): a universal, primitive element with tag 6. *)
Definition parseField_ContentType (bytes : list byte) (initOffset : Z)
  : result (ObjectIdentifier * Z) :=
  if initOffset =? len bytes
  then Err (SyntaxError "sequence truncated")
  else
    match parseTagAndLength bytes initOffset with
    | Err e => Err e
    | Ok (t, offset) =>
      if negb (class t =? ClassUniversal) || negb (tag t =? TagOID)
         || negb (Bool.eqb (isCompound t) false)
      then Err (StructuralError "tags don't match")
      else if invalidLength offset (length t) (len bytes)
      then Err (SyntaxError "data truncated")
      else
        match parseObjectIdentifier (sub bytes offset (offset + length t)) with
        | Err e => Err e
        | Ok oid => Ok (oid, offset + length t)
        end
    end.

(** [parseField] for the field [Content asn1.RawValue] with parameters
    [explicit,optional,tag:0].  A [RawValue] matches any class and tag, and
    its inner element is not parsed. *)
Definition parseField_Content (bytes : list byte) (initOffset : Z)
  : result (RawValue * Z) :=
  if initOffset =? len bytes
  then Ok (zeroRawValue, initOffset)             (* optional: left at zero *)
  else
    match parseTagAndLength bytes initOffset with
    | Err e => Err e
    | Ok (t, offset) =>
      if offset =? len bytes
      then Err (StructuralError "explicit tag has no child")
      else if (class t =? ClassContextSpecific) && (tag t =? 0)
              && ((length t =? 0) || isCompound t)
      then
        if invalidLength offset (length t) (len bytes)
        then Err (SyntaxError "data truncated")
        else Ok ({| Class := class t; Tag := tag t;
                    IsCompound := isCompound t;
                    Bytes := sub bytes offset (offset + length t);
                    FullBytes := sub bytes initOffset (offset + length t) |},
                 offset + length t)
      else Ok (zeroRawValue, initOffset)  (* tags differ: optional, absent *)
    end.

(** [parseField] for the [ContentInfo] struct itself: a universal,
    constructed SEQUENCE whose body holds the two fields; bytes of the body
    after the last field are allowed. *)
Definition parseField_ContentInfo (bytes : list byte) (initOffset : Z)
  : result (ContentInfo * Z) :=
  if initOffset =? len bytes
  then Err (SyntaxError "sequence truncated")
  else
    match parseTagAndLength bytes initOffset with
    | Err e => Err e
    | Ok (t, offset) =>
      if negb (class t =? ClassUniversal) || negb (tag t =? TagSequence)
         || negb (Bool.eqb (isCompound t) true)
      then Err (StructuralError "tags don't match")
      else if invalidLength offset (length t) (len bytes)
      then Err (SyntaxError "data truncated")
      else
        let innerBytes := sub bytes offset (offset + length t) in
        match parseField_ContentType innerBytes 0 with
        | Err e => Err e
        | Ok (oid, innerOffset) =>
          match parseField_Content innerBytes innerOffset with
          | Err e => Err e
          | Ok (raw, _) =>
            Ok ({| ContentType := oid; Content := raw |}, offset + length t)
          end
        end
    end.

(** [asn1.Unmarshal(b, &contentInfo)]: the decoded value and the rest of
    the input. *)
Definition Unmarshal (b : list byte) : result (ContentInfo * list byte) :=
  match parseField_ContentInfo b 0 with
  | Err e => Err e
  | Ok (ci, offset) => Ok (ci, skipn (Z.to_nat offset) b)
  end.

(** ** The encoder: how [asn1.Marshal] lays out a [ContentInfo] *)

(** The conversion [byte(v)]: the low eight bits. *)
Definition byte_of_Z (v : Z) : byte :=
  match Byte.of_N (Z.to_N (v mod 256)) with
  | Some b => b
  | None => x00
  end.

(** [base128IntLength]: the loop [for i := n; i > 0; i >>= 7] runs at most
    ten times on an [int64]. *)
Fixpoint base128Rounds (i : Z) (fuel : nat) : Z :=
  match fuel with
  | O => 0
  | S fuel' => if 0 <? i then 1 + base128Rounds (Z.shiftr i 7) fuel' else 0
  end.

Definition base128IntLength (n : Z) : Z :=
  if n =? 0 then 1 else base128Rounds n 10.

(** [appendBase128Int]: the bytes for [i = k-1] down to [0]. *)
Fixpoint base128Bytes (n : Z) (k : nat) : list byte :=
  match k with
  | O => []
  | S i =>
    let o := Z.land (Z.shiftr n (Z.of_nat i * 7)) 127 in
    let o := if Nat.eqb i 0 then o else Z.lor o 128 in
    byte_of_Z o :: base128Bytes n i
  end.

Definition appendBase128Int (dst : list byte) (n : Z) : list byte :=
  dst ++ base128Bytes n (Z.to_nat (base128IntLength n)).

(** [lengthLength]: the loop [for i > 255] runs at most eight times. *)
Fixpoint lengthLength_from (i : Z) (fuel : nat) : Z :=
  match fuel with
  | O => 1
  | S fuel' => if 255 <? i then 1 + lengthLength_from (Z.shiftr i 8) fuel' else 1
  end.

Definition lengthLength (i : Z) : Z := lengthLength_from i 8.

Fixpoint lengthBytes (i : Z) (n : nat) : list byte :=
  match n with
  | O => []
  | S n' => byte_of_Z (Z.shiftr i (Z.of_nat n' * 8)) :: lengthBytes i n'
  end.

Definition appendLength (dst : list byte) (i : Z) : list byte :=
  dst ++ lengthBytes i (Z.to_nat (lengthLength i)).

Definition appendTagAndLength (dst : list byte) (t : tagAndLength) : list byte :=
  let b := Z.shiftl (class t) 6 in
  let b := if isCompound t then Z.lor b 32 else b in
  let dst :=
    if 31 <=? tag t
    then appendBase128Int (dst ++ [byte_of_Z (Z.lor b 31)]) (tag t)
    else dst ++ [byte_of_Z (Z.lor b (tag t))] in
  if 128 <=? length t
  then appendLength (dst ++ [byte_of_Z (Z.lor 128 (lengthLength (length t)))])
                    (length t)
  else dst ++ [byte_of_Z (length t)].

(** [makeObjectIdentifier] and [oidEncoder.Encode]. *)
Definition encodeObjectIdentifier (oid : ObjectIdentifier) : result (list byte) :=
  match oid with
  | o0 :: o1 :: arcs =>
    if (2 <? o0) || ((o0 <? 2) && (40 <=? o1))
    then Err (StructuralError "invalid object identifier")
    else Ok (fold_left appendBase128Int arcs (appendBase128Int [] (o0 * 40 + o1)))
  | _ => Err (StructuralError "invalid object identifier")
  end.

(** A [RawValue] field marked [optional]: left out at its zero value;
    otherwise its [FullBytes] when given, else tag, length and [Bytes]. *)
Definition isZeroRawValue (rv : RawValue) : bool :=
  (Class rv =? 0) && (Tag rv =? 0) && negb (IsCompound rv)
  && (len (Bytes rv) =? 0) && (len (FullBytes rv) =? 0).

Definition encodeContent (rv : RawValue) : list byte :=
  if isZeroRawValue rv then []
  else if negb (len (FullBytes rv) =? 0) then FullBytes rv
  else appendTagAndLength []
         {| class := Class rv; tag := Tag rv; length := len (Bytes rv);
            isCompound := IsCompound rv |} ++ Bytes rv.

(** [asn1.Marshal(contentInfo)]. *)
Definition Marshal (ci : ContentInfo) : result (list byte) :=
  match encodeObjectIdentifier (ContentType ci) with
  | Err e => Err e
  | Ok oidBytes =>
    let body :=
      appendTagAndLength []
        {| class := ClassUniversal; tag := TagOID; length := len oidBytes;
           isCompound := false |} ++ oidBytes ++ encodeContent (Content ci) in
    Ok (appendTagAndLength []
          {| class := ClassUniversal; tag := TagSequence; length := len body;
             isCompound := true |} ++ body)
  end.

End asn1.

(* ================================================================= *)
(** * Package [cmsdetector]: what both versions of the detector share *)

Import GoRt.

(** OIDs for the various types of CMS/PKCS messages. *)
Definition PKCS7DataOID : asn1.ObjectIdentifier := [1; 2; 840; 113549; 1; 7; 1].
Definition PKCS7SignedDataOID : asn1.ObjectIdentifier := [1; 2; 840; 113549; 1; 7; 2].
Definition PKCS7EnvelopedDataOID : asn1.ObjectIdentifier := [1; 2; 840; 113549; 1; 7; 3].
Definition PKCS7SignedAndEnvelopedOID : asn1.ObjectIdentifier := [1; 2; 840; 113549; 1; 7; 4].
Definition PKCS7DigestedDataOID : asn1.ObjectIdentifier := [1; 2; 840; 113549; 1; 7; 5].
Definition PKCS7EncryptedDataOID : asn1.ObjectIdentifier := [1; 2; 840; 113549; 1; 7; 6].
Definition PKCS12OID : asn1.ObjectIdentifier := [1; 2; 840; 113549; 1; 12; 10; 1].

(** What [fmt.Errorf("failed to parse ASN.1 structure: %w", err)] builds. *)
Inductive error : Type :=
| Errorf (msg : string) (wrapped : asn1.error).

(** [GetOIDDescription], the same in both versions. *)
Definition GetOIDDescription (oid : asn1.ObjectIdentifier) : string :=
  if asn1.Equal oid PKCS7DataOID then "PKCS#7 Data"
  else if asn1.Equal oid PKCS7SignedDataOID then "PKCS#7 Signed Data"
  else if asn1.Equal oid PKCS7EnvelopedDataOID then "PKCS#7 Enveloped Data"
  else if asn1.Equal oid PKCS7SignedAndEnvelopedOID then "PKCS#7 Signed And Enveloped Data"
  else if asn1.Equal oid PKCS7DigestedDataOID then "PKCS#7 Digested Data"
  else if asn1.Equal oid PKCS7EncryptedDataOID then "PKCS#7 Encrypted Data"
  else if asn1.Equal oid PKCS12OID then "PKCS#12"
  else ("Unknown OID: " ++ asn1.String oid)%string.

(** [versionBytes]: INTEGER 3. *)
Definition versionBytes : list byte := [x02; x01; x03].

(** The version scan, written the same way in [isEncryptedPKCS12] and in the
    scanning [IsUserKeyPKCS12]:
<<
      for i := 0; i < len(data)-len(versionBytes); i++ {
        if bytes.Equal(data[i:i+len(versionBytes)], versionBytes) {
          versionFound = true
          break
        }
      }
>>
    [versionLoop data i n] runs the loop from index [i] when [n] rounds are
    left before [i] reaches [len(data)-len(versionBytes)]; it yields the
    final value of [versionFound]. *)
Fixpoint versionLoop (data : list byte) (i : Z) (n : nat) : go bool :=
  match n with
  | O => Done false
  | S n' =>
    window <- slice data i (i + len versionBytes) ;;
    if GoRt.Equal window versionBytes
    then Done true
    else versionLoop data (i + 1) n'
  end.

Definition versionScan (data : list byte) : go bool :=
  versionLoop data 0 (Z.to_nat (len data - len versionBytes)).

(** 1.2.840.113549.1.12.10.1 in binary form. *)
Definition pkcs12Signature : list byte :=
  [x2a; x86; x48; x86; xf7; x0d; x01; x0c; x0a; x01].

(** The UTF-8 bytes of the Cyrillic spellings used as markers. *)
Definition GOST_cyrillic : list byte :=
  [xd0; x93; xd0; x9e; xd0; xa1; xd0; xa2].
Definition Kalkan_cyrillic : list byte :=
  [xd0; x9a; xd0; xb0; xd0; xbb; xd0; xba; xd0; xb0; xd0; xbd].

(* ================================================================= *)
(** * [detector.go], strict detection, with the scanning key predicates *)

Module Strict.

Record DetectionResult : Type := {
  Type_ : string;
  ContentType : asn1.ObjectIdentifier
}.

Definition zeroResult : DetectionResult := {| Type_ := ""; ContentType := [] |}.

(** [Detect] tries to determine the type of CMS/PKCS data. *)
Definition Detect (data : list byte) : DetectionResult * option error :=
  match asn1.Unmarshal data with
  | asn1.Err err =>
    (zeroResult, Some (Errorf "failed to parse ASN.1 structure: " err))
  | asn1.Ok (contentInfo, _) =>
    let oid := asn1.ContentType contentInfo in
    let type :=
      if asn1.Equal oid PKCS7DataOID then "PKCS#7 Data"
      else if asn1.Equal oid PKCS7SignedDataOID then "PKCS#7 Signed Data"
      else if asn1.Equal oid PKCS7EnvelopedDataOID then "PKCS#7 Enveloped Data"
      else if asn1.Equal oid PKCS7SignedAndEnvelopedOID then "PKCS#7 Signed And Enveloped Data"
      else if asn1.Equal oid PKCS7DigestedDataOID then "PKCS#7 Digested Data"
      else if asn1.Equal oid PKCS7EncryptedDataOID then "PKCS#7 Encrypted Data"
      else if asn1.Equal oid PKCS12OID then "PKCS#12"
      else ("Unknown OID: " ++ asn1.String oid)%string in
    ({| Type_ := type; ContentType := oid |}, None)
  end.

Definition IsPKCS7Data (data : list byte) : bool :=
  let (result, err) := Detect data in
  match err with
  | Some _ => false
  | None => asn1.Equal (ContentType result) PKCS7DataOID
  end.

Definition IsPKCS7SignedData (data : list byte) : bool :=
  let (result, err) := Detect data in
  match err with
  | Some _ => false
  | None => asn1.Equal (ContentType result) PKCS7SignedDataOID
  end.

Definition IsPKCS7EnvelopedData (data : list byte) : bool :=
  let (result, err) := Detect data in
  match err with
  | Some _ => false
  | None => asn1.Equal (ContentType result) PKCS7EnvelopedDataOID
  end.

Definition IsPKCS12 (data : list byte) : bool :=
  let (result, err) := Detect data in
  match err with
  | Some _ => false
  | None => asn1.Equal (ContentType result) PKCS12OID
  end.

(** [IsUserKeyPKCS12] checks if the data appears to be a user PKCS#12 key
    container; it scans the bytes itself when strict detection fails. *)
Definition IsUserKeyPKCS12 (data : list byte) : go bool :=
  if len data <? 8 then Done false
  else
    first <- index data 0 ;;
    if negb (byteval first =? 0x30) then Done false
    else
      let (result, err) := Detect data in
      if match err with None => true | Some _ => false end
         && asn1.Equal (ContentType result) PKCS12OID
      then Done true
      else
        versionFound <- versionScan data ;;
        if negb versionFound then Done false
        else if (len data <? 20) || (100000 <? len data) then Done false
        else if Contains data (bytes_of "GOST")
                || Contains data GOST_cyrillic
                || Contains data (bytes_of "gost")
        then Done true
        else if Contains data pkcs12Signature then Done true
        else if Contains data (bytes_of "KEY")
                || Contains data (bytes_of "PrivateKey")
        then Done true
        else Done versionFound.

Definition kazakhstanSignature : list byte :=
  [x06; x09; x2a; x86; x48; x86; xf7; x0d; x01; x01].

(** [IsNCAKeyPKCS12] detects NCA (KalkanCrypt) user key containers. *)
Definition IsNCAKeyPKCS12 (data : list byte) : go bool :=
  user <- IsUserKeyPKCS12 data ;;
  if negb user then Done false
  else if Contains data (bytes_of "GOST") || Contains data GOST_cyrillic
  then Done true
  else if Contains data (bytes_of "Kalkan")
          || Contains data (bytes_of "kalkan")
          || Contains data (bytes_of "KALKAN")
          || Contains data Kalkan_cyrillic
  then Done true
  else Done (Contains data kazakhstanSignature).

End Strict.

(* ================================================================= *)
(** * The detector with the encrypted PKCS#12 fallback *)

Module Fallback.

Definition TypeEncryptedPKCS12 : string := "Encrypted PKCS#12".

Record DetectionResult : Type := {
  Type_ : string;
  ContentType : asn1.ObjectIdentifier;
  IsEncrypted : bool
}.

Definition zeroResult : DetectionResult :=
  {| Type_ := ""; ContentType := []; IsEncrypted := false |}.

(** [isEncryptedPKCS12] checks if the data appears to be an encrypted
    PKCS#12 container. *)
Definition isEncryptedPKCS12 (data : list byte) : go bool :=
  if len data <? 20 then Done false
  else
    first <- index data 0 ;;
    if negb (byteval first =? 0x30) then Done false
    else
      versionFound <- versionScan data ;;
      if negb versionFound then Done false
      else if Contains data pkcs12Signature then Done true
      else if Contains data (bytes_of "KEY")
              || Contains data (bytes_of "PrivateKey")
      then Done true
      else Done (versionFound && (100 <? len data) && (len data <? 100000)).

(** [Detect] tries to determine the type of CMS/PKCS data. *)
Definition Detect (data : list byte) : go (DetectionResult * option error) :=
  match asn1.Unmarshal data with
  | asn1.Ok (contentInfo, _) =>
    let oid := asn1.ContentType contentInfo in
    let type :=
      if asn1.Equal oid PKCS7DataOID then "PKCS#7 Data"
      else if asn1.Equal oid PKCS7SignedDataOID then "PKCS#7 Signed Data"
      else if asn1.Equal oid PKCS7EnvelopedDataOID then "PKCS#7 Enveloped Data"
      else if asn1.Equal oid PKCS7SignedAndEnvelopedOID then "PKCS#7 Signed And Enveloped Data"
      else if asn1.Equal oid PKCS7DigestedDataOID then "PKCS#7 Digested Data"
      else if asn1.Equal oid PKCS7EncryptedDataOID then "PKCS#7 Encrypted Data"
      else if asn1.Equal oid PKCS12OID then "PKCS#12"
      else ("Unknown OID: " ++ asn1.String oid)%string in
    Done ({| Type_ := type; ContentType := oid; IsEncrypted := false |}, None)
  | asn1.Err err =>
    encrypted <- isEncryptedPKCS12 data ;;
    if encrypted
    then Done ({| Type_ := TypeEncryptedPKCS12; ContentType := [];
                  IsEncrypted := true |}, None)
    else Done (zeroResult, Some (Errorf "failed to parse ASN.1 structure: " err))
  end.

Definition IsPKCS7Data (data : list byte) : go bool :=
  r <- Detect data ;;
  let (result, err) := r in
  match err with
  | Some _ => Done false
  | None => Done (asn1.Equal (ContentType result) PKCS7DataOID)
  end.

Definition IsPKCS7SignedData (data : list byte) : go bool :=
  r <- Detect data ;;
  let (result, err) := r in
  match err with
  | Some _ => Done false
  | None => Done (asn1.Equal (ContentType result) PKCS7SignedDataOID)
  end.

Definition IsPKCS7EnvelopedData (data : list byte) : go bool :=
  r <- Detect data ;;
  let (result, err) := r in
  match err with
  | Some _ => Done false
  | None => Done (asn1.Equal (ContentType result) PKCS7EnvelopedDataOID)
  end.

(** [IsPKCS12]: a PKCS#12 container, including encrypted ones. *)
Definition IsPKCS12 (data : list byte) : go bool :=
  r <- Detect data ;;
  let (result, err) := r in
  match err with
  | Some _ => Done false
  | None => Done (asn1.Equal (ContentType result) PKCS12OID
                  || String.eqb (Type_ result) TypeEncryptedPKCS12)
  end.

(** [IsUserKeyPKCS12], by delegation to [Detect]. *)
Definition IsUserKeyPKCS12 (data : list byte) : go bool :=
  r <- Detect data ;;
  let (result, err) := r in
  match err with
  | Some _ => Done false
  | None => Done (asn1.Equal (ContentType result) PKCS12OID
                  || String.eqb (Type_ result) TypeEncryptedPKCS12)
  end.

End Fallback.

(* ================================================================= *)
(** * Test data of the repository *)

(** [createTestData]: a [ContentInfo] with the given OID and a [0] EXPLICIT
    content holding an OCTET STRING. *)
Definition createTestData (oid : asn1.ObjectIdentifier) : asn1.result (list byte) :=
  asn1.Marshal
    {| asn1.ContentType := oid;
       asn1.Content := {| asn1.Class := 2; asn1.Tag := 0;
                          asn1.IsCompound := true;
                          asn1.Bytes := [x04; x02; xde; xad];
                          asn1.FullBytes := [] |} |}.

(** The least envelope: a [ContentInfo] with the given OID and no content. *)
Definition minimalEnvelope (oid : asn1.ObjectIdentifier) : asn1.result (list byte) :=
  asn1.Marshal {| asn1.ContentType := oid; asn1.Content := asn1.zeroRawValue |}.

(** [createMockPKCS12Key]: header with version 3, an OCTET STRING header,
    the 32 bytes 0..31 and the marker KEY. *)
Definition createMockPKCS12Key : list byte :=
  [x30; x82; x01; x00; x02; x01; x03; x30; x82; x00; x50; x04; x20]
  ++ map (fun i => asn1.byte_of_Z (Z.of_nat i)) (seq 0 32)
  ++ bytes_of "KEY".

(** The three buffers of [TestIsUserKeyPKCS12] and [TestIsNCAKeyPKCS12]. *)
Definition mockP12 : list byte :=
  [x30; x82; x01; x00; x02; x01; x03; x30; x82; x00; x50;
   x04; x08; x01; x02; x03; x04; x05; x06; x07; x08;
   x47; x4f; x53; x54; x4b; x45; x59].

Definition mockNCAP12 : list byte :=
  [x30; x82; x01; x00; x02; x01; x03; x30; x82; x00; x50;
   x04; x08; x01; x02; x03; x04; x05; x06; x07; x08;
   x47; x4f; x53; x54; x4b; x61; x6c; x6b; x61; x6e; x4b; x45; x59].

Definition genericP12 : list byte :=
  [x30; x82; x01; x00; x02; x01; x03; x30; x82; x00; x50;
   x04; x08; x01; x02; x03; x04; x05; x06; x07; x08;
   x04; x02; xde; xad; x4b; x45; x59].

(* ================================================================= *)
(** * Vocabulary of the specification *)

(** [sub] occurs somewhere in [data]. *)
Definition Occurs (sub data : list byte) : Prop :=
  exists pre post, data = pre ++ sub ++ post.

(** [sub] occurs in [data] with at least one byte after it. *)
Definition OccursBeforeEnd (sub data : list byte) : Prop :=
  exists pre post, data = pre ++ sub ++ post /\ post <> [].

(** The first byte of [data] is the SEQUENCE tag. *)
Definition StartsWithSequence (data : list byte) : Prop :=
  exists rest, data = x30 :: rest.

Definition startsWithSequence (data : list byte) : bool :=
  match data with
  | b :: _ => Byte.eqb b x30
  | [] => false
  end.

(** The value the version scan leaves in [versionFound]: some window of
    three bytes starting at an index below [len(data) - 3] equals
    [versionBytes]. *)
Definition versionFound (data : list byte) : bool :=
  existsb (fun i => GoRt.Equal (firstn 3 (skipn i data)) versionBytes)
          (seq 0 (List.length data - 3)).

(** The fixed lookup of the specification: OID and canonical label. *)
Definition knownOIDs : list (asn1.ObjectIdentifier * string) :=
  [ ([1; 2; 840; 113549; 1; 7; 1], "PKCS#7 Data");
    ([1; 2; 840; 113549; 1; 7; 2], "PKCS#7 Signed Data");
    ([1; 2; 840; 113549; 1; 7; 3], "PKCS#7 Enveloped Data");
    ([1; 2; 840; 113549; 1; 7; 4], "PKCS#7 Signed And Enveloped Data");
    ([1; 2; 840; 113549; 1; 7; 5], "PKCS#7 Digested Data");
    ([1; 2; 840; 113549; 1; 7; 6], "PKCS#7 Encrypted Data");
    ([1; 2; 840; 113549; 1; 12; 10; 1], "PKCS#12") ].


(** The dotted-decimal form of an OID. *)
Definition dottedDecimal (oid : asn1.ObjectIdentifier) : string :=
  String.concat "." (map (fun v => NilZero.string_of_int (Z.to_int v)) oid).

(** The strict parse yields the PKCS#12 OID. *)
Definition strictPKCS12 (data : list byte) : bool :=
  match asn1.Unmarshal data with
  | asn1.Ok (ci, _) => asn1.Equal (asn1.ContentType ci) PKCS12OID
  | asn1.Err _ => false
  end.

(** The policy of the scanning [IsUserKeyPKCS12] with the marker checks
    left out. *)
Definition userKeyPolicy (data : list byte) : bool :=
  (8 <=? len data) && startsWithSequence data
  && (strictPKCS12 data
      || (versionFound data && (20 <=? len data) && (len data <=? 100000))).

(** The verdict of [isEncryptedPKCS12] as one boolean expression. *)
Definition encryptedVerdict (data : list byte) : bool :=
  (20 <=? len data) && startsWithSequence data && versionFound data
  && (Contains data pkcs12Signature
      || Contains data (bytes_of "KEY")
      || Contains data (bytes_of "PrivateKey")
      || ((100 <? len data) && (len data <? 100000))).

(** One of the markers [IsNCAKeyPKCS12] looks for by name. *)
Definition hasVendorMarker (data : list byte) : bool :=
  Contains data (bytes_of "GOST") || Contains data GOST_cyrillic
  || Contains data (bytes_of "Kalkan") || Contains data (bytes_of "kalkan")
  || Contains data (bytes_of "KALKAN") || Contains data Kalkan_cyrillic.

(** One of the markers the scanning [IsUserKeyPKCS12] and
    [isEncryptedPKCS12] look for after the version pattern. *)
Definition hasKeyMarker (data : list byte) : bool :=
  Contains data pkcs12Signature
  || Contains data (bytes_of "KEY") || Contains data (bytes_of "PrivateKey")
  || Contains data (bytes_of "GOST") || Contains data GOST_cyrillic
  || Contains data (bytes_of "gost").

(** ASCII lower case, and containment of an ASCII word in any letter case. *)
Definition asciiLower (b : byte) : byte :=
  if (65 <=? byteval b) && (byteval b <=? 90)
  then asn1.byte_of_Z (byteval b + 32)
  else b.

Definition ContainsAnyCase (data : list byte) (word : string) : bool :=
  Contains (map asciiLower data) (map asciiLower (bytes_of word)).

(** Every boolean predicate of the package, in both versions. *)
Definition allPredicates (data : list byte) : list (go bool) :=
  [ Fallback.IsPKCS7Data data; Fallback.IsPKCS7SignedData data;
    Fallback.IsPKCS7EnvelopedData data; Fallback.IsPKCS12 data;
    Fallback.IsUserKeyPKCS12 data;
    Strict.IsUserKeyPKCS12 data; Strict.IsNCAKeyPKCS12 data;
    Done (Strict.IsPKCS7Data data); Done (Strict.IsPKCS7SignedData data);
    Done (Strict.IsPKCS7EnvelopedData data); Done (Strict.IsPKCS12 data) ].

(** The result of the strict path of [Detect] for a parsed OID. *)
Definition strictResult (oid : asn1.ObjectIdentifier) (label : string)
  : Fallback.DetectionResult :=
  {| Fallback.Type_ := label; Fallback.ContentType := oid;
     Fallback.IsEncrypted := false |}.

(** The result of the fallback path of [Detect]. *)
Definition encryptedResult : Fallback.DetectionResult :=
  {| Fallback.Type_ := "Encrypted PKCS#12"; Fallback.ContentType := [];
     Fallback.IsEncrypted := true |}.

(** An OID that the encoder accepts and the strict reader gives back: at
    least two arcs, the first 0, 1 or 2, the second below 40 under a first
    arc 0 or 1, and every arc, like the packed first pair, a non-negative
    number that fits an [int32]. *)
Definition validOID (oid : asn1.ObjectIdentifier) : Prop :=
  match oid with
  | o0 :: o1 :: arcs =>
    0 <= o0 <= 2 /\ 0 <= o1 /\ (o0 < 2 -> o1 < 40)
    /\ o0 * 40 + o1 <= asn1.MaxInt32
    /\ Forall (fun a => 0 <= a <= asn1.MaxInt32) arcs
  | _ => False
  end.

(** The explicit [0] content of an envelope holding the bytes [inner]. *)
Definition explicitContent (inner : list byte) : asn1.RawValue :=
  {| asn1.Class := 2; asn1.Tag := 0; asn1.IsCompound := true;
     asn1.Bytes := inner; asn1.FullBytes := [] |}.

(** The group of seven bits of [n] at position [i], as the base-128 coding
    of an arc lays them out. *)
Definition group (n : Z) (i : nat) : Z := (n / 2 ^ (7 * Z.of_nat i)) mod 128.

(** The errors that belong to the embedding and not to [encoding/asn1]: the
    arc loop out of fuel, [parseTagAndLength] called past the end. *)
Definition isInternal (e : asn1.error) : bool :=
  match e with
  | asn1.InternalError _ => true
  | _ => false
  end.

Definition failsInternally {A : Type} (r : asn1.result A) : bool :=
  match r with
  | asn1.Err e => isInternal e
  | asn1.Ok _ => false
  end.

(** The strict parse of [data] yields the OID [oid]. *)
Definition parsesAs (data : list byte) (oid : asn1.ObjectIdentifier) : bool :=
  match asn1.Unmarshal data with
  | asn1.Ok (ci, _) => asn1.Equal (asn1.ContentType ci) oid
  | asn1.Err _ => false
  end.

(** How many of the given predicate calls answered true. *)
Definition countTrue (answers : list (go bool)) : nat :=
  List.length
    (filter (fun a => match a with Done true => true | _ => false end)
            answers).

(** A result of the strict detector, as the detector with the fallback
    reports the same detection. *)
Definition withoutEncryption (r : Strict.DetectionResult)
  : Fallback.DetectionResult :=
  {| Fallback.Type_ := Strict.Type_ r;
     Fallback.ContentType := Strict.ContentType r;
     Fallback.IsEncrypted := false |}.

(** The predicates of the detector with the fallback, all of them functions
    of the result of [Detect]. *)
Definition fallbackPredicates (data : list byte) : list (go bool) :=
  [ Fallback.IsPKCS7Data data; Fallback.IsPKCS7SignedData data;
    Fallback.IsPKCS7EnvelopedData data; Fallback.IsPKCS12 data;
    Fallback.IsUserKeyPKCS12 data ].

(** No character of [s] is a dot. *)
Fixpoint dotFree (s : string) : bool :=
  match s with
  | EmptyString => true
  | String c s' => negb (Ascii.eqb c ".") && dotFree s'
  end.

(** ** Buffers used as examples *)

(** A well-formed PKCS#7 Data envelope, 23 bytes, whose content holds the
    version pattern and the marker KEY. *)
Definition parsedWithMarkers : list byte :=
  [x30; x15; x06; x09; x2a; x86; x48; x86; xf7; x0d; x01; x07; x01;
   xa0; x08; x02; x01; x03; x4b; x45; x59; x00; x00].

(** 20 bytes: the SEQUENCE tag, the marker KEY, padding, and the version
    pattern as the last three bytes. *)
Definition versionAtEnd : list byte :=
  [x30; x4b; x45; x59] ++ repeat x00 13 ++ [x02; x01; x03].

(** 20 bytes: the SEQUENCE tag, the version pattern, and zero padding. *)
Definition shortUnmarked : list byte :=
  [x30; x02; x01; x03] ++ repeat x00 16.

(** 20 bytes: the SEQUENCE tag, the version pattern, the lower-case word
    gost, and zero padding. *)
Definition lowercaseGost : list byte :=
  [x30; x02; x01; x03] ++ bytes_of "gost" ++ repeat x00 12.

(** 104 bytes: the SEQUENCE tag, the version pattern, and zero padding. *)
Definition longUnmarked : list byte :=
  [x30; x02; x01; x03] ++ repeat x00 100.

(** 107 bytes laid out as a PFX: a SEQUENCE header announcing 256 bytes,
    the version INTEGER 3, and zero padding. *)
Definition pfxSample : list byte :=
  [x30; x82; x01; x00] ++ versionBytes ++ repeat x00 100.

(** 100001 bytes: the SEQUENCE tag, the version pattern, the marker KEY and
    zero padding. *)
Definition oversizedKey : list byte :=
  [x30; x02; x01; x03] ++ bytes_of "KEY" ++ repeat x00 (Z.to_nat 99994).

(* ================================================================= *)
(** * Package [bytes]: what the searches compute *)

Section BytesFacts.

Lemma Equal_eq (a b : list byte) : GoRt.Equal a b = true <-> a = b.
Proof.
  revert b; induction a as [|x a IH]; intros [|y b]; simpl;
    try (split; [discriminate | discriminate]); try tauto.
  rewrite andb_true_iff, IH. split.
  - intros [Hxy ->]. apply Byte.byte_dec_bl in Hxy. now subst.
  - intros [= -> ->]. split; [now apply Byte.byte_dec_lb | reflexivity].
Qed.

Lemma HasPrefix_iff (s prefix : list byte) :
  HasPrefix s prefix = true <-> exists post, s = prefix ++ post.
Proof.
  revert s; induction prefix as [|p prefix IH]; intros [|x s]; simpl.
  - split; [intros _; now exists [] | reflexivity].
  - split; [intros _; now exists (x :: s) | reflexivity].
  - split; [discriminate | intros [post H]; discriminate].
  - rewrite andb_true_iff, IH. split.
    + intros [Hx [post ->]]. apply Byte.byte_dec_bl in Hx. subst.
      now exists post.
    + intros [post [= -> ->]]. split; [now apply Byte.byte_dec_lb|].
      now exists post.
Qed.

Lemma Contains_iff (b sub : list byte) :
  Contains b sub = true <-> Occurs sub b.
Proof.
  unfold Occurs. induction b as [|x b IH]; cbn [Contains].
  - rewrite orb_false_r, HasPrefix_iff. split.
    + intros [post H]. now exists [], post.
    + intros [pre [post H]]. destruct pre; simpl in H.
      * now exists post.
      * discriminate.
  - rewrite orb_true_iff, HasPrefix_iff, IH. split.
    + intros [[post H] | [pre [post H]]].
      * now exists [], post.
      * exists (x :: pre), post. now rewrite H.
    + intros [[|y pre] [post H]]; simpl in H.
      * left. now exists post.
      * right. injection H as -> ->. now exists pre, post.
Qed.

Lemma len_nonneg {A : Type} (s : list A) : 0 <= len s.
Proof. unfold len. lia. Qed.

Lemma len_cons {A : Type} (x : A) (s : list A) : len (x :: s) = 1 + len s.
Proof. unfold len. simpl List.length. lia. Qed.

Lemma len_app {A : Type} (s t : list A) : len (s ++ t) = len s + len t.
Proof. unfold len. rewrite length_app. lia. Qed.

(** Indexing at 0 is safe on a buffer that passed a positive length floor. *)
Lemma index_0 (data : list byte) :
  0 < len data -> exists b, index data 0 = Done b /\ nth_error data 0 = Some b.
Proof.
  destruct data as [|b data]; [unfold len; simpl; lia|].
  intros _. exists b. split; [|reflexivity]. unfold index.
  replace ((0 <? 0) || (len (b :: data) <=? 0)) with false; [reflexivity|].
  symmetry. apply orb_false_iff. split; [reflexivity|].
  apply Z.leb_gt. rewrite len_cons. pose proof (len_nonneg data). lia.
Qed.

(** The windows of the version loop are always in bounds. *)
Lemma versionLoop_spec (data : list byte) (n : nat) (i : nat) :
  (i + n <= List.length data - 3)%nat ->
  versionLoop data (Z.of_nat i) n =
  Done (existsb (fun j => GoRt.Equal (firstn 3 (skipn j data)) versionBytes)
                (seq i n)).
Proof.
  revert i; induction n as [|n IH]; intros i Hb; [reflexivity|].
  cbn [versionLoop seq existsb]. unfold slice, bind.
  replace (len versionBytes) with 3 by reflexivity.
  replace (Z.of_nat i <? 0) with false by (symmetry; apply Z.ltb_ge; lia).
  replace (Z.of_nat i + 3 <? Z.of_nat i) with false
    by (symmetry; apply Z.ltb_ge; lia).
  replace (len data <? Z.of_nat i + 3) with false
    by (symmetry; apply Z.ltb_ge; unfold len; lia).
  cbn [orb].
  replace (Z.to_nat (Z.of_nat i + 3 - Z.of_nat i)) with 3%nat by lia.
  rewrite Nat2Z.id.
  destruct (GoRt.Equal (firstn 3 (skipn i data)) versionBytes); [reflexivity|].
  cbn [orb]. replace (Z.of_nat i + 1) with (Z.of_nat (S i)) by lia.
  apply IH. lia.
Qed.

Lemma versionScan_spec (data : list byte) :
  versionScan data = Done (versionFound data).
Proof.
  unfold versionScan, versionFound.
  replace (Z.to_nat (len data - len versionBytes))
    with (List.length data - 3)%nat by (unfold len; simpl List.length; lia).
  apply (versionLoop_spec data _ 0). lia.
Qed.

Lemma versionFound_iff (data : list byte) :
  versionFound data = true <-> OccursBeforeEnd versionBytes data.
Proof.
  unfold versionFound, OccursBeforeEnd. rewrite existsb_exists. split.
  - intros [i [Hi He]]. apply in_seq in Hi. apply Equal_eq in He.
    exists (firstn i data), (skipn 3 (skipn i data)). split.
    + rewrite <- He at 1. now rewrite !firstn_skipn.
    + intros Hnil. apply (f_equal (@List.length byte)) in Hnil.
      rewrite !length_skipn in Hnil. simpl in Hnil. lia.
  - intros [pre [post [-> Hpost]]]. exists (List.length pre). split.
    + apply in_seq. rewrite !length_app. simpl List.length.
      destruct post; [congruence|]. simpl List.length. lia.
    + apply Equal_eq. rewrite skipn_app, Nat.sub_diag, skipn_all.
      reflexivity.
Qed.

End BytesFacts.

(* ================================================================= *)
(** * The heuristics as boolean expressions; absence of panics *)

Section Heuristics.

Lemma byteval_x30 (b : byte) : (byteval b =? 0x30) = Byte.eqb b x30.
Proof. destruct b; reflexivity. Qed.

Lemma first_is_sequence (data : list byte) (b : byte) :
  nth_error data 0 = Some b ->
  negb (byteval b =? 0x30) = negb (startsWithSequence data).
Proof.
  destruct data as [|x data]; simpl; [discriminate|].
  intros [= ->]. now rewrite byteval_x30.
Qed.

Lemma startsWithSequence_iff (data : list byte) :
  startsWithSequence data = true <-> StartsWithSequence data.
Proof.
  unfold StartsWithSequence. destruct data as [|b data]; simpl.
  - split; [discriminate | intros [rest H]; discriminate].
  - split.
    + intros H. apply Byte.byte_dec_bl in H. subst. now exists data.
    + intros [rest [= -> _]]. reflexivity.
Qed.

(** [isEncryptedPKCS12] never panics and computes [encryptedVerdict]. *)
Lemma isEncryptedPKCS12_value (data : list byte) :
  Fallback.isEncryptedPKCS12 data = Done (encryptedVerdict data).
Proof.
  unfold Fallback.isEncryptedPKCS12, encryptedVerdict.
  destruct (Z.ltb_spec (len data) 20) as [Hlt|Hge].
  - replace (20 <=? len data) with false by (symmetry; apply Z.leb_gt; lia).
    reflexivity.
  - replace (20 <=? len data) with true by (symmetry; apply Z.leb_le; lia).
    destruct (index_0 data ltac:(lia)) as [b [-> Hb]]. cbn [bind].
    rewrite (first_is_sequence _ _ Hb).
    destruct (startsWithSequence data); cbn [negb andb]; [|reflexivity].
    rewrite versionScan_spec. cbn [bind].
    destruct (versionFound data); cbn [negb andb]; [|reflexivity].
    destruct (Contains data pkcs12Signature); cbn [orb]; [reflexivity|].
    destruct (Contains data (bytes_of "KEY") || Contains data (bytes_of "PrivateKey"));
      reflexivity.
Qed.

(** The strict test made by the scanning [IsUserKeyPKCS12]. *)
Lemma strict_test (data : list byte) :
  (let (result, err) := Strict.Detect data in
   match err with None => true | Some _ => false end
   && asn1.Equal (Strict.ContentType result) PKCS12OID) = strictPKCS12 data.
Proof.
  unfold Strict.Detect, strictPKCS12.
  destruct (asn1.Unmarshal data) as [[ci rest]|e]; reflexivity.
Qed.

(** The scanning [IsUserKeyPKCS12] never panics and computes
    [userKeyPolicy], whatever markers the buffer holds. *)
Lemma IsUserKeyPKCS12_value (data : list byte) :
  Strict.IsUserKeyPKCS12 data = Done (userKeyPolicy data).
Proof.
  unfold Strict.IsUserKeyPKCS12, userKeyPolicy.
  destruct (Z.ltb_spec (len data) 8) as [Hlt|Hge].
  - replace (8 <=? len data) with false by (symmetry; apply Z.leb_gt; lia).
    reflexivity.
  - replace (8 <=? len data) with true by (symmetry; apply Z.leb_le; lia).
    destruct (index_0 data ltac:(lia)) as [b [-> Hb]]. cbn [bind].
    rewrite (first_is_sequence _ _ Hb).
    destruct (startsWithSequence data); cbn [negb andb]; [|reflexivity].
    pose proof (strict_test data) as Hs.
    destruct (Strict.Detect data) as [result err]. rewrite Hs.
    destruct (strictPKCS12 data); cbn [orb]; [reflexivity|].
    rewrite versionScan_spec. cbn [bind].
    destruct (versionFound data); cbn [negb andb]; [|reflexivity].
    destruct (Z.ltb_spec (len data) 20) as [H20|H20].
    + replace (20 <=? len data) with false by (symmetry; apply Z.leb_gt; lia).
      reflexivity.
    + replace (20 <=? len data) with true by (symmetry; apply Z.leb_le; lia).
      destruct (Z.ltb_spec 100000 (len data)) as [Hbig|Hbig].
      * replace (len data <=? 100000) with false
          by (symmetry; apply Z.leb_gt; lia).
        reflexivity.
      * replace (len data <=? 100000) with true
          by (symmetry; apply Z.leb_le; lia).
        cbn [orb andb].
        destruct (Contains data (bytes_of "GOST") || Contains data GOST_cyrillic
                  || Contains data (bytes_of "gost")); [reflexivity|].
        destruct (Contains data pkcs12Signature); [reflexivity|].
        destruct (Contains data (bytes_of "KEY")
                  || Contains data (bytes_of "PrivateKey")); reflexivity.
Qed.

(** [IsNCAKeyPKCS12] never panics either. *)
Lemma IsNCAKeyPKCS12_value (data : list byte) :
  Strict.IsNCAKeyPKCS12 data =
  Done (userKeyPolicy data
        && (hasVendorMarker data || Contains data Strict.kazakhstanSignature)).
Proof.
  unfold Strict.IsNCAKeyPKCS12, hasVendorMarker.
  rewrite IsUserKeyPKCS12_value. cbn [bind].
  destruct (userKeyPolicy data); cbn [negb andb]; [|reflexivity].
  destruct (Contains data (bytes_of "GOST")); cbn [orb]; [reflexivity|].
  destruct (Contains data GOST_cyrillic); cbn [orb]; [reflexivity|].
  destruct (Contains data (bytes_of "Kalkan")); cbn [orb]; [reflexivity|].
  destruct (Contains data (bytes_of "kalkan")); cbn [orb]; [reflexivity|].
  destruct (Contains data (bytes_of "KALKAN")); cbn [orb]; [reflexivity|].
  destruct (Contains data Kalkan_cyrillic); reflexivity.
Qed.

End Heuristics.

(* ================================================================= *)
(** * The strict reader: what a successful parse implies *)

Section StrictReader.

Lemma sequence_tag_byte (b : byte) :
  (Z.shiftr (byteval b) 6 =? asn1.ClassUniversal)
  && (Z.land (byteval b) 31 =? asn1.TagSequence)
  && (Z.land (byteval b) 32 =? 32) = Byte.eqb b x30.
Proof. destruct b; reflexivity. Qed.

Lemma at_offset_0 (bytes : list byte) (b : byte) :
  asn1.at_offset bytes 0 = Some b -> exists rest, bytes = b :: rest.
Proof.
  unfold asn1.at_offset. simpl. destruct bytes as [|x rest]; [discriminate|].
  intros [= ->]. now exists rest.
Qed.

Lemma base128Loop_offset (bytes : list byte) (rem : nat) :
  forall offset ret64 v offset',
    asn1.base128Loop bytes offset ret64 rem = asn1.Ok (v, offset') ->
    offset < offset'.
Proof.
  induction rem as [|rem IH]; intros offset ret64 v offset';
    cbn [asn1.base128Loop].
  - destruct (asn1.at_offset bytes offset); discriminate.
  - destruct (asn1.at_offset bytes offset) as [b|]; [|discriminate].
    destruct (_ && _); [discriminate|].
    destruct (Z.land (byteval b) 128 =? 0).
    + destruct (asn1.MaxInt32 <? _); [discriminate|].
      intros [= _ <-]. lia.
    + intros H. apply IH in H. lia.
Qed.

Lemma base128Loop_value (bytes : list byte) (rem : nat) :
  forall offset ret64 v offset',
    asn1.base128Loop bytes offset ret64 rem = asn1.Ok (v, offset') ->
    v <= asn1.MaxInt32.
Proof.
  induction rem as [|rem IH]; intros offset ret64 v offset';
    cbn [asn1.base128Loop].
  - destruct (asn1.at_offset bytes offset); discriminate.
  - destruct (asn1.at_offset bytes offset) as [b|]; [|discriminate].
    destruct (_ && _); [discriminate|].
    destruct (Z.land (byteval b) 128 =? 0).
    + destruct (Z.ltb_spec asn1.MaxInt32
                  (Z.lor (Z.shiftl ret64 7) (Z.land (byteval b) 127)));
        [discriminate|].
      intros [= <- _]. assumption.
    + apply IH.
Qed.

Lemma lengthLoop_offset (bytes : list byte) (n : nat) :
  forall offset length l offset',
    asn1.lengthLoop bytes offset length n = asn1.Ok (l, offset') ->
    offset <= offset'.
Proof.
  induction n as [|n IH]; intros offset length l offset';
    cbn [asn1.lengthLoop].
  - intros [= _ <-]. lia.
  - destruct (asn1.at_offset bytes offset) as [b|]; [|discriminate].
    destruct (8388608 <=? length); [discriminate|].
    destruct (_ =? 0); [discriminate|].
    intros H. apply IH in H. lia.
Qed.

(** What [parseTagAndLength] read when it succeeds. *)
Lemma parseTagAndLength_inv (bytes : list byte) (initOffset : Z)
      (t : asn1.tagAndLength) (offset : Z) :
  asn1.parseTagAndLength bytes initOffset = asn1.Ok (t, offset) ->
  exists b,
    asn1.at_offset bytes initOffset = Some b
    /\ asn1.class t = Z.shiftr (byteval b) 6
    /\ asn1.isCompound t = (Z.land (byteval b) 32 =? 32)
    /\ (asn1.tag t = Z.land (byteval b) 31 \/ 31 <= asn1.tag t)
    /\ initOffset + 2 <= offset.
Proof.
  unfold asn1.parseTagAndLength.
  destruct (asn1.at_offset bytes initOffset) as [b|]; [|discriminate].
  intros H. exists b. split; [reflexivity|].
  set (tagged := if Z.land (byteval b) 31 =? 31 then _ else _) in H.
  assert (Htagged : forall tg off, tagged = asn1.Ok (tg, off) ->
            (tg = Z.land (byteval b) 31 \/ 31 <= tg) /\ initOffset + 1 <= off).
  { subst tagged. intros tg off.
    destruct (Z.land (byteval b) 31 =? 31).
    - destruct (asn1.parseBase128Int bytes (initOffset + 1))
        as [[t' off']|e] eqn:Hp; [|discriminate].
      destruct (Z.ltb_spec t' 31); [discriminate|].
      intros [= <- <-]. apply base128Loop_offset in Hp. split; [now right|lia].
    - intros [= <- <-]. split; [now left|lia]. }
  destruct tagged as [[tg off]|e]; [|discriminate].
  destruct (Htagged tg off eq_refl) as [Htg Hoff].
  destruct (asn1.at_offset bytes off) as [b'|]; [|discriminate].
  destruct (Z.land (byteval b') 128 =? 0).
  - injection H as <- <-. simpl. repeat split; try assumption; lia.
  - destruct (Z.land (byteval b') 127 =? 0); [discriminate|].
    destruct (asn1.lengthLoop bytes (off + 1) 0 _) as [[l off']|e] eqn:Hl;
      [|discriminate].
    destruct (l <? 128); [discriminate|].
    injection H as <- <-. apply lengthLoop_offset in Hl. simpl.
    repeat split; try assumption; lia.
Qed.

Lemma sub_nonempty (bytes : list byte) (lo hi : Z) :
  len (asn1.sub bytes lo hi) <> 0 -> 1 <= hi - lo.
Proof.
  unfold asn1.sub, len. intros H.
  destruct (Z.to_nat (hi - lo)) eqn:E; [simpl in H; lia | lia].
Qed.

(** A buffer the strict reader accepts starts with the SEQUENCE tag and has
    at least three bytes. *)
Lemma Unmarshal_Ok_inv (data : list byte) (ci : asn1.ContentInfo)
      (rest : list byte) :
  asn1.Unmarshal data = asn1.Ok (ci, rest) ->
  StartsWithSequence data /\ 3 <= len data.
Proof.
  unfold asn1.Unmarshal, asn1.parseField_ContentInfo.
  destruct (0 =? len data); [discriminate|].
  destruct (asn1.parseTagAndLength data 0) as [[t offset]|e] eqn:Ht;
    [|discriminate].
  apply parseTagAndLength_inv in Ht.
  destruct Ht as [b [Hb [Hclass [Hcomp [Htag Hoff]]]]].
  destruct (_ || _) eqn:Htags; [discriminate|].
  apply orb_false_iff in Htags. destruct Htags as [Htags Hc].
  apply orb_false_iff in Htags. destruct Htags as [Hcl Htg].
  apply negb_false_iff in Hcl, Htg, Hc.
  apply Z.eqb_eq in Htg. apply Bool.eqb_prop in Hc.
  destruct (asn1.invalidLength offset (asn1.length t) (len data)) eqn:Hinv;
    [discriminate|].
  unfold asn1.invalidLength in Hinv. apply orb_false_iff in Hinv.
  destruct Hinv as [_ Hinv]. apply Z.ltb_ge in Hinv.
  unfold asn1.parseField_ContentType.
  destruct (0 =? len (asn1.sub data offset (offset + asn1.length t))) eqn:Hempty;
    [discriminate|].
  apply Z.eqb_neq in Hempty. intros _.
  assert (Hlen : 1 <= asn1.length t).
  { pose proof (sub_nonempty data offset (offset + asn1.length t)) as Hs.
    assert (len (asn1.sub data offset (offset + asn1.length t)) <> 0) by lia.
    apply Hs in H. lia. }
  split; [|lia].
  destruct (at_offset_0 _ _ Hb) as [tail ->].
  assert (Hx : Byte.eqb b x30 = true).
  { rewrite <- sequence_tag_byte. rewrite <- Hclass, Hcl.
    destruct Htag as [Htag|Htag].
    - rewrite <- Htag, Htg. rewrite <- Hcomp, Hc. reflexivity.
    - unfold asn1.TagSequence in Htg. lia. }
  apply Byte.byte_dec_bl in Hx. subst. now exists tail.
Qed.

End StrictReader.

(* ================================================================= *)
(** * OIDs, labels and the two paths of [Detect] *)

Section DetectPaths.

Lemma oid_Equal_eq (a b : asn1.ObjectIdentifier) :
  asn1.Equal a b = true <-> a = b.
Proof.
  revert b; induction a as [|x a IH]; intros [|y b]; simpl;
    try (split; discriminate); try tauto.
  rewrite andb_true_iff, IH, Z.eqb_eq. split.
  - intros [-> ->]. reflexivity.
  - intros [= -> ->]. auto.
Qed.

Lemma oid_Equal_refl (a : asn1.ObjectIdentifier) : asn1.Equal a a = true.
Proof. now apply oid_Equal_eq. Qed.

Lemma GetOIDDescription_known (oid : asn1.ObjectIdentifier) (label : string) :
  In (oid, label) knownOIDs -> GetOIDDescription oid = label.
Proof.
  unfold knownOIDs. intros H.
  repeat (destruct H as [H|H]; [injection H as <- <-; reflexivity|]).
  destruct H.
Qed.


Lemma append_nil_r (s : string) : (s ++ "")%string = s.
Proof. induction s as [|c s IH]; simpl; [reflexivity | now rewrite IH]. Qed.

Lemma String_from_concat (oi : asn1.ObjectIdentifier) (v : Z) :
  (asn1.itoa v ++ asn1.String_from false oi)%string = dottedDecimal (v :: oi).
Proof.
  revert v; induction oi as [|y oi IH]; intros v.
  - apply append_nil_r.
  - unfold dottedDecimal in *. cbn [asn1.String_from map String.concat].
    rewrite IH. reflexivity.
Qed.

(** [ObjectIdentifier.String] yields the dotted-decimal form. *)
Lemma String_dotted (oi : asn1.ObjectIdentifier) :
  asn1.String oi = dottedDecimal oi.
Proof.
  destruct oi as [|v oi]; [reflexivity|].
  unfold asn1.String. cbn [asn1.String_from].
  rewrite String_from_concat. reflexivity.
Qed.

(** No description is the label of the heuristic outcome. *)
Lemma GetOIDDescription_not_encrypted (oid : asn1.ObjectIdentifier) :
  GetOIDDescription oid <> Fallback.TypeEncryptedPKCS12.
Proof.
  unfold GetOIDDescription.
  repeat match goal with
  | |- context [if ?c then _ else _] => destruct c; [discriminate|]
  end.
  discriminate.
Qed.

(** The strict path: the parsed OID and its description. *)
Lemma Detect_strict (data : list byte) (ci : asn1.ContentInfo) (rest : list byte) :
  asn1.Unmarshal data = asn1.Ok (ci, rest) ->
  Fallback.Detect data =
  Done (strictResult (asn1.ContentType ci)
                     (GetOIDDescription (asn1.ContentType ci)), None).
Proof. unfold Fallback.Detect. intros ->. reflexivity. Qed.

(** The fallback path: the heuristic verdict decides. *)
Lemma Detect_fallback (data : list byte) (e : asn1.error) :
  asn1.Unmarshal data = asn1.Err e ->
  Fallback.Detect data =
  Done (if encryptedVerdict data
        then (encryptedResult, None)
        else (Fallback.zeroResult,
              Some (Errorf "failed to parse ASN.1 structure: " e))).
Proof.
  unfold Fallback.Detect. intros ->. rewrite isEncryptedPKCS12_value.
  cbn [bind]. destruct (encryptedVerdict data); reflexivity.
Qed.

(** [Detect] never panics. *)
Lemma Detect_total (data : list byte) :
  exists r, Fallback.Detect data = Done r.
Proof.
  destruct (asn1.Unmarshal data) as [[ci rest]|e] eqn:Hu.
  - eexists. apply (Detect_strict _ _ _ Hu).
  - eexists. apply (Detect_fallback _ _ Hu).
Qed.

(** The strict detector is the fallback detector on buffers that parse. *)
Lemma Strict_Detect_strict (data : list byte) (ci : asn1.ContentInfo)
      (rest : list byte) :
  asn1.Unmarshal data = asn1.Ok (ci, rest) ->
  Strict.Detect data =
  ({| Strict.Type_ := GetOIDDescription (asn1.ContentType ci);
      Strict.ContentType := asn1.ContentType ci |}, None).
Proof. unfold Strict.Detect. intros ->. reflexivity. Qed.

Lemma Strict_Detect_error (data : list byte) (e : asn1.error) :
  asn1.Unmarshal data = asn1.Err e ->
  Strict.Detect data =
  (Strict.zeroResult, Some (Errorf "failed to parse ASN.1 structure: " e)).
Proof. unfold Strict.Detect. intros ->. reflexivity. Qed.

(** The value of [IsPKCS12], and of the [IsUserKeyPKCS12] that delegates. *)
Lemma IsPKCS12_value (data : list byte) :
  Fallback.IsPKCS12 data = Done (strictPKCS12 data
                                 || (match asn1.Unmarshal data with
                                     | asn1.Ok _ => false
                                     | asn1.Err _ => encryptedVerdict data
                                     end)).
Proof.
  unfold Fallback.IsPKCS12, strictPKCS12.
  destruct (asn1.Unmarshal data) as [[ci rest]|e] eqn:Hu.
  - rewrite (Detect_strict _ _ _ Hu). cbn [bind strictResult
      Fallback.ContentType Fallback.Type_].
    destruct (String.eqb_spec (GetOIDDescription (asn1.ContentType ci))
                              Fallback.TypeEncryptedPKCS12) as [E|_].
    + now apply GetOIDDescription_not_encrypted in E.
    + reflexivity.
  - rewrite (Detect_fallback _ _ Hu). cbn [bind].
    destruct (encryptedVerdict data); reflexivity.
Qed.

End DetectPaths.

(* ================================================================= *)
(** * The encoder and the strict reader: round trip *)

Section Arithmetic.

Lemma lor_shiftl_add (a d w : Z) :
  0 <= w -> 0 <= d < 2 ^ w -> Z.lor (Z.shiftl a w) d = a * 2 ^ w + d.
Proof.
  intros Hw Hd.
  assert (Hland : Z.land (Z.shiftl a w) d = 0).
  { apply Z.bits_inj'. intros i Hi. rewrite Z.land_spec, Z.bits_0.
    destruct (Z.lt_ge_cases i w) as [Hlt|Hge].
    - rewrite Z.shiftl_spec_low by assumption. reflexivity.
    - rewrite <- (Z.mod_small d (2 ^ w)) by assumption.
      rewrite Z.mod_pow2_bits_high by lia. apply andb_false_r. }
  rewrite <- Z.lxor_lor by assumption.
  rewrite <- Z.add_nocarry_lxor by assumption.
  now rewrite Z.shiftl_mul_pow2.
Qed.

(** The digit at position [m] (in base [2^w]) on top of the [m] low digits
    gives the [m+1] low digits. *)
Lemma split_digit (w L m : Z) :
  0 < w -> 0 <= m ->
  ((L / 2 ^ (w * m)) mod 2 ^ w) * 2 ^ (w * m) + L mod 2 ^ (w * m)
  = L mod 2 ^ (w * (m + 1)).
Proof.
  intros Hw Hm.
  replace (w * (m + 1)) with (w * m + w) by lia.
  rewrite Z.pow_add_r by lia.
  rewrite Z.rem_mul_r by (try apply Z.pow_nonzero; try apply Z.pow_pos_nonneg; lia).
  lia.
Qed.

Lemma byteval_byte_of_Z (v : Z) : byteval (asn1.byte_of_Z v) = v mod 256.
Proof.
  unfold asn1.byte_of_Z, byteval.
  pose proof (Z.mod_pos_bound v 256 ltac:(lia)) as Hb.
  destruct (Byte.of_N (Z.to_N (v mod 256))) as [b|] eqn:E.
  - apply Byte.to_of_N in E. rewrite E. lia.
  - apply Byte.of_N_None_iff in E. lia.
Qed.

Lemma byteval_bound (b : byte) : 0 <= byteval b < 256.
Proof.
  unfold byteval. pose proof (Byte.to_N_bounded b). lia.
Qed.

Lemma land_127 (v : Z) : Z.land v 127 = v mod 128.
Proof. change 127 with (Z.ones 7). now rewrite Z.land_ones by lia. Qed.

(** Bit 7 of a byte value written as a group of seven bits and a flag. *)
Lemma land_128_set (g : Z) : 0 <= g < 128 -> Z.land (g + 128) 128 = 128.
Proof.
  intros Hg. apply Z.bits_inj'. intros i Hi.
  rewrite Z.land_spec.
  destruct (Z.eq_dec i 7) as [->|Hne].
  - replace (g + 128) with (g + 1 * 2 ^ 7) by lia.
    rewrite <- (Z.div_pow2_bits _ 7 0) by lia.
    rewrite Z.div_add by lia. rewrite Z.div_small by lia. reflexivity.
  - replace (Z.testbit 128 i) with false; [apply andb_false_r|].
    symmetry. change 128 with (2 ^ 7). apply Z.pow2_bits_false. lia.
Qed.

Lemma land_128_clear (g : Z) : 0 <= g < 128 -> Z.land g 128 = 0.
Proof.
  intros Hg. apply Z.bits_inj'. intros i Hi.
  rewrite Z.land_spec, Z.bits_0.
  destruct (Z.eq_dec i 7) as [->|Hne].
  - rewrite <- (Z.mod_small g (2 ^ 7)) by (simpl; lia).
    rewrite Z.mod_pow2_bits_high by lia. reflexivity.
  - replace (Z.testbit 128 i) with false; [apply andb_false_r|].
    symmetry. change 128 with (2 ^ 7). apply Z.pow2_bits_false. lia.
Qed.

Lemma lor_128 (g : Z) : 0 <= g < 128 -> Z.lor g 128 = g + 128.
Proof.
  intros Hg. rewrite Z.lor_comm.
  change 128 with (Z.shiftl 1 7) at 1.
  rewrite (lor_shiftl_add 1 g 7); [| lia | change (2 ^ 7) with 128; lia].
  change (2 ^ 7) with 128. lia.
Qed.

End Arithmetic.

Section Base128.

Lemma at_offset_app (pre post : list byte) (b : byte) :
  asn1.at_offset (pre ++ b :: post) (len pre) = Some b.
Proof.
  unfold asn1.at_offset, len.
  replace (Z.of_nat (List.length pre) <? 0) with false
    by (symmetry; apply Z.ltb_ge; lia).
  rewrite Nat2Z.id, nth_error_app2 by lia.
  now rewrite Nat.sub_diag.
Qed.

Lemma at_offset_end (bytes : list byte) :
  asn1.at_offset bytes (len bytes) = None.
Proof.
  unfold asn1.at_offset, len.
  replace (Z.of_nat (List.length bytes) <? 0) with false
    by (symmetry; apply Z.ltb_ge; lia).
  rewrite Nat2Z.id. apply nth_error_None. lia.
Qed.

Lemma length_base128Bytes (n : Z) (k : nat) :
  List.length (asn1.base128Bytes n k) = k.
Proof. induction k as [|k IH]; simpl; [reflexivity | now rewrite IH]. Qed.

Lemma group_bound (n : Z) (i : nat) : 0 <= group n i < 128.
Proof. unfold group. apply Z.mod_pos_bound. lia. Qed.

Lemma base128Bytes_S (n : Z) (i : nat) :
  asn1.base128Bytes n (S i) =
  asn1.byte_of_Z (if Nat.eqb i 0 then group n i else group n i + 128)
  :: asn1.base128Bytes n i.
Proof.
  cbn [asn1.base128Bytes]. f_equal. f_equal.
  rewrite land_127, Z.shiftr_div_pow2 by lia.
  replace (Z.of_nat i * 7) with (7 * Z.of_nat i) by lia.
  fold (group n i). destruct (Nat.eqb i 0); [reflexivity|].
  apply lor_128, group_bound.
Qed.

(** Reading back [k] groups: the accumulator receives the [k] low groups of
    [n]. *)
Lemma base128Loop_read (n : Z) (k : nat) :
  forall (rem : nat) (ret64 : Z) (pre post : list byte),
    (1 <= k <= rem)%nat -> (rem <= 5)%nat ->
    (rem = 5%nat -> k = 1%nat \/ group n (k - 1) <> 0) ->
    ret64 * 2 ^ (7 * Z.of_nat k) + n mod 2 ^ (7 * Z.of_nat k) <= asn1.MaxInt32 ->
    asn1.base128Loop (pre ++ asn1.base128Bytes n k ++ post) (len pre) ret64 rem
    = asn1.Ok (ret64 * 2 ^ (7 * Z.of_nat k) + n mod 2 ^ (7 * Z.of_nat k),
               len pre + Z.of_nat k).
Proof.
  induction k as [|i IH]; intros rem ret64 pre post Hk Hrem Hmin Hmax; [lia|].
  destruct rem as [|rem']; [lia|].
  rewrite base128Bytes_S. cbn [app asn1.base128Loop].
  rewrite at_offset_app.
  pose proof (group_bound n i) as Hg.
  rewrite byteval_byte_of_Z.
  destruct i as [|i'].
  - (* the last byte *)
    change (Nat.eqb 0 0) with true. cbv iota. rewrite Z.mod_small by lia.
    replace (Nat.eqb (S rem') 5 && (group n 0 =? 128)) with false
      by (symmetry; apply andb_false_iff; right; apply Z.eqb_neq; lia).
    rewrite land_127, Z.mod_small by lia.
    rewrite land_128_clear by lia. cbn [Z.eqb].
    rewrite (lor_shiftl_add ret64 (group n 0) 7)
      by (try change (2 ^ 7) with 128; lia).
    assert (Hval : ret64 * 2 ^ 7 + group n 0
                   = ret64 * 2 ^ (7 * Z.of_nat 1) + n mod 2 ^ (7 * Z.of_nat 1)).
    { unfold group. change (7 * Z.of_nat 0) with 0.
      change (7 * Z.of_nat 1) with 7. change (2 ^ 0) with 1.
      rewrite Z.div_1_r. reflexivity. }
    rewrite Hval.
    replace (asn1.MaxInt32 <? _) with false
      by (symmetry; apply Z.ltb_ge; exact Hmax).
    reflexivity.
  - (* a byte with the continuation flag *)
    change (Nat.eqb (S i') 0) with false. cbv iota.
    rewrite Z.mod_small by lia.
    assert (Hfirst : (Nat.eqb (S rem') 5
                      && (group n (S i') + 128 =? 128)) = false).
    { destruct (Nat.eqb_spec (S rem') 5) as [E|E]; [|reflexivity].
      destruct (Hmin E) as [H1|H1]; [lia|].
      replace (S (S i') - 1)%nat with (S i') in H1 by lia.
      cbn [andb]. apply Z.eqb_neq. lia. }
    rewrite Hfirst.
    rewrite land_127.
    replace ((group n (S i') + 128) mod 128) with (group n (S i'))
      by (rewrite <- Z.add_mod_idemp_r by lia; change (128 mod 128) with 0;
          rewrite Z.add_0_r, Z.mod_small by lia; reflexivity).
    rewrite land_128_set by lia. cbn [Z.eqb Pos.eqb].
    rewrite (lor_shiftl_add ret64 (group n (S i')) 7)
      by (try change (2 ^ 7) with 128; lia).
    replace (pre ++ asn1.byte_of_Z (group n (S i') + 128)
                 :: asn1.base128Bytes n (S i') ++ post)
      with ((pre ++ [asn1.byte_of_Z (group n (S i') + 128)])
              ++ asn1.base128Bytes n (S i') ++ post)
      by (now rewrite <- app_assoc).
    replace (len pre + 1)
      with (len (pre ++ [asn1.byte_of_Z (group n (S i') + 128)]))
      by (rewrite len_app; reflexivity).
    assert (Hsplit : (ret64 * 2 ^ 7 + group n (S i')) * 2 ^ (7 * Z.of_nat (S i'))
                     + n mod 2 ^ (7 * Z.of_nat (S i'))
                     = ret64 * 2 ^ (7 * Z.of_nat (S (S i')))
                       + n mod 2 ^ (7 * Z.of_nat (S (S i')))).
    { replace (Z.of_nat (S (S i'))) with (Z.of_nat (S i') + 1) by lia.
      rewrite <- (split_digit 7 n (Z.of_nat (S i'))) by lia.
      replace (7 * (Z.of_nat (S i') + 1)) with (7 * Z.of_nat (S i') + 7) by lia.
      rewrite Z.pow_add_r by lia. unfold group.
      change (2 ^ 7) with 128. ring. }
    rewrite IH.
    + rewrite Hsplit. f_equal. f_equal. rewrite len_app.
      change (len [asn1.byte_of_Z (group n (S i') + 128)]) with 1. lia.
    + lia.
    + lia.
    + intros E. lia.
    + rewrite Hsplit. exact Hmax.
Qed.

End Base128.

Section ObjectIdentifiers.

Lemma base128Rounds_0 (fuel : nat) : asn1.base128Rounds 0 fuel = 0.
Proof. destruct fuel; reflexivity. Qed.

Lemma base128Rounds_spec (fuel : nat) :
  forall n, 0 < n < 2 ^ (7 * Z.of_nat fuel) ->
    1 <= asn1.base128Rounds n fuel <= Z.of_nat fuel
    /\ 2 ^ (7 * (asn1.base128Rounds n fuel - 1)) <= n
       < 2 ^ (7 * asn1.base128Rounds n fuel).
Proof.
  induction fuel as [|fuel IH]; intros n Hn.
  - change (2 ^ (7 * Z.of_nat 0)) with 1 in Hn. lia.
  - cbn [asn1.base128Rounds].
    replace (0 <? n) with true by (symmetry; apply Z.ltb_lt; lia).
    rewrite Z.shiftr_div_pow2 by lia. change (2 ^ 7) with 128.
    assert (Hq : 0 <= n / 128) by (apply Z.div_pos; lia).
    pose proof (Z.div_mod n 128 ltac:(lia)) as Hdm.
    pose proof (Z.mod_pos_bound n 128 ltac:(lia)) as Hmb.
    destruct (Z.eq_dec (n / 128) 0) as [E|E].
    + rewrite E, base128Rounds_0.
      change (2 ^ (7 * (1 + 0 - 1))) with 1. change (2 ^ (7 * (1 + 0))) with 128.
      lia.
    + assert (Hq' : 0 < n / 128 < 2 ^ (7 * Z.of_nat fuel)).
      { split; [lia|]. apply Z.div_lt_upper_bound; [lia|].
        replace (7 * Z.of_nat (S fuel)) with (7 + 7 * Z.of_nat fuel) in Hn by lia.
        rewrite Z.pow_add_r in Hn by lia. change (2 ^ 7) with 128 in Hn. lia. }
      destruct (IH _ Hq') as [Hk [Hlo Hhi]].
      set (k := asn1.base128Rounds (n / 128) fuel) in *.
      split; [lia|].
      replace (7 * (1 + k - 1)) with (7 + 7 * (k - 1)) by lia.
      replace (7 * (1 + k)) with (7 + 7 * k) by lia.
      rewrite !Z.pow_add_r by lia. change (2 ^ 7) with 128. lia.
Qed.

(** The number of groups the encoder writes for an arc. *)
Lemma base128IntLength_spec (n : Z) :
  0 <= n <= asn1.MaxInt32 ->
  1 <= asn1.base128IntLength n <= 5
  /\ n < 2 ^ (7 * asn1.base128IntLength n)
  /\ (asn1.base128IntLength n = 1
      \/ 2 ^ (7 * (asn1.base128IntLength n - 1)) <= n).
Proof.
  intros Hn. unfold asn1.base128IntLength.
  destruct (Z.eqb_spec n 0) as [->|Hne].
  - split; [lia|]. split; [reflexivity | now left].
  - assert (H10 : 0 < n < 2 ^ (7 * Z.of_nat 10)).
    { unfold asn1.MaxInt32 in Hn. change (2 ^ (7 * Z.of_nat 10)) with
        1180591620717411303424. lia. }
    destruct (base128Rounds_spec 10 n H10) as [Hk [Hlo Hhi]].
    set (k := asn1.base128Rounds n 10) in *.
    assert (k <= 5).
    { destruct (Z.le_gt_cases k 5) as [|Hgt]; [assumption|exfalso].
      assert (2 ^ (7 * 5) <= 2 ^ (7 * (k - 1)))
        by (apply Z.pow_le_mono_r; lia).
      change (2 ^ (7 * 5)) with 34359738368 in *.
      unfold asn1.MaxInt32 in Hn. lia. }
    split; [lia|]. split; [lia | now right].
Qed.

(** Reading back an arc the encoder wrote. *)
Lemma parseBase128Int_append (n : Z) (pre post : list byte) :
  0 <= n <= asn1.MaxInt32 ->
  asn1.parseBase128Int (pre ++ asn1.appendBase128Int [] n ++ post) (len pre)
  = asn1.Ok (n, len pre + len (asn1.appendBase128Int [] n)).
Proof.
  intros Hn. unfold asn1.parseBase128Int, asn1.appendBase128Int.
  cbn [app].
  destruct (base128IntLength_spec n Hn) as [Hk [Hhi Hlo]].
  set (k := asn1.base128IntLength n) in *.
  assert (Hkz : Z.of_nat (Z.to_nat k) = k) by lia.
  assert (Hmod : n mod 2 ^ (7 * k) = n) by (apply Z.mod_small; lia).
  rewrite (base128Loop_read n (Z.to_nat k) 5 0 pre post).
  - rewrite Hkz, Hmod. unfold len at 3. rewrite length_base128Bytes, Hkz.
    reflexivity.
  - lia.
  - lia.
  - intros _. destruct Hlo as [Hlo|Hlo]; [left; lia|right].
    unfold group.
    replace (Z.of_nat (Z.to_nat k - 1)) with (k - 1) by lia.
    assert (Hlt : n / 2 ^ (7 * (k - 1)) < 128).
    { apply Z.div_lt_upper_bound; [apply Z.pow_pos_nonneg; lia|].
      replace (7 * k) with (7 * (k - 1) + 7) in Hhi by lia.
      rewrite Z.pow_add_r in Hhi by lia. change (2 ^ 7) with 128 in Hhi. lia. }
    assert (Hge : 1 <= n / 2 ^ (7 * (k - 1))).
    { apply Z.div_le_lower_bound; [apply Z.pow_pos_nonneg; lia | lia]. }
    rewrite Z.mod_small by lia. lia.
  - rewrite Hkz, Hmod. lia.
Qed.

Lemma appendBase128Int_nonempty (n : Z) :
  0 <= n <= asn1.MaxInt32 -> 1 <= len (asn1.appendBase128Int [] n) <= 5.
Proof.
  intros Hn. unfold asn1.appendBase128Int. cbn [app].
  unfold len. rewrite length_base128Bytes.
  destruct (base128IntLength_spec n Hn) as [Hk _]. lia.
Qed.

Lemma appendBase128Int_app (dst : list byte) (n : Z) :
  asn1.appendBase128Int dst n = dst ++ asn1.appendBase128Int [] n.
Proof. reflexivity. Qed.

Lemma fold_appendBase128Int (arcs : list Z) (dst : list byte) :
  fold_left asn1.appendBase128Int arcs dst
  = dst ++ List.concat (map (asn1.appendBase128Int []) arcs).
Proof.
  revert dst; induction arcs as [|a arcs IH]; intros dst; cbn [fold_left map List.concat].
  - now rewrite app_nil_r.
  - rewrite IH, appendBase128Int_app, <- app_assoc. reflexivity.
Qed.

Lemma arcs_bytes_length (arcs : list Z) :
  Forall (fun a => 0 <= a <= asn1.MaxInt32) arcs ->
  Z.of_nat (List.length arcs)
  <= len (List.concat (map (asn1.appendBase128Int []) arcs))
  <= 5 * Z.of_nat (List.length arcs).
Proof.
  induction 1 as [|a arcs Ha _ IH]; cbn [map List.concat List.length].
  - unfold len. simpl. lia.
  - rewrite len_app. pose proof (appendBase128Int_nonempty a Ha). lia.
Qed.

(** The arc loop reads back the arcs the encoder wrote. *)
Lemma oidLoop_read (arcs : list Z) :
  Forall (fun a => 0 <= a <= asn1.MaxInt32) arcs ->
  forall (pre : list byte) (s : list Z) (fuel : nat),
    (List.length arcs <= fuel)%nat ->
    asn1.oidLoop (pre ++ List.concat (map (asn1.appendBase128Int []) arcs))
                 (len pre) s fuel
    = asn1.Ok (s ++ arcs).
Proof.
  induction 1 as [|a arcs Ha Hall IH]; intros pre s fuel Hfuel;
    cbn [map List.concat].
  - rewrite app_nil_r.
    destruct fuel; cbn [asn1.oidLoop];
      rewrite Z.ltb_irrefl, app_nil_r; reflexivity.
  - destruct fuel as [|fuel]; [simpl in Hfuel; lia|].
    cbn [asn1.oidLoop].
    pose proof (appendBase128Int_nonempty a Ha) as Hne.
    replace (len pre <? len (pre ++ asn1.appendBase128Int [] a
                               ++ List.concat (map (asn1.appendBase128Int []) arcs)))
      with true
      by (symmetry; apply Z.ltb_lt; rewrite !len_app;
          pose proof (len_nonneg (List.concat (map (asn1.appendBase128Int []) arcs)));
          lia).
    rewrite parseBase128Int_append by assumption.
    rewrite <- len_app, app_assoc.
    rewrite IH by (simpl in Hfuel; lia).
    now rewrite <- app_assoc.
Qed.

(** The encoder accepts a valid OID, and [parseObjectIdentifier] gives it
    back. *)
Lemma parseObjectIdentifier_encode (oid : asn1.ObjectIdentifier) :
  validOID oid ->
  exists oidBytes,
    asn1.encodeObjectIdentifier oid = asn1.Ok oidBytes
    /\ asn1.parseObjectIdentifier oidBytes = asn1.Ok oid
    /\ 1 <= len oidBytes <= 5 * len oid.
Proof.
  destruct oid as [|o0 [|o1 arcs]]; cbn [validOID]; try tauto.
  intros [H0 [H1 [H40 [Hmax Harcs]]]].
  unfold asn1.encodeObjectIdentifier.
  replace ((2 <? o0) || (o0 <? 2) && (40 <=? o1)) with false.
  2:{ symmetry. apply orb_false_iff. split; [apply Z.ltb_ge; lia|].
      destruct (Z.ltb_spec o0 2); [|reflexivity].
      cbn [andb]. apply Z.leb_gt. auto. }
  rewrite fold_appendBase128Int.
  set (v := o0 * 40 + o1) in *.
  assert (Hv : 0 <= v <= asn1.MaxInt32) by (subst v; lia).
  pose proof (appendBase128Int_nonempty v Hv) as Hne.
  pose proof (arcs_bytes_length arcs Harcs) as Hal.
  eexists. split; [reflexivity|]. split.
  - unfold asn1.parseObjectIdentifier.
    replace (len _ =? 0) with false
      by (symmetry; apply Z.eqb_neq; rewrite len_app; lia).
    pose proof (parseBase128Int_append v []
                  (List.concat (map (asn1.appendBase128Int []) arcs)) Hv) as Hp.
    cbn [app] in Hp. change (len (@nil byte)) with 0 in Hp.
    rewrite Hp. cbn [Z.add].
    replace (if v <? 80 then [v / 40; v mod 40] else [2; v - 80])
      with [o0; o1].
    2:{ destruct (Z.ltb_spec v 80) as [Hlt|Hge].
        - assert (o0 < 2) by (subst v; lia).
          assert (o1 < 40) by auto.
          f_equal; [|f_equal].
          + apply (Z.div_unique v 40 o0 o1); subst v; lia.
          + apply (Z.mod_unique v 40 o0 o1); subst v; lia.
        - assert (o0 = 2).
          { destruct (Z.eq_dec o0 2); [assumption|].
            assert (o0 < 2) by lia. assert (o1 < 40) by auto.
            subst v. lia. }
          assert (o1 = v - 80) by (subst v; lia). congruence. }
    rewrite (oidLoop_read arcs Harcs (asn1.appendBase128Int [] v) [o0; o1]).
    + reflexivity.
    + rewrite length_app. unfold len in Hal. lia.
  - rewrite len_app, !len_cons. unfold len in *. lia.
Qed.

End ObjectIdentifiers.

Section TagAndLength.

Lemma lengthLength_from_spec (fuel : nat) :
  forall L, 0 <= L < 2 ^ (8 * (Z.of_nat fuel + 1)) ->
    1 <= asn1.lengthLength_from L fuel <= Z.of_nat fuel + 1
    /\ L < 2 ^ (8 * asn1.lengthLength_from L fuel)
    /\ (asn1.lengthLength_from L fuel = 1
        \/ 2 ^ (8 * (asn1.lengthLength_from L fuel - 1)) <= L).
Proof.
  induction fuel as [|fuel IH]; intros L HL.
  - cbn [asn1.lengthLength_from]. change (2 ^ (8 * (Z.of_nat 0 + 1))) with 256 in HL.
    change (2 ^ (8 * 1)) with 256. split; [simpl; lia|]. split; [lia | now left].
  - cbn [asn1.lengthLength_from].
    destruct (Z.ltb_spec 255 L) as [Hbig|Hsmall].
    + rewrite Z.shiftr_div_pow2 by lia. change (2 ^ 8) with 256.
      pose proof (Z.div_mod L 256 ltac:(lia)) as Hdm.
      pose proof (Z.mod_pos_bound L 256 ltac:(lia)) as Hmb.
      assert (Hq : 0 <= L / 256 < 2 ^ (8 * (Z.of_nat fuel + 1))).
      { split; [apply Z.div_pos; lia|]. apply Z.div_lt_upper_bound; [lia|].
        replace (8 * (Z.of_nat (S fuel) + 1))
          with (8 + 8 * (Z.of_nat fuel + 1)) in HL by lia.
        rewrite Z.pow_add_r in HL by lia. change (2 ^ 8) with 256 in HL. lia. }
      destruct (IH _ Hq) as [Hn [Hhi Hlo]].
      set (n := asn1.lengthLength_from (L / 256) fuel) in *.
      split; [lia|].
      replace (8 * (1 + n)) with (8 + 8 * n) by lia.
      replace (8 * (1 + n - 1)) with (8 + 8 * (n - 1)) by lia.
      rewrite !Z.pow_add_r by lia. change (2 ^ 8) with 256.
      split; [lia|]. right.
      destruct Hlo as [E|Hlo].
      * rewrite E. change (2 ^ (8 * (1 - 1))) with 1. lia.
      * lia.
    + change (2 ^ (8 * 1)) with 256. split; [lia|]. split; [lia | now left].
Qed.

Lemma lengthLength_spec (L : Z) :
  0 <= L < 2 ^ 31 ->
  1 <= asn1.lengthLength L <= 4
  /\ L < 2 ^ (8 * asn1.lengthLength L)
  /\ (asn1.lengthLength L = 1 \/ 2 ^ (8 * (asn1.lengthLength L - 1)) <= L).
Proof.
  intros HL. unfold asn1.lengthLength.
  assert (H8 : 0 <= L < 2 ^ (8 * (Z.of_nat 8 + 1))).
  { change (2 ^ (8 * (Z.of_nat 8 + 1))) with 4722366482869645213696.
    change (2 ^ 31) with 2147483648 in HL. lia. }
  destruct (lengthLength_from_spec 8 L H8) as [Hn [Hhi Hlo]].
  set (n := asn1.lengthLength_from L 8) in *.
  assert (n <= 4).
  { destruct (Z.le_gt_cases n 4) as [|Hgt]; [assumption|exfalso].
    destruct Hlo as [E|Hlo]; [lia|].
    assert (2 ^ (8 * 4) <= 2 ^ (8 * (n - 1))) by (apply Z.pow_le_mono_r; lia).
    change (2 ^ (8 * 4)) with 4294967296 in *.
    change (2 ^ 31) with 2147483648 in HL. lia. }
  split; [lia|]. split; assumption.
Qed.

Lemma length_lengthBytes (L : Z) (n : nat) :
  List.length (asn1.lengthBytes L n) = n.
Proof. induction n as [|n IH]; simpl; [reflexivity | now rewrite IH]. Qed.

(** Reading back [n] length bytes. *)
Lemma lengthLoop_read (L : Z) (n : nat) :
  forall (acc : Z) (pre post : list byte),
    0 <= acc ->
    acc * 2 ^ (8 * Z.of_nat n) + L mod 2 ^ (8 * Z.of_nat n) < 2 ^ 31 ->
    (0 < acc \/ n = 0%nat
     \/ (L / 2 ^ (8 * (Z.of_nat n - 1))) mod 256 <> 0) ->
    asn1.lengthLoop (pre ++ asn1.lengthBytes L n ++ post) (len pre) acc n
    = asn1.Ok (acc * 2 ^ (8 * Z.of_nat n) + L mod 2 ^ (8 * Z.of_nat n),
               len pre + Z.of_nat n).
Proof.
  induction n as [|m IH]; intros acc pre post Hacc Hmax Hnz.
  - cbn [asn1.lengthLoop]. change (2 ^ (8 * Z.of_nat 0)) with 1.
    rewrite Z.mod_1_r. f_equal. f_equal; lia.
  - cbn [asn1.lengthBytes app asn1.lengthLoop].
    rewrite at_offset_app, byteval_byte_of_Z.
    rewrite Z.shiftr_div_pow2 by lia.
    replace (Z.of_nat m * 8) with (8 * Z.of_nat m) by lia.
    set (d := (L / 2 ^ (8 * Z.of_nat m)) mod 256).
    assert (Hd : 0 <= d < 256) by (apply Z.mod_pos_bound; lia).
    assert (Hsplit : (acc * 2 ^ 8 + d) * 2 ^ (8 * Z.of_nat m)
                     + L mod 2 ^ (8 * Z.of_nat m)
                     = acc * 2 ^ (8 * Z.of_nat (S m))
                       + L mod 2 ^ (8 * Z.of_nat (S m))).
    { replace (Z.of_nat (S m)) with (Z.of_nat m + 1) by lia.
      rewrite <- (split_digit 8 L (Z.of_nat m)) by lia.
      replace (8 * (Z.of_nat m + 1)) with (8 * Z.of_nat m + 8) by lia.
      rewrite Z.pow_add_r by lia. subst d. change (2 ^ 8) with 256. ring. }
    assert (Hpow : 0 < 2 ^ (8 * Z.of_nat m)) by (apply Z.pow_pos_nonneg; lia).
    assert (Hlow : 0 <= L mod 2 ^ (8 * Z.of_nat m))
      by (apply Z.mod_pos_bound; lia).
    rewrite <- Hsplit in Hmax. change (2 ^ 8) with 256 in *.
    change (2 ^ 31) with 2147483648 in Hmax.
    assert (Hacc' : acc * 256 + d < 2147483648) by nia.
    replace (8388608 <=? acc) with false by (symmetry; apply Z.leb_gt; lia).
    rewrite (lor_shiftl_add acc d 8) by (try change (2 ^ 8) with 256; lia).
    change (2 ^ 8) with 256.
    assert (Hne : acc * 256 + d <> 0).
    { destruct Hnz as [H|[H|H]]; [lia | discriminate H|].
      replace (Z.of_nat (S m) - 1) with (Z.of_nat m) in H by lia.
      fold d in H. lia. }
    replace (acc * 256 + d =? 0) with false
      by (symmetry; apply Z.eqb_neq; exact Hne).
    replace (pre ++ asn1.byte_of_Z (L / 2 ^ (8 * Z.of_nat m))
                 :: asn1.lengthBytes L m ++ post)
      with ((pre ++ [asn1.byte_of_Z (L / 2 ^ (8 * Z.of_nat m))])
              ++ asn1.lengthBytes L m ++ post)
      by (now rewrite <- app_assoc).
    replace (len pre + 1)
      with (len (pre ++ [asn1.byte_of_Z (L / 2 ^ (8 * Z.of_nat m))]))
      by (rewrite len_app; reflexivity).
    rewrite IH.
    + rewrite <- Hsplit. change (2 ^ 8) with 256. f_equal. f_equal.
      rewrite len_app.
      change (len [asn1.byte_of_Z (L / 2 ^ (8 * Z.of_nat m))]) with 1. lia.
    + lia.
    + change (2 ^ 31) with 2147483648. lia.
    + left. lia.
Qed.

End TagAndLength.

Section Headers.

Lemma range_forallb (P : Z -> bool) (n : nat) :
  forallb P (map Z.of_nat (seq 0 n)) = true ->
  forall z, 0 <= z < Z.of_nat n -> P z = true.
Proof.
  intros H z Hz. rewrite forallb_forall in H. apply H.
  apply in_map_iff. exists (Z.to_nat z). split; [lia|].
  apply in_seq. lia.
Qed.

(** The identifier octet the encoder writes for a low tag number, and what
    the reader takes from it. *)
Lemma header_byte (c t : Z) (k : bool) :
  0 <= c < 4 -> 0 <= t < 31 ->
  forall h,
    h = asn1.byte_of_Z
          (Z.lor (if k then Z.lor (Z.shiftl c 6) 32 else Z.shiftl c 6) t) ->
    Z.shiftr (byteval h) 6 = c
    /\ Z.land (byteval h) 31 = t
    /\ (Z.land (byteval h) 32 =? 32) = k.
Proof.
  intros Hc Ht h ->.
  pose (check := fun (k : bool) (c t : Z) =>
    let h := asn1.byte_of_Z
               (Z.lor (if k then Z.lor (Z.shiftl c 6) 32 else Z.shiftl c 6) t) in
    (Z.shiftr (byteval h) 6 =? c) && (Z.land (byteval h) 31 =? t)
    && Bool.eqb (Z.land (byteval h) 32 =? 32) k).
  assert (Hall : forall k, check k c t = true).
  { intros k'.
    apply (range_forallb (fun c => check k' c t) 4); [|simpl; lia].
    apply (range_forallb
             (fun t => forallb (fun c => check k' c t) (map Z.of_nat (seq 0 4)))
             31); [|simpl; lia].
    destruct k'; vm_compute; reflexivity. }
  specialize (Hall k). unfold check in Hall.
  apply andb_true_iff in Hall. destruct Hall as [Hall H3].
  apply andb_true_iff in Hall. destruct Hall as [H1 H2].
  apply Z.eqb_eq in H1, H2. apply Bool.eqb_prop in H3. auto.
Qed.

Lemma at_offset_snoc (pre post : list byte) (b c : byte) :
  asn1.at_offset (pre ++ b :: c :: post) (len pre + 1) = Some c.
Proof.
  replace (pre ++ b :: c :: post) with ((pre ++ [b]) ++ c :: post)
    by (now rewrite <- app_assoc).
  replace (len pre + 1) with (len (pre ++ [b]))
    by (rewrite len_app; reflexivity).
  apply at_offset_app.
Qed.

(** Reading back the identifier and length octets the encoder wrote. *)
Lemma parseTagAndLength_append (t : asn1.tagAndLength) (pre post : list byte) :
  0 <= asn1.class t < 4 -> 0 <= asn1.tag t < 31 ->
  0 <= asn1.length t < 2 ^ 31 ->
  asn1.parseTagAndLength (pre ++ asn1.appendTagAndLength [] t ++ post) (len pre)
  = asn1.Ok (t, len pre + len (asn1.appendTagAndLength [] t)).
Proof.
  destruct t as [c tg L k]. cbn [asn1.class asn1.tag asn1.length].
  intros Hc Ht HL.
  unfold asn1.appendTagAndLength.
  cbn [asn1.class asn1.tag asn1.length asn1.isCompound].
  replace (31 <=? tg) with false by (symmetry; apply Z.leb_gt; lia).
  cbn [app].
  set (h := asn1.byte_of_Z
              (Z.lor (if k then Z.lor (Z.shiftl c 6) 32 else Z.shiftl c 6) tg)).
  destruct (header_byte c tg k Hc Ht h eq_refl) as [Hcls [Htag Hcomp]].
  assert (Hnot31 : (Z.land (byteval h) 31 =? 31) = false)
    by (apply Z.eqb_neq; lia).
  destruct (Z.leb_spec 128 L) as [Hlong|Hshort].
  - (* long form *)
    change (2 ^ 31) with 2147483648 in HL.
    destruct (lengthLength_spec L ltac:(change (2 ^ 31) with 2147483648; lia))
      as [Hn [Hhi Hlo]].
    set (n := asn1.lengthLength L) in *.
    unfold asn1.appendLength. fold n. cbn [app].
    assert (Hnb : byteval (asn1.byte_of_Z (Z.lor 128 n)) = n + 128).
    { rewrite byteval_byte_of_Z, Z.lor_comm, lor_128 by lia.
      apply Z.mod_small. lia. }
    unfold asn1.parseTagAndLength.
    rewrite at_offset_app. rewrite Hnot31.
    rewrite at_offset_snoc. rewrite Hnb.
    rewrite land_128_set by lia. cbn [Z.eqb Pos.eqb].
    rewrite land_127.
    replace ((n + 128) mod 128) with n
      by (rewrite <- Z.add_mod_idemp_r by lia; change (128 mod 128) with 0;
          rewrite Z.add_0_r, Z.mod_small by lia; reflexivity).
    replace (n =? 0) with false by (symmetry; apply Z.eqb_neq; lia).
    replace (pre ++ h :: asn1.byte_of_Z (Z.lor 128 n)
                 :: asn1.lengthBytes L (Z.to_nat n) ++ post)
      with ((pre ++ [h; asn1.byte_of_Z (Z.lor 128 n)])
              ++ asn1.lengthBytes L (Z.to_nat n) ++ post)
      by (now rewrite <- app_assoc).
    replace (len pre + 1 + 1)
      with (len (pre ++ [h; asn1.byte_of_Z (Z.lor 128 n)]))
      by (rewrite len_app;
          change (len [h; asn1.byte_of_Z (Z.lor 128 n)]) with 2; lia).
    assert (Hnz : Z.of_nat (Z.to_nat n) = n) by lia.
    assert (Hmod : L mod 2 ^ (8 * n) = L) by (apply Z.mod_small; lia).
    rewrite lengthLoop_read.
    + rewrite Hnz, Hmod. cbn [Z.mul Z.add].
      replace (L <? 128) with false by (symmetry; apply Z.ltb_ge; lia).
      rewrite Hcls, Htag, Hcomp. f_equal. f_equal.
      rewrite !len_app. unfold len. cbn [List.length].
      rewrite length_lengthBytes. lia.
    + lia.
    + rewrite Hnz, Hmod. change (2 ^ 31) with 2147483648. lia.
    + right. right. rewrite Hnz.
      assert (Hpow : 0 < 2 ^ (8 * (n - 1))) by (apply Z.pow_pos_nonneg; lia).
      assert (Hq : 1 <= L / 2 ^ (8 * (n - 1)) < 256).
      { split.
        - apply Z.div_le_lower_bound; [assumption|].
          destruct Hlo as [E|Hlo]; [|lia].
          rewrite E. change (2 ^ (8 * (1 - 1))) with 1. lia.
        - apply Z.div_lt_upper_bound; [assumption|].
          replace (8 * n) with (8 * (n - 1) + 8) in Hhi by lia.
          rewrite Z.pow_add_r in Hhi by lia. change (2 ^ 8) with 256 in Hhi.
          lia. }
      rewrite Z.mod_small by lia. lia.
  - (* short form *)
    cbn [app].
    unfold asn1.parseTagAndLength.
    rewrite at_offset_app. rewrite Hnot31.
    rewrite at_offset_snoc.
    rewrite byteval_byte_of_Z, (Z.mod_small L 256) by lia.
    rewrite land_128_clear by lia. cbn [Z.eqb].
    rewrite land_127, Z.mod_small by lia.
    rewrite Hcls, Htag, Hcomp. f_equal. f_equal.
    unfold len. cbn [List.length]. lia.
Qed.

End Headers.

Section RoundTrip.

Lemma sub_app (pre mid post : list byte) :
  asn1.sub (pre ++ mid ++ post) (len pre) (len pre + len mid) = mid.
Proof.
  unfold asn1.sub, len.
  replace (Z.to_nat (Z.of_nat (List.length pre) + Z.of_nat (List.length mid)
                     - Z.of_nat (List.length pre)))
    with (List.length mid) by lia.
  rewrite Nat2Z.id, skipn_app, Nat.sub_diag, skipn_all. cbn [skipn app].
  rewrite firstn_app, Nat.sub_diag, firstn_all. cbn [firstn].
  apply app_nil_r.
Qed.

Lemma header_length (t : asn1.tagAndLength) :
  0 <= asn1.tag t < 31 -> 0 <= asn1.length t < 2 ^ 31 ->
  2 <= len (asn1.appendTagAndLength [] t) <= 6.
Proof.
  intros Ht HL. unfold asn1.appendTagAndLength.
  replace (31 <=? asn1.tag t) with false by (symmetry; apply Z.leb_gt; lia).
  destruct (128 <=? asn1.length t).
  - unfold asn1.appendLength. destruct (lengthLength_spec _ HL) as [Hn _].
    rewrite !len_app. unfold len. cbn [List.length].
    rewrite length_lengthBytes. lia.
  - unfold len. cbn [app List.length]. lia.
Qed.

(** The optional content field: absent, or an explicit [0] element with a
    non-empty body. *)
Lemma parseField_Content_encode (pre : list byte) (content : asn1.RawValue) :
  content = asn1.zeroRawValue
  \/ (exists inner, content = explicitContent inner /\ inner <> []) ->
  len (asn1.Bytes content) < 2 ^ 31 ->
  exists raw offset,
    asn1.parseField_Content (pre ++ asn1.encodeContent content) (len pre)
    = asn1.Ok (raw, offset)
    /\ asn1.Bytes raw = asn1.Bytes content
    /\ asn1.Class raw = asn1.Class content
    /\ asn1.Tag raw = asn1.Tag content
    /\ asn1.IsCompound raw = asn1.IsCompound content
    /\ asn1.FullBytes raw = asn1.encodeContent content.
Proof.
  intros [->|[inner [-> Hne]]] Hlen.
  - exists asn1.zeroRawValue, (len pre).
    change (asn1.encodeContent asn1.zeroRawValue) with (@nil byte).
    rewrite app_nil_r. unfold asn1.parseField_Content.
    rewrite Z.eqb_refl. repeat split; reflexivity.
  - cbn [explicitContent asn1.Bytes] in Hlen.
    assert (Hpos : 0 < len inner).
    { destruct inner; [congruence|]. rewrite len_cons.
      pose proof (len_nonneg inner). lia. }
    assert (Henc : asn1.encodeContent (explicitContent inner)
                   = asn1.appendTagAndLength []
                       {| asn1.class := 2; asn1.tag := 0;
                          asn1.length := len inner;
                          asn1.isCompound := true |} ++ inner).
    { unfold asn1.encodeContent, asn1.isZeroRawValue, explicitContent.
      reflexivity. }
    set (t := {| asn1.class := 2; asn1.tag := 0; asn1.length := len inner;
                 asn1.isCompound := true |}) in *.
    pose proof (header_length t ltac:(simpl; lia) ltac:(simpl; lia)) as Hh.
    set (hdr := asn1.appendTagAndLength [] t) in *.
    eexists. eexists. split.
    + unfold asn1.parseField_Content. rewrite Henc.
      replace (len pre =? len (pre ++ hdr ++ inner)) with false
        by (symmetry; apply Z.eqb_neq; rewrite !len_app; lia).
      pose proof (parseTagAndLength_append t pre inner
                    ltac:(simpl; lia) ltac:(simpl; lia) ltac:(simpl; lia))
        as Hp.
      fold hdr in Hp. rewrite Hp.
      replace (len pre + len hdr =? len (pre ++ hdr ++ inner)) with false
        by (symmetry; apply Z.eqb_neq; rewrite !len_app; lia).
      cbn [asn1.class asn1.tag asn1.length asn1.isCompound t].
      unfold asn1.ClassContextSpecific. cbn [Z.eqb Pos.eqb andb orb].
      rewrite orb_true_r. cbn [andb].
      unfold asn1.invalidLength.
      replace (len pre + len hdr + len inner <? len pre + len hdr) with false
        by (symmetry; apply Z.ltb_ge; lia).
      replace (len (pre ++ hdr ++ inner) <? len pre + len hdr + len inner)
        with false by (symmetry; apply Z.ltb_ge; rewrite !len_app; lia).
      cbn [orb]. reflexivity.
    + cbn [asn1.Bytes asn1.Class asn1.Tag asn1.IsCompound asn1.FullBytes
           explicitContent].
      split.
      { replace (pre ++ hdr ++ inner) with ((pre ++ hdr) ++ inner ++ [])
          by (now rewrite app_nil_r, app_assoc).
        rewrite <- len_app. apply sub_app. }
      split; [reflexivity|]. split; [reflexivity|]. split; [reflexivity|].
      rewrite Henc.
      replace (pre ++ hdr ++ inner) with (pre ++ (hdr ++ inner) ++ [])
        by (now rewrite app_nil_r).
      replace (len pre + len hdr + len inner)
        with (len pre + len (hdr ++ inner)) by (rewrite len_app; lia).
      apply sub_app.
Qed.

(** Round trip.  The encoder accepts a [ContentInfo] with a valid OID and an
    absent or explicit content; the strict reader decodes the bytes, all of
    them, to the same OID and the same content bytes. *)
Lemma Unmarshal_Marshal (oid : asn1.ObjectIdentifier) (content : asn1.RawValue) :
  validOID oid ->
  content = asn1.zeroRawValue
  \/ (exists inner, content = explicitContent inner /\ inner <> []) ->
  5 * len oid + len (asn1.Bytes content) + 12 < 2 ^ 31 ->
  exists data decoded,
    asn1.Marshal {| asn1.ContentType := oid; asn1.Content := content |}
    = asn1.Ok data
    /\ asn1.Unmarshal data = asn1.Ok (decoded, [])
    /\ asn1.ContentType decoded = oid
    /\ asn1.Bytes (asn1.Content decoded) = asn1.Bytes content.
Proof.
  intros Hoid Hcontent Hsize.
  destruct (parseObjectIdentifier_encode oid Hoid)
    as [oidBytes [Henc [Hdec Hlen]]].
  pose proof (len_nonneg (asn1.Bytes content)) as Hcb.
  change (2 ^ 31) with 2147483648 in Hsize.
  unfold asn1.Marshal. cbn [asn1.ContentType asn1.Content]. rewrite Henc.
  set (tOID := {| asn1.class := asn1.ClassUniversal; asn1.tag := asn1.TagOID;
                  asn1.length := len oidBytes; asn1.isCompound := false |}).
  pose proof (header_length tOID ltac:(simpl; unfold asn1.TagOID; lia)
                ltac:(simpl; change (2 ^ 31) with 2147483648; lia)) as HhO.
  set (hdrOID := asn1.appendTagAndLength [] tOID) in *.
  set (enc := asn1.encodeContent content).
  assert (Hencl : 0 <= len enc <= len (asn1.Bytes content) + 6).
  { subst enc. destruct Hcontent as [->|[inner [-> Hne]]].
    - change (asn1.encodeContent asn1.zeroRawValue) with (@nil byte).
      unfold len. simpl. lia.
    - unfold asn1.encodeContent, asn1.isZeroRawValue, explicitContent.
      cbn [asn1.Class asn1.Tag asn1.IsCompound asn1.Bytes asn1.FullBytes
           Z.eqb Pos.eqb andb negb len List.length Z.of_nat].
      cbn [andb negb Z.eqb].
      rewrite len_app.
      match goal with
      | |- context [asn1.appendTagAndLength [] ?t] =>
        pose proof (header_length t ltac:(simpl; lia)
                      ltac:(simpl; change (2 ^ 31) with 2147483648;
                            cbn [explicitContent asn1.Bytes] in Hsize;
                            pose proof (len_nonneg inner);
                            pose proof (len_nonneg oid); lia))
      end.
      pose proof (len_nonneg inner). lia. }
  set (body := hdrOID ++ oidBytes ++ enc).
  assert (Hbody : len body = len hdrOID + len oidBytes + len enc)
    by (subst body; rewrite !len_app; lia).
  set (tSeq := {| asn1.class := asn1.ClassUniversal;
                  asn1.tag := asn1.TagSequence;
                  asn1.length := len body; asn1.isCompound := true |}).
  pose proof (header_length tSeq ltac:(simpl; unfold asn1.TagSequence; lia)
                ltac:(simpl; change (2 ^ 31) with 2147483648; lia)) as HhS.
  set (hdrSeq := asn1.appendTagAndLength [] tSeq) in *.
  destruct (parseField_Content_encode (hdrOID ++ oidBytes) content Hcontent
              ltac:(change (2 ^ 31) with 2147483648; lia))
    as [raw [off [Hraw [Hbytes _]]]].
  fold enc in Hraw.
  exists (hdrSeq ++ body), {| asn1.ContentType := oid; asn1.Content := raw |}.
  split; [reflexivity|]. split; [|split; [reflexivity | exact Hbytes]].
  unfold asn1.Unmarshal, asn1.parseField_ContentInfo.
  replace (0 =? len (hdrSeq ++ body)) with false
    by (symmetry; apply Z.eqb_neq; rewrite len_app; lia).
  pose proof (parseTagAndLength_append tSeq [] body
                ltac:(simpl; unfold asn1.ClassUniversal; lia)
                ltac:(simpl; unfold asn1.TagSequence; lia)
                ltac:(simpl; change (2 ^ 31) with 2147483648; lia)) as HpS.
  cbn [app] in HpS. change (len (@nil byte)) with 0 in HpS.
  fold hdrSeq in HpS. cbn [Z.add] in HpS. rewrite HpS.
  cbn [asn1.class asn1.tag asn1.length asn1.isCompound tSeq].
  rewrite !Z.eqb_refl. cbn [negb orb Bool.eqb].
  unfold asn1.invalidLength.
  replace (len hdrSeq + len body <? len hdrSeq) with false
    by (symmetry; apply Z.ltb_ge; lia).
  replace (len (hdrSeq ++ body) <? len hdrSeq + len body) with false
    by (symmetry; apply Z.ltb_ge; rewrite len_app; lia).
  cbn [orb].
  replace (asn1.sub (hdrSeq ++ body) (len hdrSeq)
                    (len hdrSeq + len body)) with body.
  2:{ symmetry. replace (hdrSeq ++ body) with (hdrSeq ++ body ++ [])
        by (now rewrite app_nil_r).
      apply sub_app. }
  (* the content type *)
  unfold asn1.parseField_ContentType, asn1.invalidLength.
  replace (0 =? len body) with false
    by (symmetry; apply Z.eqb_neq; lia).
  pose proof (parseTagAndLength_append tOID [] (oidBytes ++ enc)
                ltac:(simpl; unfold asn1.ClassUniversal; lia)
                ltac:(simpl; unfold asn1.TagOID; lia)
                ltac:(simpl; change (2 ^ 31) with 2147483648; lia)) as HpO.
  cbn [app] in HpO. change (len (@nil byte)) with 0 in HpO.
  fold hdrOID in HpO. fold body in HpO. cbn [Z.add] in HpO. rewrite HpO.
  cbn [asn1.class asn1.tag asn1.length asn1.isCompound tOID].
  rewrite !Z.eqb_refl. cbn [negb orb Bool.eqb].
  replace (len hdrOID + len oidBytes <? len hdrOID) with false
    by (symmetry; apply Z.ltb_ge; lia).
  replace (len body <? len hdrOID + len oidBytes) with false
    by (symmetry; apply Z.ltb_ge; lia).
  cbn [orb].
  replace (asn1.sub body (len hdrOID) (len hdrOID + len oidBytes))
    with oidBytes
    by (symmetry; apply sub_app).
  rewrite Hdec.
  (* the content *)
  replace body with ((hdrOID ++ oidBytes) ++ enc)
    by (subst body; now rewrite <- app_assoc).
  replace (len hdrOID + len oidBytes) with (len (hdrOID ++ oidBytes))
    by (rewrite len_app; lia).
  rewrite Hraw. f_equal. f_equal.
  replace (Z.to_nat (len hdrSeq + len ((hdrOID ++ oidBytes) ++ enc)))
    with (List.length (hdrSeq ++ (hdrOID ++ oidBytes) ++ enc))
    by (rewrite (length_app hdrSeq); unfold len; lia).
  apply skipn_all.
Qed.

End RoundTrip.

(* ================================================================= *)
(** * The strict reader never stops for want of fuel *)

Section NoInternalError.

Lemma at_offset_Some (bytes : list byte) (offset : Z) :
  0 <= offset < len bytes -> exists b, asn1.at_offset bytes offset = Some b.
Proof.
  intros H. unfold asn1.at_offset.
  replace (offset <? 0) with false by (symmetry; apply Z.ltb_ge; lia).
  destruct (nth_error bytes (Z.to_nat offset)) as [b|] eqn:E.
  - now exists b.
  - apply nth_error_None in E. unfold len in H. lia.
Qed.

Lemma base128Loop_no_internal (bytes : list byte) (rem : nat) :
  forall offset ret64,
    failsInternally (asn1.base128Loop bytes offset ret64 rem) = false.
Proof.
  induction rem as [|rem IH]; intros offset ret64; cbn [asn1.base128Loop].
  - destruct (asn1.at_offset bytes offset); reflexivity.
  - destruct (asn1.at_offset bytes offset) as [b|]; [|reflexivity].
    destruct (_ && _); [reflexivity|].
    destruct (Z.land (byteval b) 128 =? 0).
    + destruct (asn1.MaxInt32 <? _); reflexivity.
    + apply IH.
Qed.

Lemma lengthLoop_no_internal (bytes : list byte) (n : nat) :
  forall offset length,
    failsInternally (asn1.lengthLoop bytes offset length n) = false.
Proof.
  induction n as [|n IH]; intros offset length; cbn [asn1.lengthLoop].
  - reflexivity.
  - destruct (asn1.at_offset bytes offset) as [b|]; [|reflexivity].
    destruct (8388608 <=? length); [reflexivity|].
    destruct (_ =? 0); [reflexivity | apply IH].
Qed.

Lemma parseTagAndLength_no_internal (bytes : list byte) (initOffset : Z) :
  0 <= initOffset < len bytes ->
  failsInternally (asn1.parseTagAndLength bytes initOffset) = false.
Proof.
  intros H. destruct (at_offset_Some _ _ H) as [b Hb].
  unfold asn1.parseTagAndLength. rewrite Hb.
  destruct (Z.land (byteval b) 31 =? 31).
  - unfold asn1.parseBase128Int.
    pose proof (base128Loop_no_internal bytes 5 (initOffset + 1) 0) as Hl.
    destruct (asn1.base128Loop bytes (initOffset + 1) 0 5) as [[t off]|e];
      [|exact Hl].
    destruct (t <? 31); [reflexivity|].
    destruct (asn1.at_offset bytes off) as [b'|]; [|reflexivity].
    destruct (Z.land (byteval b') 128 =? 0); [reflexivity|].
    destruct (Z.land (byteval b') 127 =? 0); [reflexivity|].
    pose proof (lengthLoop_no_internal bytes
                  (Z.to_nat (Z.land (byteval b') 127)) (off + 1) 0) as Hn.
    destruct (asn1.lengthLoop bytes (off + 1) 0 _) as [[l off']|e];
      [|exact Hn].
    destruct (l <? 128); reflexivity.
  - destruct (asn1.at_offset bytes (initOffset + 1)) as [b'|]; [|reflexivity].
    destruct (Z.land (byteval b') 128 =? 0); [reflexivity|].
    destruct (Z.land (byteval b') 127 =? 0); [reflexivity|].
    pose proof (lengthLoop_no_internal bytes
                  (Z.to_nat (Z.land (byteval b') 127)) (initOffset + 1 + 1) 0)
      as Hn.
    destruct (asn1.lengthLoop bytes (initOffset + 1 + 1) 0 _) as [[l off']|e];
      [|exact Hn].
    destruct (l <? 128); reflexivity.
Qed.

(** [len(bytes)] rounds are enough for the arc loop. *)
Lemma oidLoop_fuel (bytes : list byte) (fuel : nat) :
  forall offset s,
    len bytes - offset <= Z.of_nat fuel ->
    failsInternally (asn1.oidLoop bytes offset s fuel) = false.
Proof.
  induction fuel as [|fuel IH]; intros offset s Hf; cbn [asn1.oidLoop].
  - replace (offset <? len bytes) with false
      by (symmetry; apply Z.ltb_ge; lia).
    reflexivity.
  - destruct (offset <? len bytes); [|reflexivity].
    unfold asn1.parseBase128Int.
    pose proof (base128Loop_no_internal bytes 5 offset 0) as Hl.
    destruct (asn1.base128Loop bytes offset 0 5) as [[v off']|e] eqn:E;
      [|exact Hl].
    apply base128Loop_offset in E. apply IH. lia.
Qed.

Lemma parseObjectIdentifier_no_internal (bytes : list byte) :
  failsInternally (asn1.parseObjectIdentifier bytes) = false.
Proof.
  unfold asn1.parseObjectIdentifier.
  destruct (len bytes =? 0); [reflexivity|].
  unfold asn1.parseBase128Int.
  pose proof (base128Loop_no_internal bytes 5 0 0) as Hl.
  destruct (asn1.base128Loop bytes 0 0 5) as [[v off]|e] eqn:E; [|exact Hl].
  apply base128Loop_offset in E. apply oidLoop_fuel. unfold len. lia.
Qed.

Lemma len_sub (bytes : list byte) (lo hi : Z) :
  0 <= lo -> lo <= hi -> hi <= len bytes -> len (asn1.sub bytes lo hi) = hi - lo.
Proof.
  intros H0 H1 H2. unfold asn1.sub, len in *.
  rewrite length_firstn, length_skipn. lia.
Qed.

(** The strict reader fails only with the errors of [encoding/asn1], never
    with the artefacts of the embedding. *)
Lemma Unmarshal_no_internal (data : list byte) :
  failsInternally (asn1.Unmarshal data) = false.
Proof.
  unfold asn1.Unmarshal, asn1.parseField_ContentInfo.
  destruct (Z.eqb_spec 0 (len data)) as [E|E]; [reflexivity|].
  pose proof (len_nonneg data) as Hd.
  pose proof (parseTagAndLength_no_internal data 0 ltac:(lia)) as Ht.
  destruct (asn1.parseTagAndLength data 0) as [[t offset]|e] eqn:Hp;
    [|exact Ht].
  destruct (_ || _); [reflexivity|].
  apply parseTagAndLength_inv in Hp. destruct Hp as [b [_ [_ [_ [_ Hoff]]]]].
  destruct (asn1.invalidLength offset (asn1.length t) (len data)) eqn:Hinv;
    [reflexivity|].
  unfold asn1.invalidLength in Hinv. apply orb_false_iff in Hinv.
  destruct Hinv as [Hi1 Hi2]. apply Z.ltb_ge in Hi1, Hi2.
  set (inner := asn1.sub data offset (offset + asn1.length t)).
  assert (Hinner : len inner = asn1.length t)
    by (subst inner; rewrite len_sub; lia).
  (* the content type *)
  unfold asn1.parseField_ContentType.
  destruct (Z.eqb_spec 0 (len inner)) as [E1|E1]; [reflexivity|].
  pose proof (parseTagAndLength_no_internal inner 0 ltac:(lia)) as Ht1.
  destruct (asn1.parseTagAndLength inner 0) as [[t1 off1]|e] eqn:Hp1;
    [|exact Ht1].
  destruct (_ || _); [reflexivity|].
  apply parseTagAndLength_inv in Hp1.
  destruct Hp1 as [b1 [_ [_ [_ [_ Hoff1]]]]].
  destruct (asn1.invalidLength off1 (asn1.length t1) (len inner)) eqn:Hinv1;
    [reflexivity|].
  unfold asn1.invalidLength in Hinv1. apply orb_false_iff in Hinv1.
  destruct Hinv1 as [Hj1 Hj2]. apply Z.ltb_ge in Hj1, Hj2.
  pose proof (parseObjectIdentifier_no_internal
                (asn1.sub inner off1 (off1 + asn1.length t1))) as Ho.
  destruct (asn1.parseObjectIdentifier _) as [oid|e]; [|exact Ho].
  (* the content *)
  unfold asn1.parseField_Content.
  destruct (Z.eqb_spec (off1 + asn1.length t1) (len inner)) as [E2|E2];
    [reflexivity|].
  pose proof (parseTagAndLength_no_internal inner (off1 + asn1.length t1)
                ltac:(lia)) as Ht2.
  destruct (asn1.parseTagAndLength inner (off1 + asn1.length t1))
    as [[t2 off2]|e]; [|exact Ht2].
  destruct (off2 =? len inner); [reflexivity|].
  destruct (_ && _); [|reflexivity].
  destruct (asn1.invalidLength off2 (asn1.length t2) (len inner)); reflexivity.
Qed.

End NoInternalError.

(* ================================================================= *)
(** * Properties of the detector *)

(** ** Classification of well-formed envelopes *)

(** C1. For every OID of the fixed set (the six PKCS#7 OIDs and the PKCS#12
    OID), [Detect] on the minimal DER envelope carrying it returns without
    error the result whose [ContentType] is that OID, whose [Type] is the
    canonical label of the OID, and whose [IsEncrypted] is false; so it does
    on the envelope the tests build for it, and on the envelope with any
    non-empty explicit content. *)
Theorem Detect_known_oid (oid : asn1.ObjectIdentifier) (label : string) :
  In (oid, label) knownOIDs ->
  (exists data,
      minimalEnvelope oid = asn1.Ok data
      /\ Fallback.Detect data = Done (strictResult oid label, None))
  /\ (exists data,
      createTestData oid = asn1.Ok data
      /\ Fallback.Detect data = Done (strictResult oid label, None))
  /\ (forall inner,
      inner <> [] -> len inner < 2 ^ 30 ->
      exists data,
        asn1.Marshal {| asn1.ContentType := oid;
                        asn1.Content := explicitContent inner |} = asn1.Ok data
        /\ Fallback.Detect data = Done (strictResult oid label, None)).
Proof.
  intros H. pose proof (GetOIDDescription_known oid label H) as Hlabel.
  split; [|split].
  - unfold knownOIDs in H.
    repeat (destruct H as [H|H];
            [injection H as <- <-; eexists;
             split; [vm_compute; reflexivity|]; vm_compute; reflexivity|]).
    destruct H.
  - unfold knownOIDs in H.
    repeat (destruct H as [H|H];
            [injection H as <- <-; eexists;
             split; [vm_compute; reflexivity|]; vm_compute; reflexivity|]).
    destruct H.
  - intros inner Hne Hlen.
    assert (Hvalid : validOID oid /\ len oid <= 8).
    { unfold knownOIDs in H.
      repeat (destruct H as [H|H];
              [injection H as <- _; split;
               [cbn [validOID]; unfold asn1.MaxInt32;
                repeat split; try lia; repeat constructor; lia
               |vm_compute; discriminate]|]).
      destruct H. }
    destruct Hvalid as [Hvalid Hshort].
    destruct (Unmarshal_Marshal oid (explicitContent inner) Hvalid)
      as [data [decoded [Hm [Hu [Hoid _]]]]].
    + right. now exists inner.
    + cbn [explicitContent asn1.Bytes]. change (2 ^ 30) with 1073741824 in Hlen.
      change (2 ^ 31) with 2147483648. lia.
    + exists data. split; [exact Hm|].
      rewrite (Detect_strict _ _ _ Hu), Hoid, Hlabel. reflexivity.
Qed.

Lemma Detect_known_oid_witness :
  In (PKCS7SignedDataOID, "PKCS#7 Signed Data") knownOIDs
  /\ (exists data,
        minimalEnvelope PKCS7SignedDataOID = asn1.Ok data
        /\ Fallback.Detect data =
           Done (strictResult PKCS7SignedDataOID "PKCS#7 Signed Data", None)).
Proof.
  split.
  - simpl. tauto.
  - refine (proj1 (Detect_known_oid PKCS7SignedDataOID "PKCS#7 Signed Data" _)).
    simpl. tauto.
Defined.




(** C3. The encrypted PKCS#12 outcome is reached only through the fallback:
    whenever the strict parse succeeds, [Detect] returns without error a
    result whose [Type] is not "Encrypted PKCS#12" and whose [IsEncrypted]
    is false; when the parsed OID is the PKCS#12 OID, the [Type] is
    "PKCS#12". *)
Theorem encrypted_only_by_fallback (data : list byte) (ci : asn1.ContentInfo)
        (rest : list byte) :
  asn1.Unmarshal data = asn1.Ok (ci, rest) ->
  exists r,
    Fallback.Detect data = Done (r, None)
    /\ Fallback.Type_ r <> "Encrypted PKCS#12"
    /\ Fallback.IsEncrypted r = false
    /\ Fallback.ContentType r = asn1.ContentType ci
    /\ (asn1.ContentType ci = PKCS12OID -> Fallback.Type_ r = "PKCS#12").
Proof.
  intros Hu. eexists. split; [apply (Detect_strict _ _ _ Hu)|].
  cbn [strictResult Fallback.Type_ Fallback.IsEncrypted Fallback.ContentType].
  split; [apply GetOIDDescription_not_encrypted|].
  split; [reflexivity|]. split; [reflexivity|].
  intros ->. reflexivity.
Qed.

Lemma encrypted_only_by_fallback_witness :
  exists data ci rest,
    createTestData PKCS12OID = asn1.Ok data
    /\ asn1.Unmarshal data = asn1.Ok (ci, rest)
    /\ exists r,
         Fallback.Detect data = Done (r, None)
         /\ Fallback.Type_ r <> "Encrypted PKCS#12"
         /\ Fallback.IsEncrypted r = false
         /\ Fallback.ContentType r = asn1.ContentType ci
         /\ (asn1.ContentType ci = PKCS12OID -> Fallback.Type_ r = "PKCS#12").
Proof.
  eexists. eexists. eexists.
  split; [vm_compute; reflexivity|].
  assert (Hu : asn1.Unmarshal
                 [x30; x12; x06; x0a; x2a; x86; x48; x86; xf7; x0d; x01; x0c;
                  x0a; x01; xa0; x04; x04; x02; xde; xad]
               = asn1.Ok ({| asn1.ContentType := PKCS12OID;
                             asn1.Content :=
                               {| asn1.Class := 2; asn1.Tag := 0;
                                  asn1.IsCompound := true;
                                  asn1.Bytes := [x04; x02; xde; xad];
                                  asn1.FullBytes :=
                                    [xa0; x04; x04; x02; xde; xad] |} |}, []))
    by (vm_compute; reflexivity).
  split; [exact Hu|].
  exact (encrypted_only_by_fallback _ _ _ Hu).
Defined.

(** ** The heuristic fallback *)

(** C2, as the code has it.  For every buffer on which the strict parse
    fails, that starts with byte 0x30, holds the pattern 0x02 0x01 0x03 with
    at least one byte after it, holds the substring KEY, and is between 20
    and 100000 bytes long, [Detect] returns without error the result with
    [Type] "Encrypted PKCS#12", no [ContentType] and [IsEncrypted] true, and
    [IsPKCS12] returns true. *)
Theorem Detect_encrypted_pkcs12 (data : list byte) (e : asn1.error) :
  asn1.Unmarshal data = asn1.Err e ->
  StartsWithSequence data ->
  OccursBeforeEnd versionBytes data ->
  Occurs (bytes_of "KEY") data ->
  20 <= len data <= 100000 ->
  Fallback.Detect data = Done (encryptedResult, None)
  /\ Fallback.IsPKCS12 data = Done true.
Proof.
  intros Hu Hseq Hver Hkey [Hlo _].
  assert (Hv : encryptedVerdict data = true).
  { unfold encryptedVerdict.
    apply startsWithSequence_iff in Hseq. apply versionFound_iff in Hver.
    apply Contains_iff in Hkey. rewrite Hseq, Hver, Hkey.
    replace (20 <=? len data) with true by (symmetry; apply Z.leb_le; lia).
    cbn [andb]. now rewrite orb_true_r. }
  split.
  - rewrite (Detect_fallback _ _ Hu), Hv. reflexivity.
  - rewrite IsPKCS12_value, Hu, Hv. now rewrite orb_true_r.
Qed.

Lemma Detect_encrypted_pkcs12_witness :
  asn1.Unmarshal createMockPKCS12Key
    = asn1.Err (asn1.SyntaxError "data truncated")
  /\ Fallback.Detect createMockPKCS12Key = Done (encryptedResult, None)
  /\ Fallback.IsPKCS12 createMockPKCS12Key = Done true.
Proof.
  assert (Hu : asn1.Unmarshal createMockPKCS12Key
               = asn1.Err (asn1.SyntaxError "data truncated"))
    by (vm_compute; reflexivity).
  split; [exact Hu|].
  apply (Detect_encrypted_pkcs12 createMockPKCS12Key _ Hu).
  - eexists. vm_compute. reflexivity.
  - exists (firstn 4 createMockPKCS12Key), (skipn 7 createMockPKCS12Key).
    split; [vm_compute; reflexivity | vm_compute; discriminate].
  - exists (firstn 45 createMockPKCS12Key), []. vm_compute. reflexivity.
  - vm_compute. split; discriminate.
Defined.

(** A buffer with every property the claim C2 asks for that [Detect]
    classifies as PKCS#7 Data, because it parses. *)
Lemma parsed_buffer_not_encrypted :
  ~ (StartsWithSequence parsedWithMarkers ->
     Occurs versionBytes parsedWithMarkers ->
     Occurs (bytes_of "KEY") parsedWithMarkers ->
     20 <= len parsedWithMarkers <= 100000 ->
     exists r,
       Fallback.Detect parsedWithMarkers = Done (r, None)
       /\ Fallback.Type_ r = "Encrypted PKCS#12"
       /\ Fallback.IsEncrypted r = true
       /\ Fallback.IsPKCS12 parsedWithMarkers = Done true).
Proof.
  intros H. destruct H as [r [Hd [Ht _]]].
  - eexists. reflexivity.
  - exists (firstn 15 parsedWithMarkers), (skipn 18 parsedWithMarkers).
    vm_compute. reflexivity.
  - exists (firstn 18 parsedWithMarkers), (skipn 21 parsedWithMarkers).
    vm_compute. reflexivity.
  - vm_compute. split; discriminate.
  - vm_compute in Hd. injection Hd as <-. discriminate Ht.
Qed.

(** C6.  The version scan stops one window short: on a 20-byte buffer whose
    last three bytes are 0x02 0x01 0x03 the pattern occurs, the scan leaves
    [versionFound] false, and [isEncryptedPKCS12] and [Detect] reject the
    buffer although it starts with 0x30 and holds KEY. *)
Theorem version_scan_misses_last_window :
  Occurs versionBytes versionAtEnd
  /\ Contains versionAtEnd versionBytes = true
  /\ versionScan versionAtEnd = Done false
  /\ Fallback.isEncryptedPKCS12 versionAtEnd = Done false
  /\ Fallback.Detect versionAtEnd
     = Done (Fallback.zeroResult,
             Some (Errorf "failed to parse ASN.1 structure: "
                          (asn1.SyntaxError "data truncated")))
  /\ Strict.IsUserKeyPKCS12 versionAtEnd = Done false.
Proof.
  split.
  - exists (firstn 17 versionAtEnd), []. vm_compute. reflexivity.
  - repeat split; vm_compute; reflexivity.
Qed.

(** C7, as the code has it.  For every buffer that passes the structural
    gates (at least 20 bytes, leading 0x30, version pattern found by the
    scan) and holds none of the markers, [isEncryptedPKCS12] returns true
    exactly when the length is above 100 and below 100000, and the scanning
    [IsUserKeyPKCS12] returns true for every length up to 100000. *)
Theorem unmarked_buffer_size_rule (data : list byte) :
  20 <= len data ->
  StartsWithSequence data ->
  versionScan data = Done true ->
  hasKeyMarker data = false ->
  (100 < len data < 100000 -> Fallback.isEncryptedPKCS12 data = Done true)
  /\ (len data <= 100 \/ 100000 <= len data ->
      Fallback.isEncryptedPKCS12 data = Done false)
  /\ (len data <= 100000 -> Strict.IsUserKeyPKCS12 data = Done true).
Proof.
  intros Hlen Hseq Hscan Hmark.
  rewrite versionScan_spec in Hscan. injection Hscan as Hver.
  apply startsWithSequence_iff in Hseq.
  unfold hasKeyMarker in Hmark.
  apply orb_false_iff in Hmark; destruct Hmark as [Hmark _].
  apply orb_false_iff in Hmark; destruct Hmark as [Hmark _].
  apply orb_false_iff in Hmark; destruct Hmark as [Hmark _].
  apply orb_false_iff in Hmark; destruct Hmark as [Hmark Hpriv].
  apply orb_false_iff in Hmark; destruct Hmark as [Hsig Hkey].
  rewrite isEncryptedPKCS12_value, IsUserKeyPKCS12_value.
  unfold encryptedVerdict, userKeyPolicy.
  rewrite Hseq, Hver, Hsig, Hkey, Hpriv.
  replace (20 <=? len data) with true by (symmetry; apply Z.leb_le; lia).
  replace (8 <=? len data) with true by (symmetry; apply Z.leb_le; lia).
  cbn [andb orb]. repeat split.
  - intros [H1 H2].
    replace (100 <? len data) with true by (symmetry; apply Z.ltb_lt; lia).
    replace (len data <? 100000) with true by (symmetry; apply Z.ltb_lt; lia).
    reflexivity.
  - intros [H1|H1].
    + replace (100 <? len data) with false by (symmetry; apply Z.ltb_ge; lia).
      reflexivity.
    + replace (len data <? 100000) with false
        by (symmetry; apply Z.ltb_ge; lia).
      now rewrite andb_false_r.
  - intros H1.
    replace (len data <=? 100000) with true by (symmetry; apply Z.leb_le; lia).
    now rewrite orb_true_r.
Qed.

Lemma unmarked_buffer_size_rule_witness :
  Fallback.isEncryptedPKCS12 longUnmarked = Done true
  /\ Fallback.isEncryptedPKCS12 shortUnmarked = Done false
  /\ Strict.IsUserKeyPKCS12 shortUnmarked = Done true.
Proof.
  assert (H1 : forall d, d = longUnmarked \/ d = shortUnmarked ->
             20 <= len d /\ StartsWithSequence d
             /\ versionScan d = Done true /\ hasKeyMarker d = false).
  { intros d [-> | ->].
    - split; [vm_compute; discriminate|].
      split; [eexists; reflexivity|].
      split; vm_compute; reflexivity.
    - split; [vm_compute; discriminate|].
      split; [eexists; reflexivity|].
      split; vm_compute; reflexivity. }
  destruct (H1 longUnmarked (or_introl eq_refl)) as [La [Lb [Lc Ld]]].
  destruct (H1 shortUnmarked (or_intror eq_refl)) as [Sa [Sb [Sc Sd]]].
  destruct (unmarked_buffer_size_rule longUnmarked La Lb Lc Ld) as [HL _].
  destruct (unmarked_buffer_size_rule shortUnmarked Sa Sb Sc Sd)
    as [_ [HS1 HS2]].
  split; [apply HL; vm_compute; split; reflexivity|].
  split; [apply HS1; left; vm_compute; discriminate|].
  apply HS2. vm_compute. discriminate.
Defined.

(** A 20-byte buffer that passes the gates and holds no marker:
    [isEncryptedPKCS12] returns false on it, against C7 as stated. *)
Lemma short_unmarked_rejected :
  ~ (20 <= len shortUnmarked ->
     StartsWithSequence shortUnmarked ->
     versionScan shortUnmarked = Done true ->
     hasKeyMarker shortUnmarked = false ->
     20 <= len shortUnmarked <= 100000 ->
     Fallback.isEncryptedPKCS12 shortUnmarked = Done true).
Proof.
  intros H.
  assert (Hf : Fallback.isEncryptedPKCS12 shortUnmarked = Done false)
    by (vm_compute; reflexivity).
  rewrite H in Hf.
  - discriminate Hf.
  - vm_compute. discriminate.
  - eexists. reflexivity.
  - vm_compute. reflexivity.
  - vm_compute. reflexivity.
  - vm_compute. split; discriminate.
Qed.

(** ** The key-container predicates *)

(** C10.  The scanning [IsUserKeyPKCS12] returns, on every input and without
    panic, the value of: length at least 8, and first byte 0x30, and either
    the strict parse yields the PKCS#12 OID or the version pattern was found
    and the length is between 20 and 100000.  The GOST, PKCS#12 signature
    and KEY / PrivateKey checks do not appear in it. *)
Theorem scanning_user_key_policy (data : list byte) :
  Strict.IsUserKeyPKCS12 data =
  Done ((8 <=? len data) && startsWithSequence data
        && (strictPKCS12 data
            || (versionFound data
                && (20 <=? len data) && (len data <=? 100000)))).
Proof. exact (IsUserKeyPKCS12_value data). Qed.

(** The same policy read as a proposition. *)
Lemma scanning_user_key_true (data : list byte) :
  Strict.IsUserKeyPKCS12 data = Done true <->
  8 <= len data /\ StartsWithSequence data
  /\ ((exists ci rest, asn1.Unmarshal data = asn1.Ok (ci, rest)
                       /\ asn1.ContentType ci = PKCS12OID)
      \/ (OccursBeforeEnd versionBytes data /\ 20 <= len data <= 100000)).
Proof.
  rewrite IsUserKeyPKCS12_value. unfold userKeyPolicy.
  rewrite <- startsWithSequence_iff, <- versionFound_iff. split.
  - intros [= H]. apply andb_true_iff in H. destruct H as [H Hor].
    apply andb_true_iff in H. destruct H as [H8 Hs].
    apply Z.leb_le in H8. split; [assumption|]. split; [assumption|].
    apply orb_true_iff in Hor. destruct Hor as [Hp|Hh].
    + left. unfold strictPKCS12 in Hp.
      destruct (asn1.Unmarshal data) as [[ci rest]|e]; [|discriminate].
      exists ci, rest. split; [reflexivity | now apply oid_Equal_eq].
    + right. apply andb_true_iff in Hh. destruct Hh as [Hh Hhi].
      apply andb_true_iff in Hh. destruct Hh as [Hv Hlo].
      apply Z.leb_le in Hhi, Hlo. auto.
  - intros [H8 [Hs Hor]]. f_equal.
    apply Z.leb_le in H8. rewrite H8, Hs. cbn [andb].
    apply orb_true_iff. destruct Hor as [[ci [rest [Hu Hc]]]|[Hv [Hlo Hhi]]].
    + left. unfold strictPKCS12. rewrite Hu. now apply oid_Equal_eq.
    + right. apply Z.leb_le in Hlo, Hhi. now rewrite Hv, Hlo, Hhi.
Qed.

(** The scanning predicate does not depend on which [Detect] it calls: the
    test [err == nil && result.ContentType.Equal(PKCS12OID)] has the same
    value on the detector with the fallback. *)
Lemma strict_test_with_fallback (data : list byte) :
  (r <- Fallback.Detect data ;;
   let (result, err) := r in
   Done (match err with None => true | Some _ => false end
         && asn1.Equal (Fallback.ContentType result) PKCS12OID))
  = Done (strictPKCS12 data).
Proof.
  unfold strictPKCS12.
  destruct (asn1.Unmarshal data) as [[ci rest]|e] eqn:Hu.
  - rewrite (Detect_strict _ _ _ Hu). reflexivity.
  - rewrite (Detect_fallback _ _ Hu).
    destruct (encryptedVerdict data); reflexivity.
Qed.

(** The scanning [IsUserKeyPKCS12] is a different predicate: it answers
    true on a short buffer without markers, where [IsPKCS12] answers false,
    and false on an oversized buffer with the marker KEY, where [IsPKCS12]
    answers true. *)
Lemma scanning_user_key_differs :
  Strict.IsUserKeyPKCS12 shortUnmarked = Done true
  /\ Fallback.IsPKCS12 shortUnmarked = Done false
  /\ Strict.IsUserKeyPKCS12 oversizedKey = Done false
  /\ Fallback.IsPKCS12 oversizedKey = Done true.
Proof.
  split; [vm_compute; reflexivity|].
  split; [vm_compute; reflexivity|].
  split; vm_compute; reflexivity.
Qed.

(** C8, as the code has it.  For every buffer on which the scanning
    [IsUserKeyPKCS12] is true: if the buffer holds one of the spellings
    GOST, its Cyrillic form, Kalkan, kalkan, KALKAN or the Cyrillic form of
    Kalkan, then [IsNCAKeyPKCS12] is true; if it holds none of them and not
    the fixed signature 06 09 2A 86 48 86 F7 0D 01 01, then
    [IsNCAKeyPKCS12] is false. *)
Theorem nca_key_markers (data : list byte) :
  Strict.IsUserKeyPKCS12 data = Done true ->
  (hasVendorMarker data = true -> Strict.IsNCAKeyPKCS12 data = Done true)
  /\ (hasVendorMarker data = false ->
      Contains data Strict.kazakhstanSignature = false ->
      Strict.IsNCAKeyPKCS12 data = Done false).
Proof.
  rewrite IsUserKeyPKCS12_value, IsNCAKeyPKCS12_value. intros [= ->].
  split.
  - intros ->. reflexivity.
  - intros -> ->. reflexivity.
Qed.

Lemma nca_key_markers_witness :
  Strict.IsUserKeyPKCS12 mockNCAP12 = Done true
  /\ Strict.IsNCAKeyPKCS12 mockNCAP12 = Done true
  /\ Strict.IsUserKeyPKCS12 genericP12 = Done true
  /\ Strict.IsNCAKeyPKCS12 genericP12 = Done false.
Proof.
  assert (Hn : Strict.IsUserKeyPKCS12 mockNCAP12 = Done true)
    by (vm_compute; reflexivity).
  assert (Hg : Strict.IsUserKeyPKCS12 genericP12 = Done true)
    by (vm_compute; reflexivity).
  split; [exact Hn|].
  split; [apply (proj1 (nca_key_markers mockNCAP12 Hn)); vm_compute;
          reflexivity|].
  split; [exact Hg|].
  apply (proj2 (nca_key_markers genericP12 Hg)); vm_compute; reflexivity.
Defined.

(** A buffer that passes the general check and holds the word gost in lower
    case: [IsNCAKeyPKCS12] returns false on it, against C8 as stated. *)
Lemma lowercase_gost_not_nca :
  ~ (Strict.IsUserKeyPKCS12 lowercaseGost = Done true ->
     ContainsAnyCase lowercaseGost "GOST" = true
     \/ ContainsAnyCase lowercaseGost "Kalkan" = true ->
     Strict.IsNCAKeyPKCS12 lowercaseGost = Done true).
Proof.
  intros H.
  assert (Hf : Strict.IsNCAKeyPKCS12 lowercaseGost = Done false)
    by (vm_compute; reflexivity).
  rewrite H in Hf.
  - discriminate Hf.
  - vm_compute. reflexivity.
  - left. vm_compute. reflexivity.
Qed.

(** ** Malformed input *)

Lemma Unmarshal_rejects (data : list byte) :
  len data < 3 \/ ~ StartsWithSequence data ->
  exists e, asn1.Unmarshal data = asn1.Err e.
Proof.
  intros H. destruct (asn1.Unmarshal data) as [[ci rest]|e] eqn:Hu.
  - apply Unmarshal_Ok_inv in Hu. destruct Hu as [Hs Hl].
    destruct H as [H|H]; [lia | contradiction].
  - now exists e.
Qed.

Lemma gates_closed (data : list byte) :
  len data < 3 \/ ~ StartsWithSequence data ->
  encryptedVerdict data = false /\ userKeyPolicy data = false.
Proof.
  intros H. unfold encryptedVerdict, userKeyPolicy.
  destruct H as [H|H].
  - replace (20 <=? len data) with false by (symmetry; apply Z.leb_gt; lia).
    replace (8 <=? len data) with false by (symmetry; apply Z.leb_gt; lia).
    split; reflexivity.
  - rewrite <- startsWithSequence_iff in H.
    apply not_true_is_false in H. rewrite H.
    rewrite !andb_false_r. split; reflexivity.
Qed.

Lemma allPredicates_total (data : list byte) :
  Forall (fun p => exists b : bool, p = Done b) (allPredicates data).
Proof.
  unfold allPredicates.
  destruct (Detect_total data) as [[r err] Hd].
  repeat apply Forall_cons; try apply Forall_nil;
    try (unfold Fallback.IsPKCS7Data, Fallback.IsPKCS7SignedData,
           Fallback.IsPKCS7EnvelopedData, Fallback.IsPKCS12,
           Fallback.IsUserKeyPKCS12;
         rewrite Hd; cbn [bind]; destruct err; eexists; reflexivity).
  - rewrite IsUserKeyPKCS12_value. eexists; reflexivity.
  - rewrite IsNCAKeyPKCS12_value. eexists; reflexivity.
  - eexists; reflexivity.
  - eexists; reflexivity.
  - eexists; reflexivity.
  - eexists; reflexivity.
Qed.

(** C4.  [Detect] and every boolean predicate return on every input (no
    run-time panic, down to the empty buffer).  On an input of fewer than
    three bytes, or one that does not start with the SEQUENCE tag 0x30,
    [Detect] returns an error of the strict reader (the fallback does not
    rescue it) and every boolean predicate returns false. *)
Theorem malformed_input_rejected :
  (forall data,
      (exists r, Fallback.Detect data = Done r)
      /\ Forall (fun p => exists b : bool, p = Done b) (allPredicates data))
  /\ (forall data,
      len data < 3 \/ ~ StartsWithSequence data ->
      (exists e, asn1.Unmarshal data = asn1.Err e
                 /\ isInternal e = false
                 /\ Fallback.Detect data =
                    Done (Fallback.zeroResult,
                          Some (Errorf "failed to parse ASN.1 structure: " e))
                 /\ Strict.Detect data =
                    (Strict.zeroResult,
                     Some (Errorf "failed to parse ASN.1 structure: " e)))
      /\ Forall (fun p => p = Done false) (allPredicates data)).
Proof.
  split.
  - intros data. split; [apply Detect_total | apply allPredicates_total].
  - intros data H.
    destruct (Unmarshal_rejects data H) as [e Hu].
    destruct (gates_closed data H) as [Hv Hp].
    assert (Hd : Fallback.Detect data =
                 Done (Fallback.zeroResult,
                       Some (Errorf "failed to parse ASN.1 structure: " e))).
    { rewrite (Detect_fallback _ _ Hu), Hv. reflexivity. }
    assert (Hs : Strict.Detect data =
                 (Strict.zeroResult,
                  Some (Errorf "failed to parse ASN.1 structure: " e))).
    { apply (Strict_Detect_error _ _ Hu). }
    assert (Hk : isInternal e = false).
    { pose proof (Unmarshal_no_internal data) as Hn. now rewrite Hu in Hn. }
    split; [exists e; auto|].
    unfold allPredicates.
    repeat apply Forall_cons; try apply Forall_nil;
      try (unfold Fallback.IsPKCS7Data, Fallback.IsPKCS7SignedData,
             Fallback.IsPKCS7EnvelopedData, Fallback.IsPKCS12,
             Fallback.IsUserKeyPKCS12;
           rewrite Hd; reflexivity);
      try (unfold Strict.IsPKCS7Data, Strict.IsPKCS7SignedData,
             Strict.IsPKCS7EnvelopedData, Strict.IsPKCS12;
           rewrite Hs; reflexivity).
    + rewrite IsUserKeyPKCS12_value, Hp. reflexivity.
    + rewrite IsNCAKeyPKCS12_value, Hp. reflexivity.
Qed.

Lemma malformed_input_rejected_witness :
  (len [x01; x02; x03] < 3 \/ ~ StartsWithSequence [x01; x02; x03])
  /\ Forall (fun p => p = Done false) (allPredicates [x01; x02; x03])
  /\ Forall (fun p => p = Done false) (allPredicates []).
Proof.
  assert (H1 : len [x01; x02; x03] < 3 \/ ~ StartsWithSequence [x01; x02; x03]).
  { right. intros [rest H]. discriminate H. }
  assert (H0 : len (@nil byte) < 3 \/ ~ StartsWithSequence []).
  { left. reflexivity. }
  split; [exact H1|].
  split.
  - exact (proj2 (proj2 malformed_input_rejected _ H1)).
  - exact (proj2 (proj2 malformed_input_rejected _ H0)).
Defined.

(* ================================================================= *)
(** * Further properties of the strict reader *)

Section ReaderBounds.

Lemma at_offset_lt (bytes : list byte) (offset : Z) (b : byte) :
  asn1.at_offset bytes offset = Some b -> 0 <= offset < len bytes.
Proof.
  unfold asn1.at_offset. destruct (Z.ltb_spec offset 0) as [Hneg|Hpos];
    [discriminate|].
  intros Hb. assert (Hn : nth_error bytes (Z.to_nat offset) <> None)
    by (rewrite Hb; discriminate).
  apply nth_error_Some in Hn. unfold len. lia.
Qed.

Lemma base128Loop_offset_le (bytes : list byte) (rem : nat) :
  forall offset ret64 v offset',
    asn1.base128Loop bytes offset ret64 rem = asn1.Ok (v, offset') ->
    offset' <= len bytes.
Proof.
  induction rem as [|rem IH]; intros offset ret64 v offset';
    cbn [asn1.base128Loop].
  - destruct (asn1.at_offset bytes offset); discriminate.
  - destruct (asn1.at_offset bytes offset) as [b|] eqn:Hb; [|discriminate].
    apply at_offset_lt in Hb.
    destruct (_ && _); [discriminate|].
    destruct (Z.land (byteval b) 128 =? 0).
    + destruct (asn1.MaxInt32 <? _); [discriminate|].
      intros [= _ <-]. lia.
    + apply IH.
Qed.

(** The arc loop only appends arcs, at most one for each byte left. *)
Lemma oidLoop_length (bytes : list byte) (fuel : nat) :
  forall offset s oid,
    offset <= len bytes ->
    asn1.oidLoop bytes offset s fuel = asn1.Ok oid ->
    len s <= len oid <= len s + (len bytes - offset).
Proof.
  induction fuel as [|fuel IH]; intros offset s oid Hoff; cbn [asn1.oidLoop].
  - destruct (offset <? len bytes); [discriminate|].
    intros [= <-]. lia.
  - destruct (Z.ltb_spec offset (len bytes)) as [Hlt|Hge].
    + destruct (asn1.parseBase128Int bytes offset) as [[v off']|e] eqn:Hp;
        [|discriminate].
      unfold asn1.parseBase128Int in Hp.
      pose proof (base128Loop_offset _ _ _ _ _ _ Hp) as H1.
      pose proof (base128Loop_offset_le _ _ _ _ _ _ Hp) as H2.
      intros H. apply IH in H; [|assumption].
      rewrite len_app in H. change (len [v]) with 1 in H. lia.
    + intros [= <-]. lia.
Qed.

(** [parseObjectIdentifier] yields at least two arcs, and never more than
    [len(bytes)+1], the size of the slice the Go code allocates for them. *)
Lemma parseObjectIdentifier_length (bytes : list byte)
      (oid : asn1.ObjectIdentifier) :
  asn1.parseObjectIdentifier bytes = asn1.Ok oid ->
  2 <= len oid <= len bytes + 1.
Proof.
  unfold asn1.parseObjectIdentifier.
  destruct (len bytes =? 0); [discriminate|].
  destruct (asn1.parseBase128Int bytes 0) as [[v off]|e] eqn:Hp;
    [|discriminate].
  unfold asn1.parseBase128Int in Hp.
  pose proof (base128Loop_offset _ _ _ _ _ _ Hp) as H1.
  pose proof (base128Loop_offset_le _ _ _ _ _ _ Hp) as H2.
  intros H. apply oidLoop_length in H; [|assumption].
  assert (Hs : len (if v <? 80 then [v / 40; v mod 40] else [2; v - 80]) = 2)
    by (destruct (v <? 80); reflexivity).
  rewrite Hs in H. lia.
Qed.

(** A buffer the strict reader accepts holds two header pairs and the arcs
    of its OID: an OID of [n] arcs needs at least [n + 3] bytes. *)
Lemma Unmarshal_Ok_size (data : list byte) (ci : asn1.ContentInfo)
      (rest : list byte) :
  asn1.Unmarshal data = asn1.Ok (ci, rest) ->
  2 <= len (asn1.ContentType ci)
  /\ len (asn1.ContentType ci) + 3 <= len data.
Proof.
  unfold asn1.Unmarshal, asn1.parseField_ContentInfo.
  destruct (0 =? len data); [discriminate|].
  destruct (asn1.parseTagAndLength data 0) as [[t offset]|e] eqn:Ht;
    [|discriminate].
  apply parseTagAndLength_inv in Ht.
  destruct Ht as [b [_ [_ [_ [_ Hoff]]]]].
  destruct (_ || _); [discriminate|].
  destruct (asn1.invalidLength offset (asn1.length t) (len data)) eqn:Hinv;
    [discriminate|].
  unfold asn1.invalidLength in Hinv. apply orb_false_iff in Hinv.
  destruct Hinv as [Hi1 Hi2]. apply Z.ltb_ge in Hi1, Hi2.
  set (inner := asn1.sub data offset (offset + asn1.length t)).
  assert (Hinner : len inner = asn1.length t)
    by (subst inner; rewrite len_sub; lia).
  unfold asn1.parseField_ContentType.
  destruct (0 =? len inner); [discriminate|].
  destruct (asn1.parseTagAndLength inner 0) as [[t1 off1]|e] eqn:Ht1;
    [|discriminate].
  apply parseTagAndLength_inv in Ht1.
  destruct Ht1 as [b1 [_ [_ [_ [_ Hoff1]]]]].
  destruct (_ || _); [discriminate|].
  destruct (asn1.invalidLength off1 (asn1.length t1) (len inner)) eqn:Hinv1;
    [discriminate|].
  unfold asn1.invalidLength in Hinv1. apply orb_false_iff in Hinv1.
  destruct Hinv1 as [Hj1 Hj2]. apply Z.ltb_ge in Hj1, Hj2.
  destruct (asn1.parseObjectIdentifier _) as [oid|e] eqn:Ho; [|discriminate].
  apply parseObjectIdentifier_length in Ho.
  rewrite len_sub in Ho by lia.
  destruct (asn1.parseField_Content inner (off1 + asn1.length t1))
    as [[raw off2]|e]; [|discriminate].
  intros [= <- _]. cbn [asn1.ContentType]. lia.
Qed.

End ReaderBounds.

Section TrailingBytes.

Lemma at_offset_extend (bytes extra : list byte) (offset : Z) (b : byte) :
  asn1.at_offset bytes offset = Some b ->
  asn1.at_offset (bytes ++ extra) offset = Some b.
Proof.
  intros H. pose proof (at_offset_lt _ _ _ H) as Hlt.
  unfold asn1.at_offset in *. destruct (offset <? 0); [discriminate|].
  rewrite nth_error_app1 by (unfold len in Hlt; lia). exact H.
Qed.

Lemma base128Loop_extend (bytes extra : list byte) (rem : nat) :
  forall offset ret64 r,
    asn1.base128Loop bytes offset ret64 rem = asn1.Ok r ->
    asn1.base128Loop (bytes ++ extra) offset ret64 rem = asn1.Ok r.
Proof.
  induction rem as [|rem IH]; intros offset ret64 r; cbn [asn1.base128Loop].
  - destruct (asn1.at_offset bytes offset); discriminate.
  - destruct (asn1.at_offset bytes offset) as [b|] eqn:Hb; [|discriminate].
    rewrite (at_offset_extend _ extra _ _ Hb).
    destruct (_ && _); [discriminate|].
    destruct (Z.land (byteval b) 128 =? 0); [trivial | apply IH].
Qed.

Lemma lengthLoop_extend (bytes extra : list byte) (n : nat) :
  forall offset length r,
    asn1.lengthLoop bytes offset length n = asn1.Ok r ->
    asn1.lengthLoop (bytes ++ extra) offset length n = asn1.Ok r.
Proof.
  induction n as [|n IH]; intros offset length r; cbn [asn1.lengthLoop].
  - trivial.
  - destruct (asn1.at_offset bytes offset) as [b|] eqn:Hb; [|discriminate].
    rewrite (at_offset_extend _ extra _ _ Hb).
    destruct (8388608 <=? length); [discriminate|].
    destruct (_ =? 0); [discriminate | apply IH].
Qed.

(** The length octets, read from a buffer and from its extension. *)
Ltac read_length_extended extra :=
  match goal with
  | |- match asn1.at_offset ?bytes ?off with _ => _ end = _ -> _ =>
    let b0 := fresh "b" in
    let Hb0 := fresh "Hb" in
    let Hl := fresh "Hl" in
    destruct (asn1.at_offset bytes off) as [b0|] eqn:Hb0; [|discriminate];
    rewrite (at_offset_extend _ extra _ _ Hb0);
    destruct (Z.land (byteval b0) 128 =? 0); [trivial|];
    destruct (Z.land (byteval b0) 127 =? 0); [discriminate|];
    destruct (asn1.lengthLoop bytes (off + 1) 0
                (Z.to_nat (Z.land (byteval b0) 127))) as [[? ?]|?] eqn:Hl;
      [|discriminate];
    rewrite (lengthLoop_extend _ extra _ _ _ _ Hl); trivial
  end.

Lemma parseTagAndLength_extend (bytes extra : list byte) (initOffset : Z)
      (r : asn1.tagAndLength * Z) :
  asn1.parseTagAndLength bytes initOffset = asn1.Ok r ->
  asn1.parseTagAndLength (bytes ++ extra) initOffset = asn1.Ok r.
Proof.
  unfold asn1.parseTagAndLength.
  destruct (asn1.at_offset bytes initOffset) as [b|] eqn:Hb; [|discriminate].
  rewrite (at_offset_extend _ extra _ _ Hb).
  destruct (Z.land (byteval b) 31 =? 31).
  - unfold asn1.parseBase128Int.
    destruct (asn1.base128Loop bytes (initOffset + 1) 0 5)
      as [[t off]|e] eqn:Hp; [|discriminate].
    rewrite (base128Loop_extend _ extra _ _ _ _ Hp).
    destruct (t <? 31); [discriminate|].
    read_length_extended extra.
  - read_length_extended extra.
Qed.

Lemma sub_extend (bytes extra : list byte) (lo hi : Z) :
  0 <= lo -> lo <= hi -> hi <= len bytes ->
  asn1.sub (bytes ++ extra) lo hi = asn1.sub bytes lo hi.
Proof.
  intros H0 H1 H2. unfold asn1.sub, len in *.
  rewrite skipn_app, firstn_app, length_skipn.
  replace (Z.to_nat (hi - lo) - (List.length bytes - Z.to_nat lo))%nat
    with 0%nat by lia.
  cbn [firstn]. apply app_nil_r.
Qed.

(** The strict reader does not look past the outer SEQUENCE: bytes added
    after an accepted buffer come back as the rest, and the decoded value is
    the same. *)
Lemma Unmarshal_extend (data extra : list byte) (ci : asn1.ContentInfo)
      (rest : list byte) :
  asn1.Unmarshal data = asn1.Ok (ci, rest) ->
  asn1.Unmarshal (data ++ extra) = asn1.Ok (ci, rest ++ extra).
Proof.
  unfold asn1.Unmarshal, asn1.parseField_ContentInfo.
  destruct (Z.eqb_spec 0 (len data)) as [E|E]; [discriminate|].
  pose proof (len_nonneg data) as Hd. pose proof (len_nonneg extra) as He.
  replace (0 =? len (data ++ extra)) with false
    by (symmetry; apply Z.eqb_neq; rewrite len_app; lia).
  destruct (asn1.parseTagAndLength data 0) as [[t offset]|e] eqn:Ht;
    [|discriminate].
  rewrite (parseTagAndLength_extend _ extra _ _ Ht).
  apply parseTagAndLength_inv in Ht.
  destruct Ht as [b [_ [_ [_ [_ Hoff]]]]].
  destruct (_ || _); [discriminate|].
  destruct (asn1.invalidLength offset (asn1.length t) (len data)) eqn:Hinv;
    [discriminate|].
  unfold asn1.invalidLength in *. apply orb_false_iff in Hinv.
  destruct Hinv as [Hi1 Hi2]. rewrite Hi1. apply Z.ltb_ge in Hi1, Hi2.
  replace (len (data ++ extra) <? offset + asn1.length t) with false
    by (symmetry; apply Z.ltb_ge; rewrite len_app; lia).
  cbn [orb]. rewrite sub_extend by lia.
  destruct (asn1.parseField_ContentType _ 0) as [[oid innerOffset]|e];
    [|discriminate].
  destruct (asn1.parseField_Content _ innerOffset) as [[raw off2]|e];
    [|discriminate].
  intros [= <- <-]. f_equal. f_equal.
  rewrite skipn_app. f_equal.
  replace (Z.to_nat (offset + asn1.length t) - List.length data)%nat
    with 0%nat by (unfold len in *; lia).
  reflexivity.
Qed.

End TrailingBytes.

(* ================================================================= *)
(** * Further properties of the detector *)

Section PredicateValues.

Lemma strictPKCS12_parsesAs (data : list byte) :
  strictPKCS12 data = parsesAs data PKCS12OID.
Proof. reflexivity. Qed.

Lemma Fallback_IsPKCS7Data_value (data : list byte) :
  Fallback.IsPKCS7Data data = Done (parsesAs data PKCS7DataOID).
Proof.
  unfold Fallback.IsPKCS7Data, parsesAs.
  destruct (asn1.Unmarshal data) as [[ci rest]|e] eqn:Hu.
  - rewrite (Detect_strict _ _ _ Hu). reflexivity.
  - rewrite (Detect_fallback _ _ Hu).
    destruct (encryptedVerdict data); reflexivity.
Qed.

Lemma Fallback_IsPKCS7SignedData_value (data : list byte) :
  Fallback.IsPKCS7SignedData data = Done (parsesAs data PKCS7SignedDataOID).
Proof.
  unfold Fallback.IsPKCS7SignedData, parsesAs.
  destruct (asn1.Unmarshal data) as [[ci rest]|e] eqn:Hu.
  - rewrite (Detect_strict _ _ _ Hu). reflexivity.
  - rewrite (Detect_fallback _ _ Hu).
    destruct (encryptedVerdict data); reflexivity.
Qed.

Lemma Fallback_IsPKCS7EnvelopedData_value (data : list byte) :
  Fallback.IsPKCS7EnvelopedData data
  = Done (parsesAs data PKCS7EnvelopedDataOID).
Proof.
  unfold Fallback.IsPKCS7EnvelopedData, parsesAs.
  destruct (asn1.Unmarshal data) as [[ci rest]|e] eqn:Hu.
  - rewrite (Detect_strict _ _ _ Hu). reflexivity.
  - rewrite (Detect_fallback _ _ Hu).
    destruct (encryptedVerdict data); reflexivity.
Qed.

Lemma Strict_predicates_value (data : list byte) :
  Strict.IsPKCS7Data data = parsesAs data PKCS7DataOID
  /\ Strict.IsPKCS7SignedData data = parsesAs data PKCS7SignedDataOID
  /\ Strict.IsPKCS7EnvelopedData data = parsesAs data PKCS7EnvelopedDataOID
  /\ Strict.IsPKCS12 data = parsesAs data PKCS12OID.
Proof.
  unfold Strict.IsPKCS7Data, Strict.IsPKCS7SignedData,
    Strict.IsPKCS7EnvelopedData, Strict.IsPKCS12, Strict.Detect, parsesAs.
  destruct (asn1.Unmarshal data) as [[ci rest]|e]; repeat split; reflexivity.
Qed.

(** Two different OID constants are never both equal to the parsed OID. *)
Lemma parsesAs_exclusive (data : list byte) (a b : asn1.ObjectIdentifier) :
  a <> b -> parsesAs data a = true -> parsesAs data b = false.
Proof.
  unfold parsesAs. intros Hab.
  destruct (asn1.Unmarshal data) as [[ci rest]|e]; [|reflexivity].
  intros Ha. apply oid_Equal_eq in Ha.
  destruct (asn1.Equal (asn1.ContentType ci) b) eqn:Hb; [|reflexivity].
  apply oid_Equal_eq in Hb. congruence.
Qed.

End PredicateValues.

(** X1. On every buffer at most one of [IsPKCS7Data], [IsPKCS7SignedData],
    [IsPKCS7EnvelopedData] and [IsPKCS12] answers true. *)
Theorem predicates_exclusive (data : list byte) :
  (countTrue [ Fallback.IsPKCS7Data data; Fallback.IsPKCS7SignedData data;
               Fallback.IsPKCS7EnvelopedData data; Fallback.IsPKCS12 data ]
   <= 1)%nat.
Proof.
  rewrite Fallback_IsPKCS7Data_value, Fallback_IsPKCS7SignedData_value,
    Fallback_IsPKCS7EnvelopedData_value, IsPKCS12_value, strictPKCS12_parsesAs.
  destruct (asn1.Unmarshal data) as [[ci rest]|e] eqn:Hu.
  - rewrite orb_false_r.
    assert (Hex : forall a b, a <> b ->
                    parsesAs data a = true -> parsesAs data b = false)
      by (intros a b; apply parsesAs_exclusive).
    assert (D12 : PKCS7DataOID <> PKCS7SignedDataOID) by discriminate.
    assert (D13 : PKCS7DataOID <> PKCS7EnvelopedDataOID) by discriminate.
    assert (D14 : PKCS7DataOID <> PKCS12OID) by discriminate.
    assert (D23 : PKCS7SignedDataOID <> PKCS7EnvelopedDataOID) by discriminate.
    assert (D24 : PKCS7SignedDataOID <> PKCS12OID) by discriminate.
    assert (D34 : PKCS7EnvelopedDataOID <> PKCS12OID) by discriminate.
    destruct (parsesAs data PKCS7DataOID) eqn:E1;
      [rewrite (Hex _ _ D12 E1), (Hex _ _ D13 E1), (Hex _ _ D14 E1);
       cbn; lia|].
    destruct (parsesAs data PKCS7SignedDataOID) eqn:E2;
      [rewrite (Hex _ _ D23 E2), (Hex _ _ D24 E2); cbn; lia|].
    destruct (parsesAs data PKCS7EnvelopedDataOID) eqn:E3;
      [rewrite (Hex _ _ D34 E3); cbn; lia|].
    destruct (parsesAs data PKCS12OID); cbn; lia.
  - unfold parsesAs. rewrite Hu. cbn [orb].
    destruct (encryptedVerdict data); cbn; lia.
Qed.

(** X2. The fallback leaves the PKCS#7 predicates as they were: on every
    buffer each of them answers what the predicate of the strict detector
    answers, and [IsPKCS12] still answers true wherever the strict
    [IsPKCS12] did. *)
Theorem fallback_keeps_predicates (data : list byte) :
  Fallback.IsPKCS7Data data = Done (Strict.IsPKCS7Data data)
  /\ Fallback.IsPKCS7SignedData data = Done (Strict.IsPKCS7SignedData data)
  /\ Fallback.IsPKCS7EnvelopedData data
     = Done (Strict.IsPKCS7EnvelopedData data)
  /\ (Strict.IsPKCS12 data = true -> Fallback.IsPKCS12 data = Done true).
Proof.
  destruct (Strict_predicates_value data) as [H1 [H2 [H3 H4]]].
  rewrite H1, H2, H3, H4.
  rewrite Fallback_IsPKCS7Data_value, Fallback_IsPKCS7SignedData_value,
    Fallback_IsPKCS7EnvelopedData_value, IsPKCS12_value, strictPKCS12_parsesAs.
  repeat split. intros ->. reflexivity.
Qed.

Lemma fallback_keeps_predicates_witness :
  exists data,
    createTestData PKCS12OID = asn1.Ok data
    /\ Strict.IsPKCS12 data = true
    /\ Fallback.IsPKCS12 data = Done true.
Proof.
  eexists. split; [vm_compute; reflexivity|].
  assert (H : Strict.IsPKCS12
                [x30; x12; x06; x0a; x2a; x86; x48; x86; xf7; x0d; x01; x0c;
                 x0a; x01; xa0; x04; x04; x02; xde; xad] = true)
    by (vm_compute; reflexivity).
  split; [exact H|].
  exact (proj2 (proj2 (proj2 (fallback_keeps_predicates _))) H).
Defined.

(** X3. The detector with the fallback extends the strict detector: what
    the strict [Detect] detects, [Detect] with the fallback detects with the
    same [Type] and [ContentType] and [IsEncrypted] false; and when [Detect]
    with the fallback returns an error, the strict [Detect] returns the same
    error. *)
Theorem fallback_extends_strict (data : list byte) :
  (forall r, Strict.Detect data = (r, None) ->
             Fallback.Detect data = Done (withoutEncryption r, None))
  /\ (forall r err, Fallback.Detect data = Done (r, Some err) ->
                    Strict.Detect data = (Strict.zeroResult, Some err)).
Proof.
  destruct (asn1.Unmarshal data) as [[ci rest]|e] eqn:Hu.
  - rewrite (Detect_strict _ _ _ Hu), (Strict_Detect_strict _ _ _ Hu).
    split.
    + intros r [= <-]. reflexivity.
    + intros r err [= _ H]. 
  - rewrite (Detect_fallback _ _ Hu), (Strict_Detect_error _ _ Hu).
    split.
    + intros r [= _ H].
    + intros r err. destruct (encryptedVerdict data).
      * intros [= _ H].
      * intros [= _ <-]. reflexivity.
Qed.

Lemma fallback_extends_strict_witness :
  Fallback.Detect parsedWithMarkers
  = Done (withoutEncryption
            {| Strict.Type_ := "PKCS#7 Data";
               Strict.ContentType := PKCS7DataOID |}, None)
  /\ Strict.Detect [x01; x02; x03]
     = (Strict.zeroResult,
        Some (Errorf "failed to parse ASN.1 structure: "
                     (asn1.StructuralError "tags don't match"))).
Proof.
  split.
  - apply (proj1 (fallback_extends_strict parsedWithMarkers)).
    vm_compute. reflexivity.
  - apply (proj2 (fallback_extends_strict [x01; x02; x03])
             Fallback.zeroResult).
    vm_compute. reflexivity.
Defined.

(** X4. Whenever [Detect] succeeds, the result is of one of two shapes:
    either [IsEncrypted] is false, [ContentType] holds at least two arcs and
    [Type] is [GetOIDDescription] of it; or it is the encrypted PKCS#12
    result, with no [ContentType].  So [ContentType] is empty exactly on the
    heuristic path. *)
Theorem Detect_result_shape (data : list byte) (r : Fallback.DetectionResult) :
  Fallback.Detect data = Done (r, None) ->
  (Fallback.IsEncrypted r = false
   /\ 2 <= len (Fallback.ContentType r)
   /\ Fallback.Type_ r = GetOIDDescription (Fallback.ContentType r))
  \/ r = encryptedResult.
Proof.
  destruct (asn1.Unmarshal data) as [[ci rest]|e] eqn:Hu.
  - rewrite (Detect_strict _ _ _ Hu). intros [= <-]. left.
    cbn [strictResult Fallback.IsEncrypted Fallback.ContentType Fallback.Type_].
    destruct (Unmarshal_Ok_size _ _ _ Hu) as [H2 _]. auto.
  - rewrite (Detect_fallback _ _ Hu).
    destruct (encryptedVerdict data); [|discriminate].
    intros [= <-]. now right.
Qed.

Lemma Detect_result_shape_witness :
  Fallback.Detect parsedWithMarkers
  = Done (strictResult PKCS7DataOID "PKCS#7 Data", None)
  /\ ((Fallback.IsEncrypted (strictResult PKCS7DataOID "PKCS#7 Data") = false
       /\ 2 <= len (Fallback.ContentType
                      (strictResult PKCS7DataOID "PKCS#7 Data"))
       /\ Fallback.Type_ (strictResult PKCS7DataOID "PKCS#7 Data")
          = GetOIDDescription
              (Fallback.ContentType (strictResult PKCS7DataOID "PKCS#7 Data")))
      \/ strictResult PKCS7DataOID "PKCS#7 Data" = encryptedResult).
Proof.
  assert (Hd : Fallback.Detect parsedWithMarkers
               = Done (strictResult PKCS7DataOID "PKCS#7 Data", None))
    by (vm_compute; reflexivity).
  split; [exact Hd|].
  exact (Detect_result_shape parsedWithMarkers _ Hd).
Defined.

(** X5. Whenever [Detect] returns an error, the result beside it is the zero
    value, the error wraps the error of [asn1.Unmarshal] under the message
    "failed to parse ASN.1 structure: ", and [isEncryptedPKCS12] has
    answered false. *)
Theorem Detect_error_shape (data : list byte) (r : Fallback.DetectionResult)
        (err : error) :
  Fallback.Detect data = Done (r, Some err) ->
  r = Fallback.zeroResult
  /\ (exists e, asn1.Unmarshal data = asn1.Err e
                /\ err = Errorf "failed to parse ASN.1 structure: " e)
  /\ Fallback.isEncryptedPKCS12 data = Done false.
Proof.
  destruct (asn1.Unmarshal data) as [[ci rest]|e] eqn:Hu.
  - rewrite (Detect_strict _ _ _ Hu). discriminate.
  - rewrite (Detect_fallback _ _ Hu), isEncryptedPKCS12_value.
    destruct (encryptedVerdict data); [discriminate|].
    intros [= <- <-]. split; [reflexivity|]. split; [|reflexivity].
    now exists e.
Qed.

Lemma Detect_error_shape_witness :
  exists e,
    asn1.Unmarshal versionAtEnd = asn1.Err e
    /\ Fallback.isEncryptedPKCS12 versionAtEnd = Done false.
Proof.
  destruct (Detect_error_shape versionAtEnd Fallback.zeroResult
              (Errorf "failed to parse ASN.1 structure: "
                      (asn1.SyntaxError "data truncated")))
    as [_ [[e [He _]] Hf]].
  - vm_compute. reflexivity.
  - exists e. split; assumption.
Defined.

(** When [Detect] reports the encrypted PKCS#12 result. *)
Lemma Detect_encrypted_iff (data : list byte) :
  Fallback.Detect data = Done (encryptedResult, None) <->
  (exists e, asn1.Unmarshal data = asn1.Err e)
  /\ 20 <= len data
  /\ StartsWithSequence data
  /\ OccursBeforeEnd versionBytes data
  /\ (Occurs pkcs12Signature data
      \/ Occurs (bytes_of "KEY") data
      \/ Occurs (bytes_of "PrivateKey") data
      \/ 100 < len data < 100000).
Proof.
  rewrite <- startsWithSequence_iff, <- versionFound_iff, <- !Contains_iff.
  split.
  - destruct (asn1.Unmarshal data) as [[ci rest]|e] eqn:Hu.
    + rewrite (Detect_strict _ _ _ Hu). discriminate.
    + rewrite (Detect_fallback _ _ Hu).
      destruct (encryptedVerdict data) eqn:Hv; [|discriminate].
      intros _. split; [now exists e|].
      unfold encryptedVerdict in Hv.
      apply andb_true_iff in Hv. destruct Hv as [Hv Hm].
      apply andb_true_iff in Hv. destruct Hv as [Hv Hver].
      apply andb_true_iff in Hv. destruct Hv as [Hlen Hseq].
      apply Z.leb_le in Hlen.
      repeat (split; [assumption|]).
      apply orb_true_iff in Hm. destruct Hm as [Hm|Hm].
      * apply orb_true_iff in Hm. destruct Hm as [Hm|Hm]; [|tauto].
        apply orb_true_iff in Hm. tauto.
      * apply andb_true_iff in Hm. destruct Hm as [H1 H2].
        apply Z.ltb_lt in H1, H2. right. right. right. lia.
  - intros [[e Hu] [Hlen [Hseq [Hver Hm]]]].
    rewrite (Detect_fallback _ _ Hu).
    assert (Hv : encryptedVerdict data = true).
    { unfold encryptedVerdict. rewrite Hseq, Hver.
      replace (20 <=? len data) with true by (symmetry; apply Z.leb_le; lia).
      cbn [andb]. destruct Hm as [->|[->|[->|[H1 H2]]]].
      - reflexivity.
      - now rewrite orb_true_r.
      - now rewrite !orb_true_r.
      - apply Z.ltb_lt in H1, H2. rewrite H1, H2. now rewrite !orb_true_r. }
    now rewrite Hv.
Qed.

(** X6. [Detect] reports the encrypted PKCS#12 result exactly on the
    buffers that the strict reader rejects, that have at least 20 bytes,
    start with 0x30, hold 0x02 0x01 0x03 followed by at least one byte, and
    either hold the PKCS#12 OID bytes, KEY or PrivateKey, or are longer than
    100 and shorter than 100000 bytes. *)
Theorem encrypted_result_iff (data : list byte) :
  Fallback.Detect data = Done (encryptedResult, None) <->
  (exists e, asn1.Unmarshal data = asn1.Err e)
  /\ 20 <= len data
  /\ StartsWithSequence data
  /\ OccursBeforeEnd versionBytes data
  /\ (Occurs pkcs12Signature data
      \/ Occurs (bytes_of "KEY") data
      \/ Occurs (bytes_of "PrivateKey") data
      \/ 100 < len data < 100000).
Proof. exact (Detect_encrypted_iff data). Qed.

Lemma encrypted_result_iff_witness :
  Fallback.Detect longUnmarked = Done (encryptedResult, None).
Proof.
  apply (proj2 (encrypted_result_iff longUnmarked)).
  split; [eexists; vm_compute; reflexivity|].
  split; [vm_compute; discriminate|].
  split; [eexists; reflexivity|].
  split.
  - exists (firstn 1 longUnmarked), (skipn 4 longUnmarked).
    split; [vm_compute; reflexivity | vm_compute; discriminate].
  - right. right. right. vm_compute. split; reflexivity.
Defined.

(** X7. [Detect] does not look past a well-formed envelope: bytes added
    after a buffer that the strict reader accepts change neither the result
    of [Detect], in either version, nor the answer of any predicate that
    delegates to it. *)
Theorem trailing_bytes_ignored (data extra : list byte)
        (ci : asn1.ContentInfo) (rest : list byte) :
  asn1.Unmarshal data = asn1.Ok (ci, rest) ->
  Fallback.Detect (data ++ extra) = Fallback.Detect data
  /\ Strict.Detect (data ++ extra) = Strict.Detect data
  /\ fallbackPredicates (data ++ extra) = fallbackPredicates data.
Proof.
  intros Hu. pose proof (Unmarshal_extend data extra ci rest Hu) as Hx.
  assert (Hd : Fallback.Detect (data ++ extra) = Fallback.Detect data)
    by (rewrite (Detect_strict _ _ _ Hu), (Detect_strict _ _ _ Hx);
        reflexivity).
  split; [exact Hd|]. split.
  - rewrite (Strict_Detect_strict _ _ _ Hu), (Strict_Detect_strict _ _ _ Hx).
    reflexivity.
  - unfold fallbackPredicates, Fallback.IsPKCS7Data,
      Fallback.IsPKCS7SignedData, Fallback.IsPKCS7EnvelopedData,
      Fallback.IsPKCS12, Fallback.IsUserKeyPKCS12.
    rewrite Hd. reflexivity.
Qed.

Lemma trailing_bytes_ignored_witness :
  Fallback.Detect (parsedWithMarkers ++ bytes_of "trailer")
  = Fallback.Detect parsedWithMarkers.
Proof.
  refine (proj1 (trailing_bytes_ignored parsedWithMarkers (bytes_of "trailer")
                   {| asn1.ContentType := PKCS7DataOID;
                      asn1.Content := _ |} [] _)).
  vm_compute. reflexivity.
Defined.

(** A buffer that parses with the PKCS#12 OID passes both guards of the
    scanning [IsUserKeyPKCS12]. *)
Lemma strict_pkcs12_user_key (data : list byte) :
  Strict.IsPKCS12 data = true ->
  11 <= len data /\ Strict.IsUserKeyPKCS12 data = Done true.
Proof.
  destruct (Strict_predicates_value data) as [_ [_ [_ ->]]].
  intros Hp. rewrite IsUserKeyPKCS12_value. unfold userKeyPolicy.
  rewrite strictPKCS12_parsesAs, Hp. unfold parsesAs in Hp.
  destruct (asn1.Unmarshal data) as [[ci rest]|e] eqn:Hu; [|discriminate].
  apply oid_Equal_eq in Hp.
  destruct (Unmarshal_Ok_size _ _ _ Hu) as [_ Hsize].
  destruct (Unmarshal_Ok_inv _ _ _ Hu) as [Hseq _].
  rewrite Hp in Hsize. change (len PKCS12OID) with 8 in Hsize.
  apply startsWithSequence_iff in Hseq. rewrite Hseq.
  replace (8 <=? len data) with true by (symmetry; apply Z.leb_le; lia).
  split; [lia | reflexivity].
Qed.

(** X8. In the version with the scanning predicates, whatever [IsPKCS12]
    accepts [IsUserKeyPKCS12] accepts: a buffer that parses with the PKCS#12
    OID has at least 11 bytes and starts with 0x30, so neither guard of
    [IsUserKeyPKCS12] turns it away. *)
Theorem IsPKCS12_is_user_key (data : list byte) :
  Strict.IsPKCS12 data = true ->
  11 <= len data /\ Strict.IsUserKeyPKCS12 data = Done true.
Proof. exact (strict_pkcs12_user_key data). Qed.

Lemma IsPKCS12_is_user_key_witness :
  Strict.IsUserKeyPKCS12
    [x30; x12; x06; x0a; x2a; x86; x48; x86; xf7; x0d; x01; x0c;
     x0a; x01; xa0; x04; x04; x02; xde; xad] = Done true.
Proof.
  refine (proj2 (IsPKCS12_is_user_key _ _)). vm_compute. reflexivity.
Defined.

(** X9. Up to 100000 bytes the scanning [IsUserKeyPKCS12] accepts every
    buffer that [isEncryptedPKCS12] accepts, and every buffer on which
    [IsPKCS12] of the detector with the fallback answers true. *)
Theorem scanning_accepts_fallback (data : list byte) :
  len data <= 100000 ->
  (Fallback.isEncryptedPKCS12 data = Done true ->
   Strict.IsUserKeyPKCS12 data = Done true)
  /\ (Fallback.IsPKCS12 data = Done true ->
      Strict.IsUserKeyPKCS12 data = Done true).
Proof.
  intros Hmax.
  assert (Hheur : encryptedVerdict data = true -> userKeyPolicy data = true).
  { unfold encryptedVerdict, userKeyPolicy. intros Hv.
    apply andb_true_iff in Hv. destruct Hv as [Hv _].
    apply andb_true_iff in Hv. destruct Hv as [Hv Hver].
    apply andb_true_iff in Hv. destruct Hv as [Hlen Hseq].
    rewrite Hseq, Hver, Hlen. apply Z.leb_le in Hlen.
    replace (8 <=? len data) with true by (symmetry; apply Z.leb_le; lia).
    replace (len data <=? 100000) with true
      by (symmetry; apply Z.leb_le; lia).
    cbn [andb]. apply orb_true_r. }
  split.
  - rewrite isEncryptedPKCS12_value, IsUserKeyPKCS12_value.
    intros [= Hv]. now rewrite (Hheur Hv).
  - rewrite IsPKCS12_value. intros [= Hv].
    apply orb_true_iff in Hv. destruct Hv as [Hs|Hf].
    + apply strict_pkcs12_user_key.
      destruct (Strict_predicates_value data) as [_ [_ [_ ->]]].
      now rewrite <- strictPKCS12_parsesAs.
    + rewrite IsUserKeyPKCS12_value.
      destruct (asn1.Unmarshal data); [discriminate|]. now rewrite (Hheur Hf).
Qed.

Lemma scanning_accepts_fallback_witness :
  Strict.IsUserKeyPKCS12 createMockPKCS12Key = Done true.
Proof.
  refine (proj2 (scanning_accepts_fallback createMockPKCS12Key _) _).
  - vm_compute. discriminate.
  - vm_compute. reflexivity.
Defined.

(** X10. The envelope the tests build is detected for every OID the reader
    can carry, not only for the OIDs the tests list.  For an OID of at least
    two and fewer than 2^28 arcs, whose first arc is 0, 1 or 2, whose second
    arc is at least 0 and below 40 under a first arc 0 or 1, and in which
    40 * first + second and every later arc lie between 0 and 2^31 - 1,
    [createTestData] succeeds, [Detect] returns the OID with its
    description in both versions, and each predicate answers true exactly
    when the OID is its own. *)
Theorem test_envelope_detected (oid : asn1.ObjectIdentifier) :
  validOID oid -> len oid < 2 ^ 28 ->
  exists data,
    createTestData oid = asn1.Ok data
    /\ Fallback.Detect data
       = Done (strictResult oid (GetOIDDescription oid), None)
    /\ Strict.Detect data
       = ({| Strict.Type_ := GetOIDDescription oid;
             Strict.ContentType := oid |}, None)
    /\ Fallback.IsPKCS7Data data = Done (asn1.Equal oid PKCS7DataOID)
    /\ Fallback.IsPKCS7SignedData data
       = Done (asn1.Equal oid PKCS7SignedDataOID)
    /\ Fallback.IsPKCS7EnvelopedData data
       = Done (asn1.Equal oid PKCS7EnvelopedDataOID)
    /\ Fallback.IsPKCS12 data = Done (asn1.Equal oid PKCS12OID).
Proof.
  intros Hvalid Hlen.
  destruct (Unmarshal_Marshal oid (explicitContent [x04; x02; xde; xad]) Hvalid)
    as [data [decoded [Hm [Hu [Hoid _]]]]].
  - right. exists [x04; x02; xde; xad]. split; [reflexivity | discriminate].
  - cbn [explicitContent asn1.Bytes].
    change (len [x04; x02; xde; xad]) with 4.
    change (2 ^ 28) with 268435456 in Hlen.
    change (2 ^ 31) with 2147483648. lia.
  - exists data. split; [exact Hm|].
    split; [rewrite (Detect_strict _ _ _ Hu), Hoid; reflexivity|].
    split; [rewrite (Strict_Detect_strict _ _ _ Hu), Hoid; reflexivity|].
    rewrite Fallback_IsPKCS7Data_value, Fallback_IsPKCS7SignedData_value,
      Fallback_IsPKCS7EnvelopedData_value, IsPKCS12_value.
    unfold strictPKCS12, parsesAs. rewrite Hu, Hoid, orb_false_r.
    repeat split.
Qed.

Lemma test_envelope_detected_witness :
  exists data,
    createTestData [2; 999; 3] = asn1.Ok data
    /\ Fallback.Detect data
       = Done (strictResult [2; 999; 3] "Unknown OID: 2.999.3", None).
Proof.
  destruct (test_envelope_detected [2; 999; 3]) as [data [Hm [Hd _]]].
  - cbn [validOID]. unfold asn1.MaxInt32.
    repeat split; try lia. repeat constructor; lia.
  - vm_compute. reflexivity.
  - exists data. split; [exact Hm | exact Hd].
Defined.

(** The bound on the packed first pair is needed: for 2.2147483647 the
    encoder writes 80 + 2147483647 as one base-128 integer, [createTestData]
    succeeds, and [Detect] rejects the envelope. *)
Lemma test_envelope_out_of_range :
  createTestData [2; 2147483647]
  = asn1.Ok [x30; x0d; x06; x05; x88; x80; x80; x80; x4f;
             xa0; x04; x04; x02; xde; xad]
  /\ Fallback.Detect [x30; x0d; x06; x05; x88; x80; x80; x80; x4f;
                      xa0; x04; x04; x02; xde; xad]
     = Done (Fallback.zeroResult,
             Some (Errorf "failed to parse ASN.1 structure: "
                     (asn1.StructuralError "base 128 integer too large"))).
Proof.
  split; vm_compute; reflexivity.
Qed.

(** X11. No buffer shorter than five bytes is ever detected: [Detect]
    returns an error and every predicate answers false.  Five is exact: the
    five bytes 30 03 06 01 2A are detected, as the unknown OID 1.2. *)
Theorem shortest_detected_buffer :
  (forall data,
      len data < 5 ->
      (exists e, Fallback.Detect data
                 = Done (Fallback.zeroResult,
                         Some (Errorf "failed to parse ASN.1 structure: " e)))
      /\ Forall (fun p => p = Done false) (allPredicates data))
  /\ Fallback.Detect [x30; x03; x06; x01; x2a]
     = Done (strictResult [1; 2] "Unknown OID: 1.2", None).
Proof.
  split; [|vm_compute; reflexivity].
  intros data Hlen.
  destruct (asn1.Unmarshal data) as [[ci rest]|e] eqn:Hu.
  { destruct (Unmarshal_Ok_size _ _ _ Hu). lia. }
  assert (Hv : encryptedVerdict data = false).
  { unfold encryptedVerdict.
    replace (20 <=? len data) with false by (symmetry; apply Z.leb_gt; lia).
    reflexivity. }
  assert (Hp : userKeyPolicy data = false).
  { unfold userKeyPolicy.
    replace (8 <=? len data) with false by (symmetry; apply Z.leb_gt; lia).
    reflexivity. }
  assert (Hd : Fallback.Detect data =
               Done (Fallback.zeroResult,
                     Some (Errorf "failed to parse ASN.1 structure: " e))).
  { rewrite (Detect_fallback _ _ Hu), Hv. reflexivity. }
  pose proof (Strict_Detect_error _ _ Hu) as Hs.
  split; [now exists e|].
  unfold allPredicates.
  repeat apply Forall_cons; try apply Forall_nil;
    try (unfold Fallback.IsPKCS7Data, Fallback.IsPKCS7SignedData,
           Fallback.IsPKCS7EnvelopedData, Fallback.IsPKCS12,
           Fallback.IsUserKeyPKCS12;
         rewrite Hd; reflexivity);
    try (unfold Strict.IsPKCS7Data, Strict.IsPKCS7SignedData,
           Strict.IsPKCS7EnvelopedData, Strict.IsPKCS12;
         rewrite Hs; reflexivity).
  - rewrite IsUserKeyPKCS12_value, Hp. reflexivity.
  - rewrite IsNCAKeyPKCS12_value, Hp. reflexivity.
Qed.

Lemma shortest_detected_buffer_witness :
  Forall (fun p => p = Done false) (allPredicates [x30; x02; x06; x00]).
Proof.
  refine (proj2 (proj1 shortest_detected_buffer [x30; x02; x06; x00] _)).
  vm_compute. reflexivity.
Defined.

(* ================================================================= *)
(** * The description determines the OID *)

Section Descriptions.

Lemma itoa_inj (a b : Z) : asn1.itoa a = asn1.itoa b -> a = b.
Proof.
  unfold asn1.itoa. intros H.
  assert (Hnn : forall v, Z.to_int v <> Decimal.Pos Decimal.Nil
                          /\ Z.to_int v <> Decimal.Neg Decimal.Nil).
  { intros [|p|p]; simpl; split; try discriminate;
      intros [= E]; now apply DecimalPos.Unsigned.to_uint_nonnil in E. }
  pose proof (NilZero.isi (Z.to_int a) (proj1 (Hnn a)) (proj2 (Hnn a))) as Ha.
  pose proof (NilZero.isi (Z.to_int b) (proj1 (Hnn b)) (proj2 (Hnn b))) as Hb.
  rewrite H in Ha. rewrite Ha in Hb. injection Hb as Hb.
  now apply DecimalZ.to_int_inj.
Qed.

Lemma dotFree_uint (d : Decimal.uint) :
  dotFree (NilEmpty.string_of_uint d) = true.
Proof. induction d; simpl; auto. Qed.

Lemma itoa_dotFree (v : Z) : dotFree (asn1.itoa v) = true.
Proof.
  unfold asn1.itoa, NilZero.string_of_int, NilZero.string_of_uint.
  destruct (Z.to_int v) as [d|d]; destruct d; simpl;
    try reflexivity; apply dotFree_uint.
Qed.

Lemma itoa_nonempty (v : Z) : asn1.itoa v <> "".
Proof.
  unfold asn1.itoa, NilZero.string_of_int, NilZero.string_of_uint.
  destruct (Z.to_int v) as [d|d]; destruct d; simpl; discriminate.
Qed.

(** Two dot-free words, each followed by nothing or by a dot and more, are
    read off the same string in one way only. *)
Lemma word_before_dot (x : string) :
  forall y r1 r2,
    dotFree x = true -> dotFree y = true ->
    (r1 = "" \/ exists t, r1 = String "." t) ->
    (r2 = "" \/ exists t, r2 = String "." t) ->
    (x ++ r1)%string = (y ++ r2)%string -> x = y /\ r1 = r2.
Proof.
  induction x as [|c x IH]; intros y r1 r2 Hx Hy H1 H2 Heq.
  - destruct y as [|d y]; simpl in Heq; [auto|].
    exfalso. simpl in Hy. apply andb_true_iff in Hy. destruct Hy as [Hd _].
    destruct H1 as [->|[t ->]]; [discriminate|].
    injection Heq as <- _. discriminate Hd.
  - destruct y as [|d y]; simpl in Heq.
    + exfalso. simpl in Hx. apply andb_true_iff in Hx. destruct Hx as [Hc _].
      destruct H2 as [->|[t ->]]; [discriminate|].
      injection Heq as -> _. discriminate Hc.
    + injection Heq as -> Heq.
      simpl in Hx, Hy. apply andb_true_iff in Hx, Hy.
      destruct (IH y r1 r2 (proj2 Hx) (proj2 Hy) H1 H2 Heq) as [-> ->].
      auto.
Qed.

Lemma dottedDecimal_cons (v : Z) (oid : asn1.ObjectIdentifier) :
  dottedDecimal (v :: oid)
  = (asn1.itoa v ++ match oid with
                    | [] => ""
                    | _ :: _ => String "." (dottedDecimal oid)
                    end)%string.
Proof.
  unfold dottedDecimal. destruct oid as [|w oid]; cbn [map String.concat].
  - now rewrite append_nil_r.
  - reflexivity.
Qed.

(** The dotted-decimal form determines the arcs. *)
Lemma dottedDecimal_inj (a : asn1.ObjectIdentifier) :
  forall b, dottedDecimal a = dottedDecimal b -> a = b.
Proof.
  induction a as [|v a IH]; intros [|w b] H.
  - reflexivity.
  - exfalso. rewrite dottedDecimal_cons in H. change (dottedDecimal []) with "" in H.
    pose proof (itoa_nonempty w). destruct (asn1.itoa w); [congruence|discriminate].
  - exfalso. rewrite dottedDecimal_cons in H. change (dottedDecimal []) with "" in H.
    pose proof (itoa_nonempty v). destruct (asn1.itoa v); [congruence|discriminate].
  - rewrite !dottedDecimal_cons in H.
    apply word_before_dot in H; try apply itoa_dotFree.
    + destruct H as [Hv Hr]. apply itoa_inj in Hv. subst w. f_equal.
      destruct a as [|a0 a], b as [|b0 b]; try discriminate; [reflexivity|].
      injection Hr as Hr. now apply IH.
    + destruct a; [now left | right; eauto].
    + destruct b; [now left | right; eauto].
Qed.

End Descriptions.

(** X12. [GetOIDDescription] never gives two different OIDs the same
    description: the seven labels differ from each other and from every
    "Unknown OID: ..." string, and the dotted-decimal form determines the
    arcs.  So the [Type] of a successful strict detection determines its
    [ContentType]. *)
Theorem GetOIDDescription_injective (a b : asn1.ObjectIdentifier) :
  GetOIDDescription a = GetOIDDescription b -> a = b.
Proof.
  unfold GetOIDDescription.
  repeat match goal with
  | |- context [asn1.Equal a ?k] =>
    let E := fresh "Ea" in
    destruct (asn1.Equal a k) eqn:E; [apply oid_Equal_eq in E|]
  end;
  repeat match goal with
  | |- context [asn1.Equal b ?k] =>
    let E := fresh "Eb" in
    destruct (asn1.Equal b k) eqn:E; [apply oid_Equal_eq in E|]
  end;
  try discriminate; try congruence.
  intros [= H]. rewrite !String_dotted in H. now apply dottedDecimal_inj.
Qed.

Lemma GetOIDDescription_injective_witness :
  GetOIDDescription (PKCS7DataOID ++ []) = GetOIDDescription PKCS7DataOID
  /\ PKCS7DataOID ++ [] = PKCS7DataOID.
Proof.
  split; [reflexivity|].
  apply GetOIDDescription_injective. reflexivity.
Defined.

(** X13. [IsNCAKeyPKCS12] answers true only on buffers on which
    [IsUserKeyPKCS12] answers true and that hold one of the named markers or
    the fixed byte signature. *)
Theorem nca_key_needs_user_key (data : list byte) :
  Strict.IsNCAKeyPKCS12 data = Done true ->
  Strict.IsUserKeyPKCS12 data = Done true
  /\ (hasVendorMarker data = true
      \/ Occurs Strict.kazakhstanSignature data).
Proof.
  rewrite IsNCAKeyPKCS12_value, IsUserKeyPKCS12_value, <- Contains_iff.
  intros [= H]. apply andb_true_iff in H. destruct H as [-> H].
  split; [reflexivity|]. now apply orb_true_iff in H.
Qed.

Lemma nca_key_needs_user_key_witness :
  Strict.IsUserKeyPKCS12 mockNCAP12 = Done true
  /\ (hasVendorMarker mockNCAP12 = true
      \/ Occurs Strict.kazakhstanSignature mockNCAP12).
Proof.
  apply nca_key_needs_user_key. vm_compute. reflexivity.
Defined.

(** X14. A truncated envelope is never taken for a whole one.  When the
    strict reader accepts a buffer and consumes all of it, it rejects every
    proper prefix of the buffer; on such a prefix the strict [Detect]
    returns an error, and [Detect] with the fallback returns either that
    error or the encrypted PKCS#12 result, never an OID. *)
Theorem truncated_envelope_rejected (p q : list byte) (ci : asn1.ContentInfo) :
  asn1.Unmarshal (p ++ q) = asn1.Ok (ci, []) ->
  q <> [] ->
  exists e,
    asn1.Unmarshal p = asn1.Err e
    /\ Strict.Detect p
       = (Strict.zeroResult,
          Some (Errorf "failed to parse ASN.1 structure: " e))
    /\ (Fallback.Detect p = Done (encryptedResult, None)
        \/ Fallback.Detect p
           = Done (Fallback.zeroResult,
                   Some (Errorf "failed to parse ASN.1 structure: " e))).
Proof.
  intros Hu Hq.
  destruct (asn1.Unmarshal p) as [[ci' rest']|e] eqn:Hp.
  - exfalso. apply (Unmarshal_extend p q) in Hp. rewrite Hp in Hu.
    injection Hu as _ Hrest. apply app_eq_nil in Hrest. tauto.
  - exists e. split; [reflexivity|].
    split; [apply (Strict_Detect_error _ _ Hp)|].
    rewrite (Detect_fallback _ _ Hp).
    destruct (encryptedVerdict p); [now left | now right].
Qed.

Lemma truncated_envelope_rejected_witness :
  exists e,
    asn1.Unmarshal (firstn 22 parsedWithMarkers) = asn1.Err e
    /\ Fallback.Detect (firstn 22 parsedWithMarkers)
       = Done (encryptedResult, None).
Proof.
  destruct (truncated_envelope_rejected
              (firstn 22 parsedWithMarkers) (skipn 22 parsedWithMarkers)
              {| asn1.ContentType := PKCS7DataOID;
                 asn1.Content :=
                   {| asn1.Class := 2; asn1.Tag := 0; asn1.IsCompound := true;
                      asn1.Bytes := [x02; x01; x03; x4b; x45; x59; x00; x00];
                      asn1.FullBytes :=
                        [xa0; x08; x02; x01; x03; x4b; x45; x59; x00; x00]
                   |} |})
    as [e [He [_ Hd]]].
  - vm_compute. reflexivity.
  - vm_compute. discriminate.
  - exists e. split; [exact He|].
    destruct Hd as [Hd|Hd]; [exact Hd|].
    exfalso. vm_compute in Hd. discriminate Hd.
Defined.

Section PFX.

Lemma parseField_ContentType_rejects_integer (inner : list byte) (tail : list byte) :
  inner = x02 :: tail ->
  exists e, asn1.parseField_ContentType inner 0 = asn1.Err e.
Proof.
  intros ->. unfold asn1.parseField_ContentType.
  destruct (0 =? len (x02 :: tail)); [eexists; reflexivity|].
  destruct (asn1.parseTagAndLength (x02 :: tail) 0) as [[t off]|e] eqn:Ht;
    [|eexists; reflexivity].
  apply parseTagAndLength_inv in Ht.
  destruct Ht as [b [Hb [_ [_ [Htag _]]]]].
  unfold asn1.at_offset in Hb. simpl in Hb. injection Hb as <-.
  change (Z.land (byteval x02) 31) with 2 in Htag.
  replace (asn1.tag t =? asn1.TagOID) with false
    by (symmetry; apply Z.eqb_neq; unfold asn1.TagOID; lia).
  rewrite orb_true_r. cbn [orb]. eexists; reflexivity.
Qed.

(** A buffer laid out as a PFX, a SEQUENCE header followed by the version
    INTEGER 3, is rejected by the strict reader: its first element is not an
    OBJECT IDENTIFIER. *)
Lemma Unmarshal_rejects_pfx (L : Z) (rest : list byte) :
  0 <= L < 2 ^ 31 ->
  exists e,
    asn1.Unmarshal
      (asn1.appendTagAndLength []
         {| asn1.class := asn1.ClassUniversal; asn1.tag := asn1.TagSequence;
            asn1.length := L; asn1.isCompound := true |}
       ++ versionBytes ++ rest)
    = asn1.Err e.
Proof.
  intros HL.
  set (t := {| asn1.class := asn1.ClassUniversal; asn1.tag := asn1.TagSequence;
               asn1.length := L; asn1.isCompound := true |}).
  pose proof (header_length t ltac:(simpl; unfold asn1.TagSequence; lia)
                ltac:(exact HL)) as Hh.
  pose proof (parseTagAndLength_append t [] (versionBytes ++ rest)
                ltac:(simpl; unfold asn1.ClassUniversal; lia)
                ltac:(simpl; unfold asn1.TagSequence; lia)
                ltac:(exact HL)) as Hp.
  cbn [app] in Hp. change (len (@nil byte)) with 0 in Hp. cbn [Z.add] in Hp.
  set (hdr := asn1.appendTagAndLength [] t) in *.
  unfold asn1.Unmarshal, asn1.parseField_ContentInfo.
  destruct (0 =? len (hdr ++ versionBytes ++ rest)); [eexists; reflexivity|].
  rewrite Hp. cbn [asn1.class asn1.tag asn1.length asn1.isCompound t].
  rewrite !Z.eqb_refl. cbn [negb orb Bool.eqb].
  destruct (asn1.invalidLength (len hdr) L (len (hdr ++ versionBytes ++ rest)))
    eqn:Hinv; [eexists; reflexivity|].
  destruct (Z.eq_dec L 0) as [->|HL0].
  - (* an empty body *)
    unfold asn1.parseField_ContentType.
    replace (0 =? len (asn1.sub (hdr ++ versionBytes ++ rest) (len hdr)
                                (len hdr + 0))) with true.
    + eexists; reflexivity.
    + symmetry. apply Z.eqb_eq. unfold asn1.sub, len.
      replace (Z.to_nat (Z.of_nat (List.length hdr) + 0
                         - Z.of_nat (List.length hdr))) with 0%nat by lia.
      reflexivity.
  - (* the body starts with the INTEGER tag *)
    destruct (parseField_ContentType_rejects_integer
                (asn1.sub (hdr ++ versionBytes ++ rest) (len hdr) (len hdr + L))
                (firstn (Z.to_nat L - 1) ([x01; x03] ++ rest))) as [e He].
    + unfold asn1.sub, len.
      rewrite Nat2Z.id, skipn_app, Nat.sub_diag, skipn_all. cbn [skipn app].
      replace (Z.to_nat (Z.of_nat (List.length hdr) + L
                         - Z.of_nat (List.length hdr)))
        with (S (Z.to_nat L - 1)) by lia.
      reflexivity.
    + rewrite He. eexists; reflexivity.
Qed.

End PFX.

(** X15. A buffer laid out as a PKCS#12 PFX (a SEQUENCE header, then the
    version INTEGER 3, then more bytes) never passes the strict parse, so
    the strict [IsPKCS12] answers false on it; when it is longer than 100
    and shorter than 100000 bytes, [Detect] with the fallback reports it as
    encrypted PKCS#12, whether or not it is encrypted, and [IsPKCS12] and
    the scanning [IsUserKeyPKCS12] answer true. *)
Theorem pfx_layout_detected (L : Z) (rest data : list byte) :
  0 <= L < 2 ^ 31 ->
  rest <> [] ->
  data = asn1.appendTagAndLength []
           {| asn1.class := asn1.ClassUniversal; asn1.tag := asn1.TagSequence;
              asn1.length := L; asn1.isCompound := true |}
         ++ versionBytes ++ rest ->
  Strict.IsPKCS12 data = false
  /\ (100 < len data < 100000 ->
      Fallback.Detect data = Done (encryptedResult, None)
      /\ Fallback.IsPKCS12 data = Done true
      /\ Strict.IsUserKeyPKCS12 data = Done true).
Proof.
  intros HL Hrest Hdata.
  destruct (Unmarshal_rejects_pfx L rest HL) as [e Hu].
  rewrite <- Hdata in Hu.
  set (t := {| asn1.class := asn1.ClassUniversal; asn1.tag := asn1.TagSequence;
               asn1.length := L; asn1.isCompound := true |}) in *.
  assert (Hseq : StartsWithSequence data).
  { apply (proj1 (startsWithSequence_iff data)). rewrite Hdata.
    unfold asn1.appendTagAndLength.
    cbn [asn1.tag asn1.class asn1.isCompound asn1.length t].
    change (31 <=? asn1.TagSequence) with false. cbn iota.
    destruct (128 <=? L); reflexivity. }
  assert (Hver : OccursBeforeEnd versionBytes data).
  { exists (asn1.appendTagAndLength [] t), rest. split; assumption. }
  split.
  - destruct (Strict_predicates_value data) as [_ [_ [_ ->]]].
    unfold parsesAs. now rewrite Hu.
  - intros Hlen.
    assert (Hd : Fallback.Detect data = Done (encryptedResult, None)).
    { apply Detect_encrypted_iff. split; [now exists e|].
      split; [lia|]. split; [assumption|]. split; [assumption|].
      right. right. right. assumption. }
    split; [exact Hd|]. split.
    + unfold Fallback.IsPKCS12. rewrite Hd. reflexivity.
    + apply (proj2 (scanning_user_key_true data)).
      split; [lia|]. split; [assumption|]. right. split; [assumption | lia].
Qed.

Lemma pfx_layout_detected_witness :
  Strict.IsPKCS12 pfxSample = false
  /\ Fallback.Detect pfxSample = Done (encryptedResult, None)
  /\ Fallback.IsPKCS12 pfxSample = Done true
  /\ Strict.IsUserKeyPKCS12 pfxSample = Done true.
Proof.
  destruct (pfx_layout_detected 256 (repeat x00 100) pfxSample) as [H1 H2].
  - vm_compute. split; [discriminate | reflexivity].
  - vm_compute. discriminate.
  - vm_compute. reflexivity.
  - split; [exact H1|]. apply H2. vm_compute. split; reflexivity.
Defined.

(* ================================================================= *)
(** * The two [IsUserKeyPKCS12] *)



